(** * crypto-etl-pipeline: the fetch/store pipeline and the hourly aggregation

    A shallow embedding of [pipeline.py] ([init_db], [fetch_candles],
    [store_data], [run_pipeline]) and of [pipeline_visualization.py]
    ([fetch_aggregated_data], [generate_plot] and the script), with the
    properties of the pagination, of the uniquely keyed store, of the GROUP
    BY query, of a whole run and of the figure.

    Conventions of the model.
    - A Python [datetime] is the number of microseconds since
      0001-01-01T00:00:00, between 0 and [MAX]; arithmetic that leaves this
      range raises [OverflowError], as Python's does.
    - A Python [float] and an SQLite REAL are the rationals they denote (no
      infinity, no NaN). Where the code has SQLite do arithmetic on them,
      in AVG and SUM, every operation rounds to binary64 and may give an
      infinity.
    - Effects are explicit: the network is a function answering the n-th
      request, standard output and the HTTP traffic are lists of events, the
      database connection is a record of the committed table and of the table
      as the open transaction sees it.
    - An exception that the code does not catch ends the call: the result is
      [Raised e]. *)

From Stdlib Require Import ZArith QArith Qround List String Ascii Bool Lia.
From Stdlib Require Import Sorted Permutation.
From Equations Require Import Equations.
Import ListNotations.

Local Open Scope string_scope.
Local Open Scope list_scope.
Local Open Scope Z_scope.

(** ** Python values and exceptions *)

Inductive sqlite_error :=
| OperationalError   (* no such table: candles *)
| InterfaceError.    (* a parameter of a type sqlite3 cannot bind
                         (ProgrammingError from Python 3.11 on) *)

Inductive exn :=
| IndexError
| TypeError
| ValueError
| OverflowError
| JSONDecodeError
| RequestException
| PandasDatabaseError
| SqliteError (e : sqlite_error).

Inductive outcome (A : Type) :=
| Returned (a : A)
| Raised (e : exn).
Arguments Returned {A} a.
Arguments Raised {A} e.

(** The values a candle holds once [response.json()] has decoded it: [None],
    an [int] (a [bool] is the int 0 or 1), a [float], or an object of another
    type (a list, a dict), which is no number and which sqlite3 cannot
    bind. *)
Inductive pyval :=
| PyNone
| PyInt (z : Z)
| PyFloat (q : Q)
| PyObj.

(** [[time, low, high, open, close, volume]] *)
Definition candle := list pyval.

(** ** datetime *)

Module Datetime.

Definition datetime := Z.
Definition timedelta := Z.

Definition US_PER_SECOND : Z := 1000000.
Definition US_PER_DAY : Z := 86400 * US_PER_SECOND.

(** [datetime.max] is 9999-12-31T23:59:59.999999, the last microsecond of
    day 3652059. *)
Definition MAX : datetime := 3652059 * US_PER_DAY - 1.

Definition valid (t : datetime) : Prop := 0 <= t <= MAX.

Definition minutes (m : Z) : timedelta := m * 60 * US_PER_SECOND.

(** [t + d]: [OverflowError: date value out of range] outside years
    1..9999. *)
Definition add (t : datetime) (d : timedelta) : outcome datetime :=
  let r := t + d in
  if (0 <=? r) && (r <=? MAX) then Returned r else Raised OverflowError.

(** Year, month and day of the day number [d] (0 is 0001-01-01), in the
    proleptic Gregorian calendar: the count goes by 400-year eras that
    start on 1 March. *)
Definition civil (d : Z) : Z * Z * Z :=
  let z := d + 306 in
  let era := z / 146097 in
  let doe := z mod 146097 in
  let yoe := (doe - doe / 1460 + doe / 36524 - doe / 146096) / 365 in
  let doy := doe - (365 * yoe + yoe / 4 - yoe / 100) in
  let mp := (5 * doy + 2) / 153 in
  let day := doy - (153 * mp + 2) / 5 + 1 in
  let month := if mp <? 10 then mp + 3 else mp - 9 in
  let year := yoe + era * 400 + (if month <=? 2 then 1 else 0) in
  (year, month, day).

Definition digit (n : Z) : ascii := ascii_of_nat (48 + Z.to_nat (n mod 10)).

(** [n] in decimal on [k] digits, padded with zeros. *)
Fixpoint zpad (k : nat) (n : Z) : string :=
  match k with
  | O => EmptyString
  | S k' => (zpad k' (n / 10) ++ String (digit n) EmptyString)%string
  end.

(** [datetime.isoformat()] of a naive datetime:
    YYYY-MM-DDTHH:MM:SS, followed by .ffffff when the microsecond is not
    zero. *)
Definition isoformat (t : datetime) : string :=
  let '(y, m, d) := civil (t / US_PER_DAY) in
  let us_of_day := t mod US_PER_DAY in
  let s_of_day := us_of_day / US_PER_SECOND in
  let us := us_of_day mod US_PER_SECOND in
  (zpad 4 y ++ "-" ++ zpad 2 m ++ "-" ++ zpad 2 d ++ "T"
   ++ zpad 2 (s_of_day / 3600) ++ ":" ++ zpad 2 (s_of_day / 60 mod 60)
   ++ ":" ++ zpad 2 (s_of_day mod 60)
   ++ (if (us =? 0)%Z then "" else "." ++ zpad 6 us))%string.

(** Seconds from 0001-01-01 to the Unix epoch. *)
Definition EPOCH_SECONDS : Z := 719162 * 86400.

(** Rounding to the nearest integer, ties to the even one. *)
Definition round_half_even (x : Q) : Z :=
  let f := Qfloor x in
  match Qcompare (x - inject_Z f) (1 # 2) with
  | Lt => f
  | Gt => f + 1
  | Eq => if Z.even f then f else f + 1
  end.

(** The instant of a Unix timestamp, in microseconds since the Unix epoch:
    an int is taken as it is, a float is rounded half-even to the
    microsecond; anything else is a [TypeError]. *)
Definition unix_micros (v : pyval) : outcome Z :=
  match v with
  | PyInt z => Returned (z * US_PER_SECOND)
  | PyFloat q => Returned (round_half_even (q * inject_Z US_PER_SECOND))
  | PyNone | PyObj => Raised TypeError
  end.

(** [datetime.fromtimestamp(v, timezone.utc)]: the UTC datetime of the
    Unix timestamp [v]; a year outside 1..9999 is refused (with a
    [ValueError], or an [OverflowError] when the number is very large: the
    model has one name for both). *)
Definition fromtimestamp_utc (v : pyval) : outcome datetime :=
  match unix_micros v with
  | Raised e => Raised e
  | Returned us =>
      let t := us + EPOCH_SECONDS * US_PER_SECOND in
      if (0 <=? t) && (t <=? MAX) then Returned t else Raised ValueError
  end.

(** [isoformat()] of a datetime whose tzinfo is [timezone.utc]. *)
Definition isoformat_utc (t : datetime) : string :=
  (isoformat t ++ "+00:00")%string.

End Datetime.

(** ** Exceptions as results *)

Definition bind_outcome {A B : Type} (x : outcome A) (k : A -> outcome B)
  : outcome B :=
  match x with
  | Returned a => k a
  | Raised e => Raised e
  end.

Notation "x <- e ;; k" := (bind_outcome e (fun x => k))
  (at level 61, e at next level, right associativity).

(** [l[i]] on a list: [IndexError] past the end. *)
Definition subscript {A : Type} (l : list A) (i : nat) : outcome A :=
  match nth_error l i with
  | Some a => Returned a
  | None => Raised IndexError
  end.

(** ** The candles table *)

Module Sqlite.

(** What a REAL column of the table holds. *)
Inductive cell :=
| Null
| Real (q : Q).

Record row := mk_row {
  timestamp : string;
  product_id : string;
  low : cell;
  high : cell;
  open : cell;
  close : cell;
  volume : cell
}.

(** The rows in the order of their insertion. *)
Definition table := list row.

(** [None]: the database has no candles table. *)
Definition database := option table.

(** The connection that [init_db] returns and [store_data] works on:
    [committed] is what the file holds, [session] is what the connection
    sees, with the rows of its open transaction. *)
Record connection := mk_connection {
  committed : database;
  session : database
}.

(** PRIMARY KEY (timestamp, product_id) *)
Definition key (r : row) : string * string := (timestamp r, product_id r).

Definition same_key (r s : row) : bool :=
  String.eqb (timestamp r) (timestamp s)
  && String.eqb (product_id r) (product_id s).

(** INSERT OR IGNORE: a row whose key is in the table is dropped, another
    one is appended. *)
Definition insert_or_ignore (t : table) (r : row) : table :=
  if existsb (same_key r) t then t else t ++ [r].

Definition INT64_MIN : Z := - 2 ^ 63.
Definition INT64_MAX : Z := 2 ^ 63 - 1.

(** Binding a Python value to a parameter of a statement, and the REAL
    affinity of the column it lands in: [None] is NULL, an int becomes a
    REAL when it fits 64 bits and is an [OverflowError] (which is no
    [sqlite3.Error]) when it does not, an object of another type is
    refused with an [sqlite3.Error]. *)
Definition bind (v : pyval) : outcome cell :=
  match v with
  | PyNone => Returned Null
  | PyInt z =>
      if (INT64_MIN <=? z) && (z <=? INT64_MAX) then Returned (Real (inject_Z z))
      else Raised OverflowError
  | PyFloat q => Returned (Real q)
  | PyObj => Raised (SqliteError InterfaceError)
  end.

(** The row that the parameters of the INSERT make, bound from left to
    right; the two texts always bind. *)
Definition bind_row (ts pid : string)
  (low_ high_ open_ close_ volume_ : pyval) : outcome row :=
  l <- bind low_ ;;
  h <- bind high_ ;;
  o <- bind open_ ;;
  c <- bind close_ ;;
  v <- bind volume_ ;;
  Returned (mk_row ts pid l h o c v).

(** [cursor.execute] of the statement
    INSERT OR IGNORE INTO candles (timestamp, product_id, low, high, open,
    close, volume) VALUES (?, ?, ?, ?, ?, ?, ?):
    the statement is prepared (which fails when there is no table), the
    parameters are bound, the row is inserted. *)
Definition execute_insert (db : database) (ts pid : string)
  (low_ high_ open_ close_ volume_ : pyval) : outcome database :=
  match db with
  | None => Raised (SqliteError OperationalError)
  | Some t =>
      r <- bind_row ts pid low_ high_ open_ close_ volume_ ;;
      Returned (Some (insert_or_ignore t r))
  end.

End Sqlite.

(** ** pipeline.py *)

Module Pipeline.
Import Sqlite.

(** What the functions print. *)
Inductive message :=
| Fetched (n : nat) (product_id : string) (current_start current_end : Datetime.datetime)
| NoData (product_id : string) (current_start : Datetime.datetime)
| FailedToFetch (status_code : Z)
| DatabaseError (e : sqlite_error)
| Stored (count : nat) (product_id : string).

(** *** Configuration *)

Definition DB_NAME : string := "crypto_data.db".
Definition PRODUCT_IDS : list string := ["BTC-USD"; "ETH-USD"].

(** The analysis window: 2025-11-17T00:00:00 to 2025-11-24T23:59:59. *)
Definition START_TIME : Datetime.datetime := 739571 * Datetime.US_PER_DAY.
Definition END_TIME : Datetime.datetime :=
  739578 * Datetime.US_PER_DAY + 86399 * Datetime.US_PER_SECOND.

(** The granularity of the exchange: 60 seconds. *)
Definition GRANULARITY : Z := 60.

(** *** init_db *)

(** [file] is the content of the database file when the connection is
    opened. DROP TABLE IF EXISTS, then CREATE TABLE IF NOT EXISTS; both run
    outside a transaction, so they are committed at once. *)
Definition init_db (reset : bool) (file : database) : connection :=
  let dropped := if reset then None else file in
  let created := match dropped with
                 | None => Some []
                 | Some t => Some t
                 end in
  mk_connection created created.

(** *** fetch_candles *)

Record params := mk_params {
  start : string;
  end_ : string;
  granularity : Z
}.

Record response := mk_response {
  status_code : Z;
  (** what [response.json()] returns, or the exception it raises when the
      body is no JSON; a body that is JSON is taken to be an array of
      candles, as the exchange sends it *)
  json : outcome (list candle)
}.

(** The exchange and the network between: the answer to the [n]-th call of
    [requests.get], which may be an exception. *)
Definition network := nat -> string -> params -> outcome response.

Inductive event :=
| Get (url : string) (p : params)
| Printed (m : message)
| Sleep (seconds : Q).

Definition trace := list event.

Definition delta : Datetime.timedelta := Datetime.minutes 300.

(** [current_end = current_start + delta], cut at [end]. *)
Definition window_end (current_start end_time : Datetime.datetime)
  : outcome Datetime.datetime :=
  current_end <- Datetime.add current_start delta ;;
  Returned (if current_end >? end_time then end_time else current_end).

Definition product_url (product_id : string) : string :=
  ("https://api.exchange.coinbase.com/products/" ++ product_id
   ++ "/candles")%string.

(** The request of one window and what is done with the response: the
    events, and [all_candles] afterwards. *)
Definition request_window (net : network) (n : nat) (product_id : string)
  (gran : Z) (current_start current_end : Datetime.datetime)
  (all_candles : list candle) : trace * outcome (list candle) :=
  let p := mk_params (Datetime.isoformat current_start)
                     (Datetime.isoformat current_end) gran in
  let url := product_url product_id in
  match net n url p with
  | Raised e => ([Get url p], Raised e)
  | Returned resp =>
      if status_code resp =? 200 then
        match json resp with
        | Raised e => ([Get url p], Raised e)
        | Returned [] =>
            ([Get url p; Printed (NoData product_id current_start)],
             Returned all_candles)
        | Returned data =>
            ([Get url p;
              Printed (Fetched (List.length data) product_id current_start current_end)],
             Returned (all_candles ++ data))
        end
      else
        ([Get url p; Printed (FailedToFetch (status_code resp))],
         Returned all_candles)
  end.

Definition inspect {A : Type} (a : A) : {b : A | a = b} := exist _ a eq_refl.

Definition after (evs : trace) (r : trace * outcome (list candle))
  : trace * outcome (list candle) :=
  (evs ++ fst r, snd r).

(** The number of windows between [current_start] and [end_time]. *)
Definition windows_left (end_time current_start : Datetime.datetime) : nat :=
  Z.to_nat ((end_time - current_start + delta - 1) / delta).

(** The while loop, from [current_start] on; [n] requests were made
    before. *)
Equations? fetch_loop (net : network) (product_id : string) (gran : Z)
  (end_time current_start : Datetime.datetime) (n : nat)
  (all_candles : list candle) : trace * outcome (list candle)
  by wf (windows_left end_time current_start) lt :=
fetch_loop net product_id gran end_time current_start n all_candles
  with Z_lt_dec current_start end_time := {
  | right _ := ([], Returned all_candles)
  | left _ with inspect (window_end current_start end_time) := {
    | exist _ (Raised e) _ := ([], Raised e)
    | exist _ (Returned current_end) _
        with request_window net n product_id gran current_start current_end
               all_candles := {
      | (evs, Raised e) := (evs, Raised e)
      | (evs, Returned all_candles') :=
          after (evs ++ [Sleep (1 # 2)])
            (fetch_loop net product_id gran end_time current_end (S n)
               all_candles') } } }.
Proof.
  unfold window_end, Datetime.add, bind_outcome in e.
  destruct ((0 <=? current_start + delta) && (current_start + delta <=? Datetime.MAX));
    [| discriminate].
  injection e as <-.
  unfold windows_left.
  assert (Hd : 0 < delta) by reflexivity.
  destruct (current_start + delta >? end_time) eqn:Hc.
  - replace (end_time - end_time + delta - 1) with (delta - 1) by lia.
    rewrite Z.div_small by lia.
    assert (1 <= (end_time - current_start + delta - 1) / delta)
      by (apply Z.div_le_lower_bound; lia).
    lia.
  - replace (end_time - current_start + delta - 1)
      with (end_time - (current_start + delta) + delta - 1 + 1 * delta) by lia.
    rewrite Z.div_add by lia.
    assert (0 <= (end_time - (current_start + delta) + delta - 1) / delta)
      by (apply Z.div_pos; lia).
    lia.
Qed.

Definition fetch_candles (net : network) (product_id : string)
  (start_time end_time : Datetime.datetime) (gran : Z)
  : trace * outcome (list candle) :=
  fetch_loop net product_id gran end_time start_time 0 [].

(** *** store_data *)

(** Lines 102 and 103: the ISO text of [candle[0]] read as a Unix
    timestamp in UTC, then [candle[1]] to [candle[5]]. *)
Definition read_candle (candle : candle)
  : outcome (string * (pyval * pyval * pyval * pyval * pyval)) :=
  t <- subscript candle 0 ;;
  dt <- Datetime.fromtimestamp_utc t ;;
  low_ <- subscript candle 1 ;;
  high_ <- subscript candle 2 ;;
  open_p <- subscript candle 3 ;;
  close_p <- subscript candle 4 ;;
  volume_ <- subscript candle 5 ;;
  Returned (Datetime.isoformat_utc dt, (low_, high_, open_p, close_p, volume_)).

(** Where the for loop stands when it ends or an exception leaves it: the
    table as the cursor sees it, what was printed, and [count]. *)
Record stored := mk_stored {
  db_after : database;
  printed : list message;
  result : outcome nat
}.

Definition say (m : message) (s : stored) : stored :=
  mk_stored (db_after s) (m :: printed s) (result s).

Fixpoint store_loop (db : database) (product_id : string)
  (candles : list candle) (count : nat) : stored :=
  match candles with
  | [] => mk_stored db [] (Returned count)
  | candle :: rest =>
      match read_candle candle with
      | Raised e => mk_stored db [] (Raised e)
      | Returned (ts, (low_, high_, open_p, close_p, volume_)) =>
          match execute_insert db ts product_id low_ high_ open_p close_p volume_ with
          | Returned db' => store_loop db' product_id rest (S count)
          | Raised (SqliteError e) =>
              say (DatabaseError e) (store_loop db product_id rest count)
          | Raised e => mk_stored db [] (Raised e)
          end
      end
  end.

Record call := mk_call {
  conn_after : connection;
  stdout : list message;
  ret : outcome unit
}.

(** The loop, then [conn.commit()] and the report; an exception that
    leaves the loop leaves the transaction open. *)
Definition store_data (conn : connection) (product_id : string)
  (candles : list candle) : call :=
  let s := store_loop (session conn) product_id candles 0 in
  match result s with
  | Returned count =>
      mk_call (mk_connection (db_after s) (db_after s))
              (printed s ++ [Stored count product_id])
              (Returned tt)
  | Raised e =>
      mk_call (mk_connection (committed conn) (db_after s))
              (printed s)
              (Raised e)
  end.

End Pipeline.

(** ** binary64 *)

Module Binary64.

(** A binary64 number that is no NaN: a rational of the form m * 2^e with
    |m| < 2^53 and -1074 <= e <= 971, or an infinity. The two zeros are one
    zero. *)
Inductive double :=
| Finite (q : Q)
| Infinite (negative : bool).

(** The exponent of the smallest positive number, 2^-1074, and of the
    largest finite one, (2^53 - 1) * 2^971. *)
Definition EMIN : Z := -1074.
Definition EMAX : Z := 971.

(** floor (log2 (n / d)), for n and d positive. *)
Definition floor_log2 (n d : Z) : Z :=
  let k := Z.log2 n - Z.log2 d in
  if (if 0 <=? k then d * 2 ^ k <=? n else d <=? n * 2 ^ (- k)) then k
  else k - 1.

(** x / 2^e *)
Definition scale (x : Q) (e : Z) : Q :=
  if 0 <=? e then (x / inject_Z (2 ^ e))%Q else (x * inject_Z (2 ^ (- e)))%Q.

(** m * 2^e *)
Definition dyadic (m e : Z) : Q :=
  Qred (if 0 <=? e then inject_Z (m * 2 ^ e)
        else (inject_Z m / inject_Z (2 ^ (- e)))%Q).

(** Rounding to the nearest binary64 number, ties to the one whose
    significand is even; beyond the largest finite number, to infinity. For
    [x] other than 0, [e] is the exponent of the last bit of the
    significand: 52 below that of the first bit, and -1074 at least. *)
Definition round (x : Q) : double :=
  if Qnum x =? 0 then Finite 0
  else
    let e := Z.max (floor_log2 (Z.abs (Qnum x)) (Zpos (Qden x)) - 52) EMIN in
    let m := Datetime.round_half_even (scale (Z.abs (Qnum x) # Qden x) e) in
    if (EMAX <? e) || ((e =? EMAX) && (2 ^ 53 <=? m))
    then Infinite (Qnum x <? 0)
    else Finite (dyadic (Z.sgn (Qnum x) * m) e).

(** [a + q] and [a / n] in binary64, for a finite [q] and a count [n]. *)
Definition add (a : double) (q : Q) : double :=
  match a with
  | Finite s => round (s + q)
  | Infinite _ => a
  end.

Definition div (a : double) (n : nat) : double :=
  match a with
  | Finite s => round (s / inject_Z (Z.of_nat n))
  | Infinite _ => a
  end.

End Binary64.

(** ** pipeline_visualization.py *)

Module Visualization.
Import Sqlite.

(** A group of GROUP BY product_id, hour_bucket; the bucket is NULL when
    strftime cannot read the timestamp. *)
Definition group := (string * option string)%type.

Definition group_eqb (g h : group) : bool :=
  String.eqb (fst g) (fst h)
  && match snd g, snd h with
     | Some a, Some b => String.eqb a b
     | None, None => true
     | _, _ => false
     end.

(** The running state of AVG(close) and SUM(volume) in one group: sum and
    number of the values that are not NULL. SQLite keeps the sum in a
    binary64 variable that starts at 0.0 and to which it adds each value as
    the row comes (versions before 3.44; later ones carry a correction term
    besides). *)
Record aggregate := mk_aggregate {
  close_sum : Binary64.double;
  close_count : nat;
  volume_sum : Binary64.double;
  volume_count : nat
}.

Definition no_rows : aggregate :=
  mk_aggregate (Binary64.Finite 0) 0 (Binary64.Finite 0) 0.

Definition step (a : aggregate) (r : row) : aggregate :=
  let '(cs, cn) := match close r with
                   | Null => (close_sum a, close_count a)
                   | Real q => (Binary64.add (close_sum a) q, S (close_count a))
                   end in
  let '(vs, vn) := match volume r with
                   | Null => (volume_sum a, volume_count a)
                   | Real q =>
                       (Binary64.add (volume_sum a) q, S (volume_count a))
                   end in
  mk_aggregate cs cn vs vn.

(** AVG is the sum divided by the count, in binary64; it is NULL when every
    value is NULL, and so is SUM. *)
Definition avg_final (sum : Binary64.double) (n : nat)
  : option Binary64.double :=
  match n with
  | O => None
  | S _ => Some (Binary64.div sum n)
  end.

Definition sum_final (sum : Binary64.double) (n : nat)
  : option Binary64.double :=
  match n with
  | O => None
  | S _ => Some sum
  end.

(** The row [r] goes to the aggregate of its group, which is opened when
    [r] is the first row of it. *)
Fixpoint feed (g : group) (r : row) (groups : list (group * aggregate))
  : list (group * aggregate) :=
  match groups with
  | [] => [(g, step no_rows r)]
  | (h, a) :: rest =>
      if group_eqb g h then (h, step a r) :: rest
      else (h, a) :: feed g r rest
  end.

Section Query.

(** SQLite's [strftime('%Y-%m-%d %H:00:00', text)]. *)
Variable strftime_hour : string -> option string.

Definition group_of (r : row) : group :=
  (product_id r, strftime_hour (timestamp r)).

Definition group_by (t : table) : list (group * aggregate) :=
  fold_left (fun groups r => feed (group_of r) r groups) t [].

End Query.

(** ORDER BY hour_bucket ASC: NULL first, then the texts byte by byte. *)
Definition bucket_leb (a b : option string) : bool :=
  match a, b with
  | None, _ => true
  | Some _, None => false
  | Some x, Some y => String.leb x y
  end.

(** The order in which GROUP BY product_id, hour_bucket puts the groups out:
    SQLite sorts the rows by product_id, then by hour_bucket. *)
Definition group_leb (g h : group) : bool :=
  if String.eqb (fst g) (fst h) then bucket_leb (snd g) (snd h)
  else String.leb (fst g) (fst h).

Fixpoint insert_by_group {A : Type} (x : group * A)
  (l : list (group * A)) : list (group * A) :=
  match l with
  | [] => [x]
  | y :: rest =>
      if group_leb (fst x) (fst y) then x :: l
      else y :: insert_by_group x rest
  end.

Definition sort_by_group {A : Type} (l : list (group * A))
  : list (group * A) :=
  fold_right insert_by_group [] l.

Fixpoint insert_by_bucket {A : Type} (x : group * A)
  (l : list (group * A)) : list (group * A) :=
  match l with
  | [] => [x]
  | y :: rest =>
      if bucket_leb (snd (fst x)) (snd (fst y)) then x :: l
      else y :: insert_by_bucket x rest
  end.

Definition order_by_bucket {A : Type} (l : list (group * A))
  : list (group * A) :=
  fold_right insert_by_bucket [] l.

(** A row of the data frame; [T] is the type of pandas' timestamps, [None]
    is NULL. *)
Record summary (T : Type) := mk_summary {
  s_product_id : string;
  hour_bucket : T;
  hourly_avg_price : option Binary64.double;
  hourly_total_volume : option Binary64.double
}.
Arguments mk_summary {T}.
Arguments s_product_id {T}.
Arguments hour_bucket {T}.
Arguments hourly_avg_price {T}.
Arguments hourly_total_volume {T}.

(** The rows of the SELECT: the groups as GROUP BY puts them out, then in
    the order of the ORDER BY, whose sort keeps the groups of one hour in
    the order they had, that of their product_id. *)
Definition query (strftime_hour : string -> option string) (t : table)
  : list (summary (option string)) :=
  map (fun ga : group * aggregate =>
         let (g, a) := ga in
         mk_summary (fst g) (snd g)
           (avg_final (close_sum a) (close_count a))
           (sum_final (volume_sum a) (volume_count a)))
      (order_by_bucket (sort_by_group (group_by strftime_hour t))).

(** [pd.read_sql_query] raises when there is no candles table; then
    [pd.to_datetime] retypes the hour_bucket column. *)
Definition fetch_aggregated_data {T : Type}
  (strftime_hour : string -> option string)
  (to_datetime : option string -> T) (file : database)
  : outcome (list (summary T)) :=
  match file with
  | None => Raised PandasDatabaseError
  | Some t =>
      Returned
        (map (fun s => mk_summary (s_product_id s) (to_datetime (hour_bucket s))
                         (hourly_avg_price s) (hourly_total_volume s))
             (query strftime_hour t))
  end.

End Visualization.

(** ** pipeline.py: run_pipeline *)

Module Run.
Import Sqlite Pipeline.

(** What a run does and prints, in order: the events of [fetch_candles], the
    lines of [store_data], and the last line, "Pipeline finished.". *)
Inductive action :=
| Fetching (ev : event)
| Storing (m : message)
| PipelineFinished.

(** The number of calls of [requests.get] in a trace. *)
Definition requests_made (tr : trace) : nat :=
  List.length
    (filter (fun ev => match ev with Get _ _ => true | _ => false end) tr).

(** Where the for loop over the product ids stands when it ends or an
    exception leaves it. *)
Record looped := mk_looped {
  conn_at_end : connection;
  steps : list action;
  ended : outcome unit
}.

(** The for loop; [requests] calls of [requests.get] were made before, so
    the [n]-th request of this product is request [requests + n] of the
    run. *)
Fixpoint pipeline_loop (net : network) (requests : nat) (conn : connection)
  (ids : list string) : looped :=
  match ids with
  | [] => mk_looped conn [] (Returned tt)
  | id :: rest =>
      let fetched :=
        fetch_candles (fun n => net (requests + n)%nat) id START_TIME END_TIME
          GRANULARITY in
      match snd fetched with
      | Raised e => mk_looped conn (map Fetching (fst fetched)) (Raised e)
      | Returned candles =>
          let call := store_data conn id candles in
          match ret call with
          | Raised e =>
              mk_looped (conn_after call)
                (map Fetching (fst fetched) ++ map Storing (stdout call))
                (Raised e)
          | Returned _ =>
              let l := pipeline_loop net
                         (requests + requests_made (fst fetched))
                         (conn_after call) rest in
              mk_looped (conn_at_end l)
                (map Fetching (fst fetched) ++ map Storing (stdout call)
                 ++ steps l)
                (ended l)
          end
      end
  end.

Record run := mk_run {
  file_after : database;
  output : list action;
  finished : outcome unit
}.

(** [init_db(reset=True)], the loop over [PRODUCT_IDS], [conn.close()] and
    the last line. [file] is what the database file holds before the run;
    what it holds afterwards is what was committed: closing the connection,
    or the end of the process after an exception, drops the open
    transaction. *)
Definition run_pipeline (net : network) (file : database) : run :=
  let conn := init_db true file in
  let l := pipeline_loop net 0 conn PRODUCT_IDS in
  match ended l with
  | Returned _ =>
      mk_run (committed (conn_at_end l)) (steps l ++ [PipelineFinished])
        (Returned tt)
  | Raised e => mk_run (committed (conn_at_end l)) (steps l) (Raised e)
  end.

End Run.

(** ** pipeline_visualization.py: generate_plot and the script *)

Module Plot.
Import Sqlite Visualization.

Definition OUTPUT_IMAGE : string := "btc_and_eth_analysis_chart.png".

(** [Series.unique()]: the values in the order in which they first
    appear. *)
Fixpoint unique_from (seen : list string) (l : list string) : list string :=
  match l with
  | [] => []
  | x :: rest =>
      if existsb (String.eqb x) seen then unique_from seen rest
      else x :: unique_from (x :: seen) rest
  end.

Definition unique (l : list string) : list string := unique_from [] l.

(** What is drawn on one of the two axes: the bars of the volume and the
    line of the price, both over the hour buckets, under a title that names
    the product. *)
Record panel (T : Type) := mk_panel {
  axis : nat;
  product : string;
  bars : list (T * option Binary64.double);
  line : list (T * option Binary64.double)
}.
Arguments mk_panel {T}.
Arguments axis {T}.
Arguments product {T}.
Arguments bars {T}.
Arguments line {T}.

(** The figure that is saved and shown: [zip(axes, products)] pairs the two
    axes of the figure with the products, and stops at the shorter. *)
Definition generate_plot {T : Type} (df : list (summary T))
  : list (panel T) :=
  map (fun ax_id : nat * string =>
         let subset :=
           filter (fun s => String.eqb (s_product_id s) (snd ax_id)) df in
         mk_panel (fst ax_id) (snd ax_id)
           (map (fun s => (hour_bucket s, hourly_total_volume s)) subset)
           (map (fun s => (hour_bucket s, hourly_avg_price s)) subset))
      (combine [0%nat; 1%nat] (unique (map s_product_id df))).

(** What the script does with the data frame. *)
Inductive shown (T : Type) :=
| Plotted (rows : nat) (figure : list (panel T))
    (* "Data loaded. Rows: ...", then the figure *)
| NoDataFound.
    (* "No data found. Run pipeline.py first." *)
Arguments Plotted {T}.
Arguments NoDataFound {T}.

(** The script: the query, then the plot unless the data frame is empty. *)
Definition main {T : Type} (strftime_hour : string -> option string)
  (to_datetime : option string -> T) (file : database) : outcome (shown T) :=
  df <- fetch_aggregated_data strftime_hour to_datetime file ;;
  Returned (match df with
            | [] => NoDataFound
            | _ :: _ => Plotted (List.length df) (generate_plot df)
            end).

End Plot.


(** * Vocabulary of the properties *)

Import Datetime Sqlite Pipeline Visualization.

(** ** The uniquely keyed store *)

(** At most one row for each (timestamp, product_id). *)
Definition unique_keys (t : table) : Prop := NoDup (map key t).

Definition db_unique (db : database) : Prop :=
  match db with
  | None => True
  | Some t => unique_keys t
  end.

(** A sequence of calls of [store_data] on one connection; a caller that
    catches an exception of one call goes on with the next. *)
Definition store_all (conn : connection) (calls : list (string * list candle))
  : connection :=
  fold_left (fun c call => conn_after (store_data c (fst call) (snd call)))
            calls conn.

(** The count of the report "Successfully stored ... rows", when the call
    printed one. *)
Definition reported (c : call) : option nat :=
  match ret c with
  | Returned _ =>
      match last (stdout c) (Stored 0 "") with
      | Stored count _ => Some count
      | _ => None
      end
  | Raised _ => None
  end.

Definition rows (db : database) : nat :=
  match db with
  | None => O
  | Some t => List.length t
  end.

(** The number of rows that a call added to the table. *)
Definition rows_added (conn : connection) (c : call) : nat :=
  (rows (session (conn_after c)) - rows (session conn))%nat.

(** The key under which [store_data] files the candle, when it can read
    it. *)
Definition key_of (product_id : string) (c : candle) : option (string * string) :=
  match read_candle c with
  | Returned (ts, _) => Some (ts, product_id)
  | Raised _ => None
  end.

(** The INSERT of the candle executes without raising (on a database that
    has the table). *)
Definition executes (product_id : string) (c : candle) : bool :=
  match read_candle c with
  | Returned (ts, (l, h, o, cl, v)) =>
      match bind_row ts product_id l h o cl v with
      | Returned _ => true
      | Raised _ => false
      end
  | Raised _ => false
  end.

(** The key of the candle is stored when the call begins. *)
Definition stored_key (conn : connection) (product_id : string) (c : candle)
  : Prop :=
  exists k t,
    key_of product_id c = Some k /\ session conn = Some t /\ In k (map key t).

(** The count that the call reports, if it reports one, is greater than the
    number of rows it added. *)
Definition overcounts (conn : connection) (product_id : string)
  (candles : list candle) : Prop :=
  forall n,
    reported (store_data conn product_id candles) = Some n ->
    (rows_added conn (store_data conn product_id candles) < n)%nat.

(** The table [u] has every key of the table [db]. *)
Definition covers (u db : database) : Prop :=
  match u, db with
  | Some tu, Some t => forall k, In k (map key t) -> In k (map key tu)
  | None, None => True
  | _, _ => False
  end.

(** One turn of the for loop, by cases: the candle cannot be read; there is
    no table; the row is bound and inserted; binding raises. *)
Ltac loop_cases c db :=
  cbn [store_loop];
  destruct (read_candle c) as [[?ts [[[[?l ?h] ?o] ?cl] ?v]] | ?e];
  [ destruct db as [?t |]; cbn [execute_insert bind_outcome];
    [ match goal with
      | |- context [bind_row ?a ?b ?c1 ?d ?e1 ?f ?g] =>
          destruct (bind_row a b c1 d e1 f g) as [?r | []]
      end
    | ]
  | ];
  cbn [bind_outcome db_after result printed say].

(** ** The walk of fetch_candles *)

(** A sub-window: where it starts and where it ends. *)
Definition window := (Datetime.datetime * Datetime.datetime)%type.

(** The windows of the walk from [s] to [e]: windows of 300 minutes, each
    starting where the one before ended, then a last window of at most 300
    minutes that ends at [e]. *)
Inductive walk : Datetime.datetime -> Datetime.datetime -> list window -> Prop :=
| walk_last s e :
    s < e -> e - s <= delta -> walk s e [(s, e)]
| walk_step s e ws :
    walk (s + delta) e ws -> walk s e ((s, s + delta) :: ws).

(** No window start of the walk is so late that 300 minutes more pass
    [datetime.max]. *)
Definition no_overflow (s e : Datetime.datetime) : Prop :=
  forall k, 0 <= k -> s + k * delta < e -> s + k * delta + delta <= Datetime.MAX.

(** The GET of a window: its bounds in ISO format, and the granularity. *)
Definition request_of (product_id : string) (gran : Z) (w : window) : event :=
  Get (product_url product_id)
      (mk_params (Datetime.isoformat (fst w)) (Datetime.isoformat (snd w)) gran).

(** What the network answers to the GET of the window [w] when it is the
    request number [i]. *)
Definition answer (net : network) (product_id : string) (gran : Z)
  (i : nat) (w : window) : outcome response :=
  net i (product_url product_id)
      (mk_params (Datetime.isoformat (fst w)) (Datetime.isoformat (snd w)) gran).

(** The request came back with a response, and a response of status 200
    has a body that is JSON. *)
Definition answered (r : outcome response) : Prop :=
  exists resp,
    r = Returned resp
    /\ (status_code resp = 200 -> exists data, json resp = Returned data).

(** The candles of a response: the data of status 200. *)
Definition contribution (r : outcome response) : list candle :=
  match r with
  | Returned resp =>
      if status_code resp =? 200 then
        match json resp with
        | Returned data => data
        | Raised _ => []
        end
      else []
  | Raised _ => []
  end.

(** The response has another status than 200, or its data is empty. *)
Definition no_data (r : outcome response) : Prop :=
  exists resp,
    r = Returned resp
    /\ (status_code resp <> 200 \/ json resp = Returned []).

(** What is printed about the window. *)
Definition notice (product_id : string) (w : window) (r : outcome response)
  : message :=
  match r with
  | Returned resp =>
      if status_code resp =? 200 then
        match json resp with
        | Returned (c :: data) =>
            Fetched (List.length (c :: data)) product_id (fst w) (snd w)
        | _ => NoData product_id (fst w)
        end
      else FailedToFetch (status_code resp)
  | Raised _ => NoData product_id (fst w)
  end.

(** The events of the windows [ws], the first of which is request number
    [n]: for each window its GET, what is printed, and the sleep of half a
    second. *)
Fixpoint blocks (net : network) (product_id : string) (gran : Z) (n : nat)
  (ws : list window) : trace :=
  match ws with
  | [] => []
  | w :: rest =>
      [request_of product_id gran w;
       Printed (notice product_id w (answer net product_id gran n w));
       Sleep (1 # 2)]
      ++ blocks net product_id gran (S n) rest
  end.

(** The candles of the responses to the windows [ws], one after the other in
    the order of the windows. *)
Fixpoint contributions (net : network) (product_id : string) (gran : Z)
  (n : nat) (ws : list window) : list candle :=
  match ws with
  | [] => []
  | w :: rest =>
      contribution (answer net product_id gran n w)
      ++ contributions net product_id gran (S n) rest
  end.

(** The GET events of a trace. *)
Definition gets (tr : trace) : list event :=
  filter (fun ev => match ev with Get _ _ => true | _ => false end) tr.

(** Every window that [fetch_candles] requests spans at most [limit]
    microseconds (and is not empty). *)
Definition windows_within (net : network) (product_id : string)
  (start_time end_time : datetime) (gran : Z) (limit : Z) : Prop :=
  forall a b,
    valid a -> valid b ->
    In (request_of product_id gran (a, b))
       (fst (fetch_candles net product_id start_time end_time gran)) ->
    0 < b - a <= limit.

(** ** The calendar *)

(** The day number within the 400-year era of the year [y] of the era (which
    starts on 1 March), the month and the day. *)
Definition era_day (y m d : Z) : Z :=
  365 * y + y / 4 - y / 100
  + (153 * (if m >? 2 then m - 3 else m + 9) + 2) / 5 + d - 1.

(** The day number of a date: the inverse of [civil]. *)
Definition days_of_civil (y m d : Z) : Z :=
  let y' := y - (if m <=? 2 then 1 else 0) in
  era_day (y' mod 400) m d - 306 + 146097 * (y' / 400).

(** ** The hourly aggregation *)

(** The rows of the table that fall in the group [g]: the candles of the
    product whose timestamp lies in the hour. *)
Definition members (strftime_hour : string -> option string) (g : group)
  (t : table) : list row :=
  filter (fun r => group_eqb (group_of strftime_hour r) g) t.


(** The sum of the values as binary64 arithmetic gives it: the values are
    added one after the other, in the order of the list, and each sum is
    rounded to the nearest binary64 number. *)
Definition sum (l : list Q) : Binary64.double :=
  fold_left Binary64.add l (Binary64.Finite 0).



(** The order of ORDER BY hour_bucket ASC. *)
Definition bucket_le (a b : option string) : Prop := bucket_leb a b = true.

(** Rows in the order of their buckets. *)
Definition by_bucket {A : Type} (x y : group * A) : Prop :=
  bucket_le (snd (fst x)) (snd (fst y)).

(** ** Sample data *)

(** The candle of minute [t] (a Unix time), as the exchange sends it. *)
Definition sample_candle (t : Z) : candle :=
  [PyInt t; PyFloat (95000 # 1); PyFloat (95100 # 1); PyFloat (95010 # 1);
   PyFloat (95050 # 1); PyFloat (5 # 2)].

(** Another candle of minute [t], with other prices and another volume. *)
Definition restated_candle (t : Z) : candle :=
  [PyInt t; PyFloat (1 # 1); PyFloat (2 # 1); PyFloat (3 # 1);
   PyFloat (4 # 1); PyFloat (5 # 1)].

(** A candle whose low is an int beyond 64 bits, and one whose low is a list
    and whose high is such an int. *)
Definition overflowing_candle (t : Z) : candle :=
  [PyInt t; PyInt (2 ^ 70); PyObj; PyFloat (3 # 1); PyFloat (4 # 1);
   PyFloat (5 # 1)].

Definition refused_candle (t : Z) : candle :=
  [PyInt t; PyObj; PyInt (2 ^ 70); PyFloat (3 # 1); PyFloat (4 # 1);
   PyFloat (5 # 1)].

(** A candle whose low is a list. *)
Definition broken_candle (t : Z) : candle :=
  [PyInt t; PyObj; PyInt 2; PyInt 3; PyInt 4; PyInt 5].

(** An exchange that answers the second request with status 404, the
    fourth with no data, and every other request with one candle. *)
Definition sample_net : network :=
  fun n _ _ =>
    match n with
    | 1%nat => Returned (mk_response 404 (Returned []))
    | 3%nat => Returned (mk_response 200 (Returned []))
    | _ => Returned (mk_response 200
                       (Returned [sample_candle (1763337600 + 18000 * Z.of_nat n)]))
    end.

(** Ten minutes before [datetime.max]. *)
Definition late_start : datetime := MAX - minutes 10.

(** A connection whose table holds the candle of minute 0 of BTC-USD. *)
Definition sample_conn : connection :=
  conn_after (store_data (init_db true None) "BTC-USD" [sample_candle 0]).

Definition sample_table : table :=
  Eval vm_compute in
    match session sample_conn with
    | Some t => t
    | None => []
    end.

Definition sample_calls : list (string * list candle) :=
  [("BTC-USD", [sample_candle 0; sample_candle 0; sample_candle 60]);
   ("ETH-USD", [sample_candle 0; broken_candle 60])].

(** The hour bucket of the texts that [store_data] writes for whole
    seconds, YYYY-MM-DDTHH:MM:SS+00:00: what strftime gives on them. It
    stands for strftime in the examples. *)
Definition sample_strftime_hour (ts : string) : option string :=
  if (String.length ts =? 25)%nat
  then Some (substring 0 10 ts ++ " " ++ substring 11 2 ts ++ ":00:00")%string
  else None.

(** A connection after two calls: four candles of BTC-USD, one of them with
    no prices, and one candle of ETH-USD. *)
Definition hourly_conn : connection :=
  conn_after
    (store_data
       (conn_after (store_data (init_db true None) "BTC-USD"
                      [sample_candle 0; sample_candle 60; sample_candle 3600;
                       [PyInt 120; PyNone; PyNone; PyNone; PyNone; PyInt 1]]))
       "ETH-USD" [sample_candle 0]).

(** ** More about store_data *)

(** The exception with which a candle ends the call, on a database that has
    the table: what reading it raises, or what binding its values raises
    when that is no [sqlite3.Error]. *)
Definition failure (product_id : string) (c : candle) : option exn :=
  match read_candle c with
  | Raised e => Some e
  | Returned (ts, (l, h, o, cl, v)) =>
      match bind_row ts product_id l h o cl v with
      | Returned _ => None
      | Raised (SqliteError _) => None
      | Raised e => Some e
      end
  end.

(** The loop gets past the candle. *)
Definition handled (product_id : string) (c : candle) : bool :=
  match failure product_id c with
  | None => true
  | Some _ => false
  end.

(** What makes sqlite3 refuse a value: it is an int beyond 64 bits (an
    [OverflowError]), or an object of a type that it cannot bind (an
    [sqlite3.Error]). *)
Definition beyond_64_bits (v : pyval) : bool :=
  match v with
  | PyInt z => negb ((INT64_MIN <=? z) && (z <=? INT64_MAX))
  | _ => false
  end.

Definition unsupported (v : pyval) : bool :=
  match v with
  | PyObj => true
  | _ => false
  end.

(** sqlite3 looks at the values from left to right and stops at the first
    one that it refuses; here that one is an int beyond 64 bits. *)
Fixpoint overflows (vs : list pyval) : bool :=
  match vs with
  | [] => false
  | v :: rest => beyond_64_bits v || (negb (unsupported v) && overflows rest)
  end.

(** The value is a number whose instant lies in the years 1 to 9999. *)
Definition timely (v : pyval) : bool :=
  match fromtimestamp_utc v with
  | Returned _ => true
  | Raised _ => false
  end.

(** A candle that [store_data] can take: it has six fields at least, its
    time is a number within the years 1 to 9999, and among its five values
    no int beyond 64 bits comes before every value of a type that sqlite3
    cannot bind. *)
Definition taken (c : candle) : bool :=
  match c with
  | [] => false
  | time :: vs =>
      (5 <=? List.length vs)%nat && timely time
      && negb (overflows (firstn 5 vs))
  end.

(** The candle can be read: it has its six fields and its time is a number
    within the years 1 to 9999. *)
Definition readable (c : candle) : bool :=
  match read_candle c with
  | Returned _ => true
  | Raised _ => false
  end.

(** The keys under which the candles whose INSERT executes are filed, one
    for each such candle, in the order of the list. *)
Definition executed_keys (product_id : string) (candles : list candle)
  : list (string * string) :=
  flat_map (fun c => if executes product_id c
                     then match key_of product_id c with
                          | Some k => [k]
                          | None => []
                          end
                     else [])
           candles.

(** ** More about fetch_candles *)

(** The pauses of a trace, in seconds. *)
Definition sleeps (tr : trace) : list Q :=
  flat_map (fun ev => match ev with Sleep s => [s] | _ => [] end) tr.


(** ** More sample data *)

(** A network that answers the first request with one candle and breaks
    down at the second. *)
Definition down_net : network :=
  fun n _ _ =>
    match n with
    | O => Returned (mk_response 200 (Returned [sample_candle 1763337600]))
    | S _ => Raised RequestException
    end.

(** A connection with an open transaction, left by a call that raised: the
    candle of minute 2 is stored and not committed. *)
Definition open_conn : connection :=
  conn_after (store_data sample_conn "BTC-USD" [sample_candle 120; [PyInt 5]]).

(** ** The run and the plot *)

Import Run Plot.

(** The events of [fetch_candles] in the output of a run. *)
Definition fetch_events (out : list action) : trace :=
  flat_map (fun a => match a with Fetching ev => [ev] | _ => [] end) out.

(** The points that a row of the data frame gives: a bar and a point of the
    line. *)
Definition volume_point {T : Type} (s : summary T)
  : T * option Binary64.double :=
  (hour_bucket s, hourly_total_volume s).

Definition price_point {T : Type} (s : summary T)
  : T * option Binary64.double :=
  (hour_bucket s, hourly_avg_price s).

(** The rows of the data frame of one product. *)
Definition of_product {T : Type} (p : string) (df : list (summary T))
  : list (summary T) :=
  filter (fun s => String.eqb (s_product_id s) p) df.

(** A network whose first answer holds a candle that is cut short; every
    other request is refused. *)
Definition short_net : network :=
  fun n _ _ =>
    match n with
    | O => Returned (mk_response 200
                       (Returned [sample_candle 1763337600; [PyInt 1763337660]]))
    | S _ => Returned (mk_response 404 (Returned []))
    end.

(** Binary64 at work, on tables as SQLite holds them. The closes 0.1, 0.2
    and 0.3 of one hour have the mean 0.20000000000000004, and
    0.19999999999999998 when the rows were stored the other way round; the
    volumes 1e16, 1 and 1 add up to 1e16, the volumes 1, 1 and 1e16 to
    1.0000000000000002e16. The row of a product that comes first in byte
    order comes first within the hour, though it was stored last. *)
Definition rounding_table : table :=
  [mk_row "1970-01-01T00:00:00+00:00" "B" Null Null Null
     (Real (3602879701896397 # 36028797018963968)) (Real (10000000000000000 # 1));
   mk_row "1970-01-01T00:01:00+00:00" "B" Null Null Null
     (Real (3602879701896397 # 18014398509481984)) (Real 1);
   mk_row "1970-01-01T00:02:00+00:00" "B" Null Null Null
     (Real (5404319552844595 # 18014398509481984)) (Real 1);
   mk_row "1970-01-01T00:59:00+00:00" "A" Null Null Null
     (Real (5404319552844595 # 18014398509481984)) (Real 1)].

(** A data frame of two products, and one of three. *)
Definition sample_df : list (summary (option string)) :=
  [mk_summary "BTC-USD" (Some "1970-01-01 00:00:00")
     (Some (Binary64.Finite (95050 # 1))) (Some (Binary64.Finite (6 # 1)));
   mk_summary "ETH-USD" (Some "1970-01-01 00:00:00")
     (Some (Binary64.Finite (95050 # 1))) (Some (Binary64.Finite (5 # 2)));
   mk_summary "BTC-USD" (Some "1970-01-01 01:00:00")
     (Some (Binary64.Finite (95050 # 1))) (Some (Binary64.Finite (5 # 2)))].

Definition sol_row : summary (option string) :=
  mk_summary "SOL-USD" (Some "1970-01-01 01:00:00")
    (Some (Binary64.Finite (140 # 1))) (Some (Binary64.Finite (7 # 1))).

(** * Properties *)

(** ** The uniquely keyed store *)

Lemma same_key_iff (r s : row) : same_key r s = true <-> key r = key s.
Proof.
  unfold same_key, key. rewrite andb_true_iff, !String.eqb_eq.
  split; [intros [-> ->]; reflexivity | intros H; injection H; auto].
Qed.

Lemma exists_same_key (r : row) (t : table) :
  existsb (same_key r) t = true <-> In (key r) (map key t).
Proof.
  rewrite existsb_exists, in_map_iff. split.
  - intros (s & Hs & Hk). exists s. apply same_key_iff in Hk. auto.
  - intros (s & Hk & Hs). exists s. split; [exact Hs | apply same_key_iff; auto].
Qed.

Lemma insert_or_ignore_present (t : table) (r : row) :
  In (key r) (map key t) -> insert_or_ignore t r = t.
Proof.
  intros H. unfold insert_or_ignore.
  apply exists_same_key in H. rewrite H. reflexivity.
Qed.

Lemma insert_or_ignore_absent (t : table) (r : row) :
  ~ In (key r) (map key t) -> insert_or_ignore t r = t ++ [r].
Proof.
  intros H. unfold insert_or_ignore.
  destruct (existsb (same_key r) t) eqn:E; [| reflexivity].
  apply exists_same_key in E. contradiction.
Qed.

Lemma insert_or_ignore_cases (t : table) (r : row) :
  (In (key r) (map key t) /\ insert_or_ignore t r = t)
  \/ (~ In (key r) (map key t) /\ insert_or_ignore t r = t ++ [r]).
Proof.
  destruct (existsb (same_key r) t) eqn:E; [left | right].
  - apply exists_same_key in E. split; [exact E |].
    apply insert_or_ignore_present, E.
  - assert (H : ~ In (key r) (map key t)).
    { intros H. apply exists_same_key in H. congruence. }
    split; [exact H |]. apply insert_or_ignore_absent, H.
Qed.

Lemma insert_or_ignore_has_key (t : table) (r : row) :
  In (key r) (map key (insert_or_ignore t r)).
Proof.
  destruct (insert_or_ignore_cases t r) as [[H ->] | [_ ->]]; [exact H |].
  rewrite map_app, in_app_iff. right. left. reflexivity.
Qed.

Lemma insert_or_ignore_unique (t : table) (r : row) :
  unique_keys t -> unique_keys (insert_or_ignore t r).
Proof.
  unfold unique_keys. intros H.
  destruct (insert_or_ignore_cases t r) as [[_ ->] | [Hn ->]]; [exact H |].
  rewrite map_app. cbn [map].
  apply NoDup_app; [exact H | repeat constructor; auto | ].
  intros k Hk [<- | []]. contradiction.
Qed.

Lemma store_loop_unique (candles : list candle) :
  forall db product_id count,
    db_unique db ->
    db_unique (db_after (store_loop db product_id candles count)).
Proof.
  induction candles as [| c rest IH]; intros db pid n Hu; [exact Hu |].
  loop_cases c db; auto.
  apply IH. cbn. apply insert_or_ignore_unique, Hu.
Qed.

Lemma store_data_unique (conn : connection) (product_id : string)
  (candles : list candle) :
  db_unique (session conn) -> db_unique (committed conn) ->
  db_unique (session (conn_after (store_data conn product_id candles)))
  /\ db_unique (committed (conn_after (store_data conn product_id candles))).
Proof.
  intros Hs Hc. unfold store_data.
  pose proof (store_loop_unique candles (session conn) product_id 0 Hs) as H.
  destruct (result (store_loop (session conn) product_id candles 0));
    cbn; auto.
Qed.

Lemma store_all_unique (calls : list (string * list candle)) :
  forall conn,
    db_unique (session conn) -> db_unique (committed conn) ->
    db_unique (session (store_all conn calls))
    /\ db_unique (committed (store_all conn calls)).
Proof.
  induction calls as [| [pid cs] calls IH]; intros conn Hs Hc; [cbn; auto |].
  cbn [store_all fold_left fst snd].
  destruct (store_data_unique conn pid cs Hs Hc) as [Hs' Hc'].
  apply IH; assumption.
Qed.

(** C1. Once [init_db] has created the candles table (it was asked to reset,
    or the file had no table), the table holds at most one row for each
    (timestamp, product_id) after any sequence of [store_data] calls, with
    any product ids and any candle lists: both the table that the connection
    sees and the committed one. *)
Theorem store_data_one_row_per_key (reset : bool) (file : database)
  (calls : list (string * list candle)) :
  reset = true \/ file = None ->
  db_unique (session (store_all (init_db reset file) calls))
  /\ db_unique (committed (store_all (init_db reset file) calls)).
Proof.
  intros H. apply store_all_unique.
  - destruct H as [-> | ->]; [| destruct reset]; cbn; constructor.
  - destruct H as [-> | ->]; [| destruct reset]; cbn; constructor.
Qed.

(** Two calls, with a candle twice in one list and a candle that cannot be
    bound. *)
Lemma store_data_one_row_per_key_witness :
  (true = true \/ (None : database) = None)
  /\ db_unique (session (store_all (init_db true None) sample_calls))
  /\ db_unique (committed (store_all (init_db true None) sample_calls)).
Proof.
  split; [left; reflexivity |].
  apply (store_data_one_row_per_key true None sample_calls).
  left. reflexivity.
Defined.

Lemma store_loop_none (candles : list candle) :
  forall product_id count,
    db_after (store_loop None product_id candles count) = None.
Proof.
  induction candles as [| c rest IH]; intros pid n; [reflexivity |].
  cbn [store_loop]. destruct (read_candle c) as [[ts [[[[l h] o] cl] v]] | e];
    [| reflexivity].
  cbn. apply IH.
Qed.

(** The loop only appends rows, and only rows whose key the table did not
    hold. *)
Lemma store_loop_grows (candles : list candle) :
  forall t product_id count,
  exists added,
    db_after (store_loop (Some t) product_id candles count) = Some (t ++ added)
    /\ forall r, In r added -> ~ In (key r) (map key t).
Proof.
  induction candles as [| c rest IH]; intros t0 pid n.
  - exists []. rewrite app_nil_r. split; [reflexivity | intros r []].
  - pose (db := Some t0). change (Some t0) with db at 1. subst db.
    cbn [store_loop].
    destruct (read_candle c) as [[ts [[[[l h] o] cl] v]] | e].
    2:{ exists []. rewrite app_nil_r. split; [reflexivity | intros r []]. }
    cbn [execute_insert].
    destruct (bind_row ts pid l h o cl v) as [r | []]; cbn [bind_outcome].
    2-8: try (exists []; rewrite app_nil_r; split; [reflexivity | intros r []]).
    + destruct (IH (insert_or_ignore t0 r) pid (S n)) as (added & E & Hn).
      destruct (insert_or_ignore_cases t0 r) as [[Hin Er] | [Hnin Er]];
        rewrite Er in *.
      * exists added. auto.
      * exists (r :: added). rewrite <- app_assoc in E. split; [exact E |].
        intros r' [<- | Hr']; [exact Hnin |].
        intros Hk. apply (Hn r' Hr'). rewrite map_app, in_app_iff. auto.
    + cbn [say db_after]. apply IH.
Qed.

Lemma store_loop_keeps_keys (candles : list candle) (t t' : table)
  (product_id : string) (count : nat) :
  db_after (store_loop (Some t) product_id candles count) = Some t' ->
  forall k, In k (map key t) -> In k (map key t').
Proof.
  intros E k Hk.
  destruct (store_loop_grows candles t product_id count) as (added & E' & _).
  rewrite E' in E. injection E as <-. rewrite map_app, in_app_iff. auto.
Qed.

(** Running the loop on a table that has the keys of the table the same
    loop ends with changes nothing, and ends the same way. *)
Lemma store_loop_again (candles : list candle) :
  forall db product_id count u,
    covers u (db_after (store_loop db product_id candles count)) ->
    store_loop u product_id candles count
    = mk_stored u (printed (store_loop db product_id candles count))
                  (result (store_loop db product_id candles count)).
Proof.
  induction candles as [| c rest IH]; intros db pid n u Hc; [reflexivity |].
  cbn [store_loop] in *.
  destruct (read_candle c) as [[ts [[[[l h] o] cl] v]] | e]; [| reflexivity].
  destruct db as [t |].
  - cbn [execute_insert] in *.
    destruct (bind_row ts pid l h o cl v) as [r | ex] eqn:Eb;
      cbn [bind_outcome] in *.
    + destruct (store_loop_grows rest (insert_or_ignore t r) pid (S n))
        as (added & E & _).
      destruct u as [tu |]; [| rewrite E in Hc; contradiction].
      cbn [execute_insert]. rewrite Eb. cbn [bind_outcome].
      rewrite insert_or_ignore_present.
      * apply (IH (Some (insert_or_ignore t r))). exact Hc.
      * rewrite E in Hc. apply Hc. rewrite map_app, in_app_iff. left.
        apply insert_or_ignore_has_key.
    + destruct u as [tu |].
      * cbn [execute_insert]. rewrite Eb. cbn [bind_outcome].
        destruct ex; try reflexivity.
        cbn [say db_after printed result] in *.
        rewrite (IH (Some t) pid n (Some tu) Hc). reflexivity.
      * destruct ex; cbn [say db_after] in Hc;
          try contradiction.
        destruct (store_loop_grows rest t pid n) as (added & E & _).
        rewrite E in Hc. contradiction.
  - cbn [execute_insert say db_after printed result] in *.
    rewrite store_loop_none in Hc.
    destruct u as [tu |]; [contradiction |].
    cbn [execute_insert].
    rewrite (IH None pid n None); [reflexivity |].
    rewrite store_loop_none. exact I.
Qed.

Lemma covers_refl (db : database) : covers db db.
Proof. destruct db; cbn; auto. Qed.

(** C2. [store_data] merges idempotently: for every state of the
    connection, product id and candle list, a second call with the same
    product id and candles leaves the connection (the table it sees and the
    committed table) exactly as the first call left it, and ends and prints
    as the first call did. *)
Theorem store_data_idempotent (conn : connection) (product_id : string)
  (candles : list candle) :
  let once := store_data conn product_id candles in
  let twice := store_data (conn_after once) product_id candles in
  conn_after twice = conn_after once /\ twice = once.
Proof.
  cbv zeta. unfold store_data.
  set (s := store_loop (session conn) product_id candles 0).
  assert (H : forall u, u = db_after s ->
            store_loop u product_id candles 0 = mk_stored u (printed s) (result s)).
  { intros u ->. apply store_loop_again, covers_refl. }
  destruct (result s) as [k | e] eqn:Er; cbn [conn_after session committed];
    rewrite (H _ eq_refl); cbn [result db_after printed]; auto.
Qed.

(** The loop over [pre ++ post] is the loop over [pre], then, unless an
    exception left it, the loop over [post]. *)
Lemma store_loop_app (pre post : list candle) :
  forall db product_id count,
    store_loop db product_id (pre ++ post) count
    = match result (store_loop db product_id pre count) with
      | Returned k =>
          let s1 := store_loop db product_id pre count in
          let s2 := store_loop (db_after s1) product_id post k in
          mk_stored (db_after s2) (printed s1 ++ printed s2) (result s2)
      | Raised _ => store_loop db product_id pre count
      end.
Proof.
  induction pre as [| c rest IH]; intros db pid n.
  - cbn. destruct (store_loop db pid post n); reflexivity.
  - cbn [app store_loop].
    destruct (read_candle c) as [[ts [[[[l h] o] cl] v]] | e]; [| reflexivity].
    destruct (execute_insert db ts pid l h o cl v) as [db' | []];
      try reflexivity.
    + apply IH.
    + rewrite IH. cbn [say result].
      destruct (result (store_loop db pid rest n)); reflexivity.
Qed.

Lemma store_data_session (conn : connection) (product_id : string)
  (candles : list candle) :
  session (conn_after (store_data conn product_id candles))
  = db_after (store_loop (session conn) product_id candles 0).
Proof.
  unfold store_data.
  destruct (result (store_loop (session conn) product_id candles 0));
    reflexivity.
Qed.

Lemma store_data_returns (conn : connection) (product_id : string)
  (candles : list candle) :
  ret (store_data conn product_id candles) = Returned tt ->
  exists k, result (store_loop (session conn) product_id candles 0) = Returned k.
Proof.
  unfold store_data.
  destruct (result (store_loop (session conn) product_id candles 0)) as [k | e];
    cbn; [eauto | discriminate].
Qed.

(** A call that returns has committed: the file holds what the connection
    sees. *)
Lemma store_data_commits (conn : connection) (product_id : string)
  (candles : list candle) :
  ret (store_data conn product_id candles) = Returned tt ->
  committed (conn_after (store_data conn product_id candles))
  = session (conn_after (store_data conn product_id candles)).
Proof.
  unfold store_data.
  destruct (result (store_loop (session conn) product_id candles 0));
    cbn; [reflexivity | discriminate].
Qed.

(** C8. When [store_data] comes to a candle whose (timestamp, product_id) is
    in the table (here: after the candles [pre], which left the table [t]),
    the rows of the table stay as they are, each in its place, and no row is
    stored under the key of the candle: its low, high, open, close and
    volume are dropped, the first write wins. *)
Theorem store_data_first_write_wins (conn : connection) (product_id : string)
  (pre post : list candle) (c : candle) (t : table) (k : string * string) :
  ret (store_data conn product_id pre) = Returned tt ->
  session (conn_after (store_data conn product_id pre)) = Some t ->
  key_of product_id c = Some k ->
  In k (map key t) ->
  exists added,
    session (conn_after (store_data conn product_id (pre ++ c :: post)))
    = Some (t ++ added)
    /\ forall r, In r added -> key r <> k.
Proof.
  intros Hret Ht Hk Hin.
  apply store_data_returns in Hret. destruct Hret as (n & Hn).
  rewrite store_data_session in Ht |- *.
  rewrite store_loop_app, Hn. cbv zeta. cbn [db_after]. rewrite Ht.
  destruct (store_loop_grows (c :: post) t product_id n) as (added & E & Hnew).
  exists added. split; [exact E |].
  intros r Hr Hkey. apply (Hnew r Hr). rewrite Hkey. exact Hin.
Qed.

(** The candle of minute 0 is stored; a second candle of that minute, with
    other values and an INSERT that executes, comes in a list of three. *)
Lemma store_data_first_write_wins_witness :
  ret (store_data (init_db true None) "BTC-USD" [sample_candle 0])
  = Returned tt
  /\ session (conn_after (store_data (init_db true None) "BTC-USD"
                            [sample_candle 0]))
     = Some sample_table
  /\ key_of "BTC-USD" (restated_candle 0)
     = Some ("1970-01-01T00:00:00+00:00", "BTC-USD")
  /\ In ("1970-01-01T00:00:00+00:00", "BTC-USD") (map key sample_table)
  /\ executes "BTC-USD" (restated_candle 0) = true
  /\ stdout (store_data (init_db true None) "BTC-USD"
               ([sample_candle 0] ++ restated_candle 0 :: [sample_candle 60]))
     = [Stored 3 "BTC-USD"]
  /\ exists added,
       session (conn_after (store_data (init_db true None) "BTC-USD"
                              ([sample_candle 0]
                               ++ restated_candle 0 :: [sample_candle 60])))
       = Some (sample_table ++ added)
       /\ forall r, In r added ->
                    key r <> ("1970-01-01T00:00:00+00:00", "BTC-USD").
Proof.
  assert (H1 : ret (store_data (init_db true None) "BTC-USD" [sample_candle 0])
               = Returned tt) by reflexivity.
  assert (H2 : session (conn_after (store_data (init_db true None) "BTC-USD"
                                      [sample_candle 0]))
               = Some sample_table) by (vm_compute; reflexivity).
  assert (H3 : key_of "BTC-USD" (restated_candle 0)
               = Some ("1970-01-01T00:00:00+00:00", "BTC-USD"))
    by (vm_compute; reflexivity).
  assert (H4 : In ("1970-01-01T00:00:00+00:00", "BTC-USD")
                  (map key sample_table)) by (left; reflexivity).
  assert (H5 : executes "BTC-USD" (restated_candle 0) = true)
    by reflexivity.
  assert (H6 : stdout (store_data (init_db true None) "BTC-USD"
                         ([sample_candle 0]
                          ++ restated_candle 0 :: [sample_candle 60]))
               = [Stored 3 "BTC-USD"]) by (vm_compute; reflexivity).
  repeat (split; [assumption |]).
  apply (store_data_first_write_wins (init_db true None) "BTC-USD"
           [sample_candle 0] [sample_candle 60] (restated_candle 0)
           sample_table _ H1 H2 H3 H4).
Defined.


Lemma bind_row_key (ts pid : string) (l h o cl v : pyval) (r : row) :
  bind_row ts pid l h o cl v = Returned r -> key r = (ts, pid).
Proof.
  unfold bind_row.
  destruct (bind l), (bind h), (bind o), (bind cl), (bind v);
    cbn; try discriminate.
  intros H. injection H as <-. reflexivity.
Qed.

(** What the loop counts: the candles whose INSERT executed, stored or
    ignored. *)
Lemma store_loop_count (candles : list candle) :
  forall t product_id count k t',
    result (store_loop (Some t) product_id candles count) = Returned k ->
    db_after (store_loop (Some t) product_id candles count) = Some t' ->
    let executed := List.length (filter (executes product_id) candles) in
    k = (count + executed)%nat
    /\ (List.length t' <= List.length t + executed)%nat
    /\ ((exists c kc,
           In c candles /\ executes product_id c = true
           /\ key_of product_id c = Some kc /\ In kc (map key t)) ->
        (List.length t' < List.length t + executed)%nat).
Proof.
  induction candles as [| c rest IH]; intros t0 pid n k t' Hres Hdb; cbv zeta.
  - cbn in *. injection Hres as <-. injection Hdb as <-.
    repeat split; try lia. intros (c & kc & [] & _).
  - cbn [store_loop] in *.
    destruct (read_candle c) as [[ts [[[[l h] o] cl] v]] | e] eqn:Hread;
      [| discriminate].
    assert (Hkc : key_of pid c = Some (ts, pid))
      by (unfold key_of; rewrite Hread; reflexivity).
    cbn [execute_insert] in *.
    destruct (bind_row ts pid l h o cl v) as [r | ex] eqn:Hb;
      cbn [bind_outcome] in *.
    + assert (Hexc : executes pid c = true)
        by (unfold executes; rewrite Hread, Hb; reflexivity).
      cbn [filter]. rewrite Hexc. cbn [List.length].
      destruct (IH _ _ _ _ _ Hres Hdb) as (Hk & Hle & Hlt). cbv zeta in *.
      pose proof (bind_row_key _ _ _ _ _ _ _ _ Hb) as Hkey.
      destruct (insert_or_ignore_cases t0 r) as [[Hin Er] | [Hnin Er]];
        rewrite Er in *.
      * repeat split; try lia.
      * rewrite length_app in *. cbn [List.length] in *.
        repeat split; try lia.
        intros (c' & key' & [<- | Hc'] & Hex & Hko & Hki).
        -- rewrite Hkc in Hko. injection Hko as <-.
           rewrite <- Hkey in Hki. contradiction.
        -- enough (List.length t' < List.length t0 + 1
                   + List.length (filter (executes pid) rest))%nat by lia.
           apply Hlt. exists c', key'. repeat split; auto.
           rewrite map_app, in_app_iff. auto.
    + assert (Hexc : executes pid c = false)
        by (unfold executes; rewrite Hread, Hb; reflexivity).
      cbn [filter]. rewrite Hexc.
      destruct ex; try discriminate.
      cbn [say result db_after] in *.
      destruct (IH _ _ _ _ _ Hres Hdb) as (Hk & Hle & Hlt). cbv zeta in *.
      repeat split; try lia.
      intros (c' & key' & [<- | Hc'] & Hex & Hko & Hki).
      * congruence.
      * apply Hlt. exists c', key'. auto.
Qed.

Lemma reported_count (conn : connection) (product_id : string)
  (candles : list candle) (n : nat) :
  reported (store_data conn product_id candles) = Some n ->
  result (store_loop (session conn) product_id candles 0) = Returned n.
Proof.
  unfold reported, store_data.
  destruct (result (store_loop (session conn) product_id candles 0)) as [k | e];
    cbn [ret stdout]; [| discriminate].
  rewrite last_last. intros H. injection H as <-. reflexivity.
Qed.

(** C9 (amended). The count that [store_data] reports is the number of
    candles whose INSERT executed without raising, the ignored duplicates
    among them; so when the list has a candle whose key is stored already
    and whose INSERT executes without raising, the reported count is greater
    than the number of rows added to the table. *)
Theorem store_data_overcounts (conn : connection) (product_id : string)
  (candles : list candle) (c : candle) :
  In c candles ->
  stored_key conn product_id c ->
  executes product_id c = true ->
  overcounts conn product_id candles
  /\ forall n, reported (store_data conn product_id candles) = Some n ->
               n = List.length (filter (executes product_id) candles).
Proof.
  intros Hin (k & t & Hk & Ht & Hkt) Hex.
  assert (H : forall n,
             reported (store_data conn product_id candles) = Some n ->
             (rows_added conn (store_data conn product_id candles) < n)%nat
             /\ n = List.length (filter (executes product_id) candles)).
  { intros n Hrep. apply reported_count in Hrep.
    unfold rows_added. rewrite store_data_session, Ht in *.
    destruct (store_loop_grows candles t product_id 0) as (added & E & _).
    destruct (store_loop_count candles t product_id 0 n _ Hrep E)
      as (Hn & _ & Hlt).
    rewrite E. cbn [rows]. split; [| exact Hn].
    enough (List.length (t ++ added) < List.length t + n)%nat
      by (rewrite length_app in *; lia).
    rewrite Hn. apply Hlt. exists c, k. auto. }
  split; [intros n Hn; apply H, Hn | intros n Hn; apply H, Hn].
Qed.

(** The stored candle of minute 0 again, and a new one. *)
Lemma store_data_overcounts_witness :
  In (sample_candle 0) [sample_candle 0; sample_candle 60]
  /\ stored_key sample_conn "BTC-USD" (sample_candle 0)
  /\ executes "BTC-USD" (sample_candle 0) = true
  /\ overcounts sample_conn "BTC-USD" [sample_candle 0; sample_candle 60].
Proof.
  assert (H1 : In (sample_candle 0) [sample_candle 0; sample_candle 60])
    by (left; reflexivity).
  assert (H2 : stored_key sample_conn "BTC-USD" (sample_candle 0)).
  { exists ("1970-01-01T00:00:00+00:00", "BTC-USD"), sample_table.
    split; [vm_compute; reflexivity |].
    split; [vm_compute; reflexivity | left; reflexivity]. }
  assert (H3 : executes "BTC-USD" (sample_candle 0) = true)
    by (vm_compute; reflexivity).
  repeat (split; [assumption |]).
  apply (store_data_overcounts sample_conn "BTC-USD"
           [sample_candle 0; sample_candle 60] (sample_candle 0) H1 H2 H3).
Defined.

(** Against C9 as it was stated: the key of the only candle of the list is
    stored, its INSERT raises; zero is reported and no row is added. *)
Lemma store_data_count_not_greater :
  In (broken_candle 0) [broken_candle 0]
  /\ stored_key sample_conn "BTC-USD" (broken_candle 0)
  /\ reported (store_data sample_conn "BTC-USD" [broken_candle 0]) = Some 0%nat
  /\ rows_added sample_conn (store_data sample_conn "BTC-USD" [broken_candle 0])
     = 0%nat
  /\ ~ overcounts sample_conn "BTC-USD" [broken_candle 0].
Proof.
  split; [left; reflexivity |].
  split.
  { exists ("1970-01-01T00:00:00+00:00", "BTC-USD"), sample_table.
    split; [vm_compute; reflexivity |].
    split; [vm_compute; reflexivity | left; reflexivity]. }
  split; [vm_compute; reflexivity |].
  split; [vm_compute; reflexivity |].
  intros H. specialize (H 0%nat ltac:(vm_compute; reflexivity)).
  vm_compute in H. lia.
Qed.

(** A candle whose INSERT executes is in the table when the loop ends
    well. *)
Lemma store_loop_stores (candles : list candle) :
  forall t product_id count n t',
    result (store_loop (Some t) product_id candles count) = Returned n ->
    db_after (store_loop (Some t) product_id candles count) = Some t' ->
    forall c k,
      In c candles -> executes product_id c = true ->
      key_of product_id c = Some k ->
      In k (map key t').
Proof.
  induction candles as [| c0 rest IH]; intros t0 pid n k t' Hres Hdb c kc Hin
    Hex Hk; [destruct Hin |].
  cbn [store_loop] in *.
  destruct (read_candle c0) as [[ts [[[[l h] o] cl] v]] | e] eqn:Hread;
    [| discriminate].
  cbn [execute_insert] in *.
  destruct (bind_row ts pid l h o cl v) as [r | ex] eqn:Hb;
    cbn [bind_outcome] in *.
  - destruct Hin as [<- | Hin].
    + unfold key_of in Hk. rewrite Hread in Hk. injection Hk as <-.
      apply (store_loop_keeps_keys rest _ _ _ _ Hdb).
      rewrite <- (bind_row_key _ _ _ _ _ _ _ _ Hb).
      apply insert_or_ignore_has_key.
    + apply (IH _ _ _ _ _ Hres Hdb c kc Hin Hex Hk).
  - destruct ex; try discriminate. cbn [say result db_after] in *.
    destruct Hin as [<- | Hin].
    + unfold executes in Hex. rewrite Hread, Hb in Hex. discriminate.
    + apply (IH _ _ _ _ _ Hres Hdb c kc Hin Hex Hk).
Qed.

(** C6. When the INSERT of one candle raises an [sqlite3.Error] (the loop
    having come to it after the candles [pre]), [store_data] goes on: the
    call ends as it does on the list without that candle and leaves the
    same table, it prints the error in between, and when it returns it has
    committed, and the other candles of the list are stored: each of them
    whose INSERT executes has its key in the committed table. *)
Theorem store_data_skips_failed_insert (conn : connection)
  (product_id : string) (pre post : list candle) (c : candle)
  (ts : string) (l h o cl v : pyval) (e : sqlite_error) :
  ret (store_data conn product_id pre) = Returned tt ->
  read_candle c = Returned (ts, (l, h, o, cl, v)) ->
  execute_insert (session (conn_after (store_data conn product_id pre)))
    ts product_id l h o cl v = Raised (SqliteError e) ->
  let with_c := store_data conn product_id (pre ++ c :: post) in
  let without := store_data conn product_id (pre ++ post) in
  conn_after with_c = conn_after without
  /\ ret with_c = ret without
  /\ (exists before after,
        stdout without = before ++ after
        /\ stdout with_c = before ++ DatabaseError e :: after)
  /\ (ret with_c = Returned tt ->
      committed (conn_after with_c) = session (conn_after with_c))
  /\ (ret with_c = Returned tt ->
      forall t,
        session conn = Some t ->
        exists t',
          committed (conn_after with_c) = Some t'
          /\ forall c' k,
               In c' (pre ++ post) ->
               executes product_id c' = true ->
               key_of product_id c' = Some k ->
               In k (map key t')).
Proof.
  intros Hret Hread Hexec with_c without.
  assert (Hcommit : ret with_c = Returned tt ->
            committed (conn_after with_c) = session (conn_after with_c))
    by apply store_data_commits.
  assert (Hstored : ret without = Returned tt ->
            forall t,
              session conn = Some t ->
              exists t',
                session (conn_after without) = Some t'
                /\ forall c' k,
                     In c' (pre ++ post) ->
                     executes product_id c' = true ->
                     key_of product_id c' = Some k ->
                     In k (map key t')).
  { intros Hr t Ht. subst without.
    apply store_data_returns in Hr. destruct Hr as (n & Hn).
    rewrite store_data_session, Ht in *.
    destruct (store_loop_grows (pre ++ post) t product_id 0)
      as (added & E & _).
    exists (t ++ added). split; [exact E |].
    intros c' k. apply (store_loop_stores _ _ _ _ _ _ Hn E). }
  apply store_data_returns in Hret. destruct Hret as (n & Hn).
  rewrite store_data_session in Hexec.
  assert (Hsame : conn_after with_c = conn_after without
                  /\ ret with_c = ret without
                  /\ exists before after,
                       stdout without = before ++ after
                       /\ stdout with_c = before ++ DatabaseError e :: after).
  { subst with_c without. unfold store_data in *.
    rewrite !store_loop_app, Hn in *. cbv zeta in *.
    set (s1 := store_loop (session conn) product_id pre 0) in *.
    cbn [store_loop] in *. rewrite Hread, Hexec in *.
    set (s2 := store_loop (db_after s1) product_id post n) in *.
    cbn [say result db_after printed] in *.
    destruct (result s2) as [k' | e']; cbn [conn_after ret stdout] in *.
    - repeat split; auto.
      exists (printed s1), (printed s2 ++ [Stored k' product_id]).
      rewrite <- !app_assoc. auto.
    - repeat split; auto.
      exists (printed s1), (printed s2). auto. }
  destruct Hsame as (Hconn & Hr & Hout).
  repeat (split; [assumption |]).
  intros Hwith t Ht. rewrite (Hcommit Hwith), Hconn.
  apply (Hstored (eq_trans (eq_sym Hr) Hwith) t Ht).
Qed.

(** A candle whose low cannot be bound, between two good ones, on the empty
    table: the two good ones are stored. *)
Lemma store_data_skips_failed_insert_witness :
  ret (store_data (init_db true None) "BTC-USD" [sample_candle 0])
  = Returned tt
  /\ read_candle (broken_candle 60)
     = Returned ("1970-01-01T00:01:00+00:00",
                 (PyObj, PyInt 2, PyInt 3, PyInt 4, PyInt 5))
  /\ execute_insert
       (session (conn_after (store_data (init_db true None) "BTC-USD"
                               [sample_candle 0])))
       "1970-01-01T00:01:00+00:00" "BTC-USD" PyObj (PyInt 2) (PyInt 3)
       (PyInt 4) (PyInt 5)
     = Raised (SqliteError InterfaceError)
  /\ conn_after (store_data (init_db true None) "BTC-USD"
                   ([sample_candle 0]
                    ++ broken_candle 60 :: [sample_candle 120]))
     = conn_after (store_data (init_db true None) "BTC-USD"
                     ([sample_candle 0] ++ [sample_candle 120]))
  /\ ret (store_data (init_db true None) "BTC-USD"
            ([sample_candle 0] ++ broken_candle 60 :: [sample_candle 120]))
     = ret (store_data (init_db true None) "BTC-USD"
              ([sample_candle 0] ++ [sample_candle 120]))
  /\ (exists before after,
        stdout (store_data (init_db true None) "BTC-USD"
                  ([sample_candle 0] ++ [sample_candle 120]))
        = before ++ after
        /\ stdout (store_data (init_db true None) "BTC-USD"
                     ([sample_candle 0]
                      ++ broken_candle 60 :: [sample_candle 120]))
           = before ++ DatabaseError InterfaceError :: after)
  /\ (ret (store_data (init_db true None) "BTC-USD"
             ([sample_candle 0] ++ broken_candle 60 :: [sample_candle 120]))
      = Returned tt ->
      committed
        (conn_after
           (store_data (init_db true None) "BTC-USD"
              ([sample_candle 0] ++ broken_candle 60 :: [sample_candle 120])))
      = session
          (conn_after
             (store_data (init_db true None) "BTC-USD"
                ([sample_candle 0]
                 ++ broken_candle 60 :: [sample_candle 120]))))
  /\ (ret (store_data (init_db true None) "BTC-USD"
             ([sample_candle 0] ++ broken_candle 60 :: [sample_candle 120]))
      = Returned tt ->
      forall t,
        session (init_db true None) = Some t ->
        exists t',
          committed
            (conn_after
               (store_data (init_db true None) "BTC-USD"
                  ([sample_candle 0]
                   ++ broken_candle 60 :: [sample_candle 120])))
          = Some t'
          /\ forall c' k,
               In c' ([sample_candle 0] ++ [sample_candle 120]) ->
               executes "BTC-USD" c' = true ->
               key_of "BTC-USD" c' = Some k ->
               In k (map key t')).
Proof.
  assert (H1 : ret (store_data (init_db true None) "BTC-USD" [sample_candle 0])
               = Returned tt) by reflexivity.
  assert (H2 : read_candle (broken_candle 60)
               = Returned ("1970-01-01T00:01:00+00:00",
                           (PyObj, PyInt 2, PyInt 3, PyInt 4, PyInt 5)))
    by (vm_compute; reflexivity).
  assert (H3 : execute_insert
                 (session (conn_after (store_data (init_db true None) "BTC-USD"
                                         [sample_candle 0])))
                 "1970-01-01T00:01:00+00:00" "BTC-USD" PyObj (PyInt 2)
                 (PyInt 3) (PyInt 4) (PyInt 5)
               = Raised (SqliteError InterfaceError))
    by (vm_compute; reflexivity).
  repeat (split; [assumption |]).
  exact (store_data_skips_failed_insert (init_db true None) "BTC-USD"
           [sample_candle 0] [sample_candle 120] (broken_candle 60)
           _ _ _ _ _ _ _ H1 H2 H3).
Defined.

(** ** The walk of fetch_candles *)

(** The while loop, unfolded once. *)
Lemma fetch_loop_eq (net : network) (product_id : string) (gran : Z)
  (end_time current_start : Datetime.datetime) (n : nat)
  (all_candles : list candle) :
  fetch_loop net product_id gran end_time current_start n all_candles
  = if current_start <? end_time then
      match window_end current_start end_time with
      | Raised e => ([], Raised e)
      | Returned current_end =>
          match request_window net n product_id gran current_start current_end
                  all_candles with
          | (evs, Raised e) => (evs, Raised e)
          | (evs, Returned all_candles') =>
              after (evs ++ [Sleep (1 # 2)])
                (fetch_loop net product_id gran end_time current_end (S n)
                   all_candles')
          end
      end
    else ([], Returned all_candles).
Proof.
  rewrite fetch_loop_unfold_eq.
  unfold fetch_loop_unfold, fetch_loop_unfold_clause_1.
  destruct (Z_lt_dec current_start end_time) as [Hlt | Hge].
  - apply Z.ltb_lt in Hlt as Hb. rewrite Hb.
    unfold fetch_loop_unfold_clause_1_clause_2.
    destruct (inspect (window_end current_start end_time)) as [[ce | x] Hw];
      pose proof Hw as Hw'; rewrite Hw'; [| reflexivity].
    unfold fetch_loop_unfold_clause_1_clause_2_clause_2.
    destruct (request_window net n product_id gran current_start ce all_candles)
      as [evs [acc' | x]]; reflexivity.
  - apply Z.ltb_nlt in Hge. rewrite Hge. reflexivity.
Qed.

Lemma request_window_answered (net : network) (n : nat) (product_id : string)
  (gran : Z) (w : window) (all_candles : list candle) :
  answered (answer net product_id gran n w) ->
  request_window net n product_id gran (fst w) (snd w) all_candles
  = ([request_of product_id gran w;
      Printed (notice product_id w (answer net product_id gran n w))],
     Returned (all_candles ++ contribution (answer net product_id gran n w))).
Proof.
  unfold answered, answer, request_window, request_of, notice, contribution.
  intros (resp & -> & Hjson).
  destruct (status_code resp =? 200) eqn:Hs.
  - apply Z.eqb_eq in Hs. destruct (Hjson Hs) as (data & ->).
    destruct data; [rewrite app_nil_r |]; reflexivity.
  - rewrite app_nil_r. reflexivity.
Qed.

Lemma window_end_in_range (s e : Datetime.datetime) :
  0 <= s -> s < e -> s + delta <= Datetime.MAX ->
  window_end s e = Returned (if s + delta >? e then e else s + delta).
Proof.
  intros H0 Hlt Hmax. unfold window_end, Datetime.add.
  assert (0 < delta) by reflexivity.
  replace ((0 <=? s + delta) && (s + delta <=? Datetime.MAX)) with true;
    [reflexivity |].
  symmetry. apply andb_true_iff. split; [apply Z.leb_le | apply Z.leb_le]; lia.
Qed.

(** The loop from [s] goes through the windows of the walk from [s] to [e],
    when no addition overflows and every request is answered. *)
Lemma fetch_loop_walk (net : network) (product_id : string) (gran : Z)
  (e : Datetime.datetime) :
  (forall i p, answered (net i (product_url product_id) p)) ->
  forall m, 0 <= m ->
  forall s n all_candles,
    e - s = m -> 0 <= s -> s < e -> no_overflow s e ->
    exists ws,
      walk s e ws
      /\ fetch_loop net product_id gran e s n all_candles
         = (blocks net product_id gran n ws,
            Returned (all_candles ++ contributions net product_id gran n ws)).
Proof.
  intros Hnet m Hm. pattern m. apply Z_lt_induction; [| exact Hm].
  clear m Hm. intros m IH s n acc Em H0 Hlt Hno.
  assert (Hd : 0 < delta) by reflexivity.
  assert (Hmax : s + delta <= Datetime.MAX).
  { specialize (Hno 0). rewrite Z.mul_0_l, Z.add_0_r in Hno. apply Hno; lia. }
  rewrite fetch_loop_eq.
  apply Z.ltb_lt in Hlt as Hb. rewrite Hb.
  rewrite (window_end_in_range s e H0 Hlt Hmax).
  destruct (s + delta >? e) eqn:Hc.
  - (* the last window *)
    exists [(s, e)]. split; [apply walk_last; lia |].
    pose proof (request_window_answered net n product_id gran (s, e) acc
                  (Hnet _ _)) as Hrw.
    cbn [fst snd] in Hrw. rewrite Hrw.
    rewrite fetch_loop_eq, Z.ltb_irrefl. cbn [blocks contributions after fst snd].
    rewrite !app_nil_r. reflexivity.
  - assert (Hle : s + delta <= e) by lia.
    pose proof (request_window_answered net n product_id gran (s, s + delta)
                  acc (Hnet _ _)) as Hrw.
    cbn [fst snd] in Hrw. rewrite Hrw.
    destruct (Z.eq_dec (s + delta) e) as [He | Hne].
    + (* a window of 300 minutes that ends at [e] *)
      exists [(s, s + delta)]. split.
      * rewrite <- He. apply walk_last; lia.
      * rewrite fetch_loop_eq. replace (s + delta <? e) with false
          by (symmetry; apply Z.ltb_ge; lia).
        cbn [blocks contributions after fst snd]. rewrite !app_nil_r.
        reflexivity.
    + destruct (IH (e - (s + delta)) ltac:(lia) (s + delta) (S n)
                  (acc ++ contribution
                            (answer net product_id gran n (s, s + delta))))
        as (ws & Hw & Hrun); try lia.
      { intros k Hk Hlt'. specialize (Hno (k + 1)).
        replace (s + (k + 1) * delta) with (s + delta + k * delta) in Hno by lia.
        apply Hno; lia. }
      exists ((s, s + delta) :: ws). split; [apply walk_step, Hw |].
      rewrite Hrun. cbn [blocks contributions after fst snd].
      rewrite <- !app_assoc. reflexivity.
Qed.

Lemma blocks_gets (net : network) (product_id : string) (gran : Z)
  (ws : list window) :
  forall n,
    gets (blocks net product_id gran n ws) = map (request_of product_id gran) ws.
Proof.
  induction ws as [| w ws IH]; intros n; [reflexivity |].
  cbn [blocks app gets filter request_of map]. f_equal. apply IH.
Qed.

Lemma blocks_app (net : network) (product_id : string) (gran : Z)
  (ws1 ws2 : list window) :
  forall n,
    blocks net product_id gran n (ws1 ++ ws2)
    = blocks net product_id gran n ws1
      ++ blocks net product_id gran (n + List.length ws1) ws2.
Proof.
  induction ws1 as [| w ws1 IH]; intros n.
  - cbn. rewrite Nat.add_0_r. reflexivity.
  - cbn [app blocks List.length]. rewrite IH.
    replace (n + S (List.length ws1))%nat with (S n + List.length ws1)%nat by lia.
    reflexivity.
Qed.

Lemma contributions_app (net : network) (product_id : string) (gran : Z)
  (ws1 ws2 : list window) :
  forall n,
    contributions net product_id gran n (ws1 ++ ws2)
    = contributions net product_id gran n ws1
      ++ contributions net product_id gran (n + List.length ws1) ws2.
Proof.
  induction ws1 as [| w ws1 IH]; intros n.
  - cbn. rewrite Nat.add_0_r. reflexivity.
  - cbn [app contributions List.length]. rewrite IH, <- app_assoc.
    replace (n + S (List.length ws1))%nat with (S n + List.length ws1)%nat by lia.
    reflexivity.
Qed.

Lemma no_data_contribution (r : outcome response) :
  no_data r -> contribution r = [].
Proof.
  intros (resp & -> & [Hs | Hj]); unfold contribution.
  - apply Z.eqb_neq in Hs. rewrite Hs. reflexivity.
  - rewrite Hj. destruct (status_code resp =? 200); reflexivity.
Qed.

(** The sample exchange answers every request. *)
Lemma sample_net_answered (url : string) :
  forall i p, answered (sample_net i url p).
Proof.
  intros i p. unfold sample_net, answered.
  destruct i as [| [| [| [| i]]]];
    (eexists; split; [reflexivity |]; intros _; eexists; reflexivity).
Qed.

(** What a walk is, window by window: the first window starts at [s]; a
    window that has a successor spans 300 minutes and the successor starts
    where it ends; the last window ends at [e] and is not longer than 300
    minutes. *)
Lemma walk_shape (s e : datetime) (ws : list window) :
  walk s e ws ->
  hd_error (map fst ws) = Some s
  /\ (forall i w w',
        nth_error ws i = Some w -> nth_error ws (S i) = Some w' ->
        snd w - fst w = delta /\ fst w' = snd w)
  /\ (exists w,
        nth_error ws (List.length ws - 1) = Some w
        /\ snd w = e /\ 0 < snd w - fst w <= delta).
Proof.
  induction 1 as [s e Hlt Hle | s e ws Hw (Hhd & Hadj & (wl & Hl & He & Hspan))].
  - split; [reflexivity |]. split.
    + intros [| [| i]] w w' H1 H2; discriminate.
    + exists (s, e). cbn. repeat split; auto; lia.
  - split; [reflexivity |]. split.
    + intros [| i] w w' H1 H2.
      * injection H1 as <-. cbn [fst snd]. split; [lia |].
        destruct ws as [| x ws]; [discriminate |].
        injection H2 as <-. injection Hhd as ->. reflexivity.
      * apply (Hadj i w w' H1 H2).
    + exists wl. split; [| auto].
      destruct ws as [| x ws]; [discriminate |].
      cbn [List.length Nat.sub] in *. rewrite Nat.sub_0_r in *. exact Hl.
Qed.

(** C3 (amended). For every start earlier than end, when no window start is
    within 300 minutes of [datetime.max] and every request gets a response
    (of readable JSON when its status is 200), [fetch_candles] walks from
    start to end: the windows follow one another, each but the last spans
    300 minutes, the last ends at end; the GETs issued are those of the
    windows, in order, one for each, with the bounds of the window in ISO
    format; and the list returned is the data of the responses, one after
    the other in the order of the windows. *)
Theorem fetch_candles_walks (net : network) (product_id : string)
  (start_time end_time : Datetime.datetime) (gran : Z) :
  Datetime.valid start_time ->
  start_time < end_time ->
  no_overflow start_time end_time ->
  (forall i p, answered (net i (product_url product_id) p)) ->
  exists ws,
    walk start_time end_time ws
    /\ gets (fst (fetch_candles net product_id start_time end_time gran))
       = map (request_of product_id gran) ws
    /\ snd (fetch_candles net product_id start_time end_time gran)
       = Returned (contributions net product_id gran 0 ws).
Proof.
  intros [H0 _] Hlt Hno Hnet.
  destruct (fetch_loop_walk net product_id gran end_time Hnet
              (end_time - start_time) ltac:(lia) start_time 0%nat []
              eq_refl H0 Hlt Hno) as (ws & Hw & Hrun).
  exists ws. unfold fetch_candles. rewrite Hrun. cbn [fst snd app].
  split; [exact Hw |]. split; [apply blocks_gets | reflexivity].
Qed.

(** The analysis window of the pipeline. *)
Lemma fetch_candles_walks_witness :
  valid START_TIME
  /\ START_TIME < END_TIME
  /\ no_overflow START_TIME END_TIME
  /\ (forall i p, answered (sample_net i (product_url "BTC-USD") p))
  /\ exists ws,
       walk START_TIME END_TIME ws
       /\ gets (fst (fetch_candles sample_net "BTC-USD" START_TIME END_TIME
                       GRANULARITY))
          = map (request_of "BTC-USD" GRANULARITY) ws
       /\ snd (fetch_candles sample_net "BTC-USD" START_TIME END_TIME
                 GRANULARITY)
          = Returned (contributions sample_net "BTC-USD" GRANULARITY 0 ws).
Proof.
  assert (Hv : valid START_TIME) by (vm_compute; split; discriminate).
  assert (Hlt : START_TIME < END_TIME) by reflexivity.
  assert (Hno : no_overflow START_TIME END_TIME).
  { unfold no_overflow, START_TIME, END_TIME, MAX, delta, minutes, US_PER_DAY,
      US_PER_SECOND. lia. }
  assert (Hnet : forall i p, answered (sample_net i (product_url "BTC-USD") p)).
  { intros i p. unfold sample_net, answered.
    destruct i as [| [| [| [| i]]]];
      (eexists; split; [reflexivity |]; intros _; eexists; reflexivity). }
  repeat (split; [assumption |]).
  apply (fetch_candles_walks sample_net "BTC-USD" START_TIME END_TIME
           GRANULARITY Hv Hlt Hno Hnet).
Defined.

(** Against C3 as it was stated: ten minutes before [datetime.max] the first
    addition of 300 minutes raises [OverflowError]; no GET is issued and
    nothing is returned. *)
Lemma fetch_candles_overflows :
  valid late_start
  /\ late_start < MAX
  /\ (forall i p, answered (sample_net i (product_url "BTC-USD") p))
  /\ fetch_candles sample_net "BTC-USD" late_start MAX GRANULARITY
     = ([], Raised OverflowError)
  /\ ~ (exists ws,
          walk late_start MAX ws
          /\ gets (fst (fetch_candles sample_net "BTC-USD" late_start MAX
                          GRANULARITY))
             = map (request_of "BTC-USD" GRANULARITY) ws
          /\ snd (fetch_candles sample_net "BTC-USD" late_start MAX
                    GRANULARITY)
             = Returned (contributions sample_net "BTC-USD" GRANULARITY 0 ws)).
Proof.
  assert (E : fetch_candles sample_net "BTC-USD" late_start MAX GRANULARITY
              = ([], Raised OverflowError)) by (vm_compute; reflexivity).
  split; [vm_compute; split; discriminate |].
  split; [reflexivity |].
  split; [apply sample_net_answered |].
  split; [exact E |].
  intros (ws & _ & _ & H). rewrite E in H. discriminate.
Qed.

(** C7. When the request of a window (the loop being at [current_start],
    with [n] requests made and [all_candles] gathered) comes back with
    another status than 200 or with empty data, [fetch_candles] does not ask
    again: after the one GET it prints, sleeps for half a second and goes on
    from the end of the window with the next request, and [all_candles] is
    what it was. *)
Theorem fetch_candles_no_retry (net : network) (product_id : string)
  (gran : Z) (end_time current_start current_end : datetime) (n : nat)
  (all_candles : list candle) :
  current_start < end_time ->
  window_end current_start end_time = Returned current_end ->
  no_data (answer net product_id gran n (current_start, current_end)) ->
  exists m,
    fetch_loop net product_id gran end_time current_start n all_candles
    = after [request_of product_id gran (current_start, current_end);
             Printed m; Sleep (1 # 2)]
        (fetch_loop net product_id gran end_time current_end (S n) all_candles).
Proof.
  intros Hlt Hw Hnd.
  exists (notice product_id (current_start, current_end)
            (answer net product_id gran n (current_start, current_end))).
  rewrite fetch_loop_eq. apply Z.ltb_lt in Hlt. rewrite Hlt, Hw.
  assert (Ha : answered (answer net product_id gran n
                           (current_start, current_end))).
  { destruct Hnd as (resp & E & [Hs | Hj]); exists resp; split; auto.
    - intros H. contradiction.
    - intros _. eauto. }
  pose proof (request_window_answered net n product_id gran
                (current_start, current_end) all_candles Ha) as Hrw.
  cbn [fst snd] in Hrw. rewrite Hrw.
  rewrite (no_data_contribution _ Hnd), app_nil_r. reflexivity.
Qed.

(** The second window of the analysis window, whose request comes back
    with status 404. *)
Lemma fetch_candles_no_retry_witness :
  START_TIME + delta < END_TIME
  /\ window_end (START_TIME + delta) END_TIME
     = Returned (START_TIME + delta + delta)
  /\ no_data (answer sample_net "BTC-USD" GRANULARITY 1
                (START_TIME + delta, START_TIME + delta + delta))
  /\ exists m,
       fetch_loop sample_net "BTC-USD" GRANULARITY END_TIME
         (START_TIME + delta) 1 [sample_candle 1763337600]
       = after [request_of "BTC-USD" GRANULARITY
                  (START_TIME + delta, START_TIME + delta + delta);
                Printed m; Sleep (1 # 2)]
           (fetch_loop sample_net "BTC-USD" GRANULARITY END_TIME
              (START_TIME + delta + delta) 2 [sample_candle 1763337600]).
Proof.
  assert (Hlt : START_TIME + delta < END_TIME) by reflexivity.
  assert (Hw : window_end (START_TIME + delta) END_TIME
               = Returned (START_TIME + delta + delta)) by reflexivity.
  assert (Hnd : no_data (answer sample_net "BTC-USD" GRANULARITY 1
                           (START_TIME + delta, START_TIME + delta + delta))).
  { eexists. split; [reflexivity |]. left. cbn. discriminate. }
  repeat (split; [assumption |]).
  apply (fetch_candles_no_retry sample_net "BTC-USD" GRANULARITY END_TIME
           (START_TIME + delta) (START_TIME + delta + delta) 1
           [sample_candle 1763337600] Hlt Hw Hnd).
Defined.

Lemma nth_error_split (ws : list window) (i : nat) (w : window) :
  nth_error ws i = Some w ->
  ws = firstn i ws ++ w :: skipn (S i) ws /\ List.length (firstn i ws) = i.
Proof.
  intros H. split.
  - rewrite <- (firstn_skipn i ws) at 1. f_equal.
    revert ws H. induction i as [| i IH]; intros [| x ws] H; try discriminate.
    + injection H as ->. reflexivity.
    + cbn. apply IH, H.
  - apply firstn_length_le. apply Nat.lt_le_incl, nth_error_Some. congruence.
Qed.

(** The same in the whole run: the GETs before that of a window without
    data are those of the earlier windows, the GETs after it those of the
    later windows, and the list returned has nothing from this window. *)
Lemma fetch_candles_skips_window (net : network) (product_id : string)
  (start_time end_time : Datetime.datetime) (gran : Z) :
  Datetime.valid start_time ->
  start_time < end_time ->
  no_overflow start_time end_time ->
  (forall i p, answered (net i (product_url product_id) p)) ->
  exists ws,
    walk start_time end_time ws
    /\ forall i w,
         nth_error ws i = Some w ->
         no_data (answer net product_id gran i w) ->
         exists before m after,
           fst (fetch_candles net product_id start_time end_time gran)
           = before
             ++ [request_of product_id gran w; Printed m; Sleep (1 # 2)]
             ++ after
           /\ gets before = map (request_of product_id gran) (firstn i ws)
           /\ gets after = map (request_of product_id gran) (skipn (S i) ws)
           /\ snd (fetch_candles net product_id start_time end_time gran)
              = Returned
                  (contributions net product_id gran 0 (firstn i ws)
                   ++ contributions net product_id gran (S i)
                        (skipn (S i) ws)).
Proof.
  intros [H0 _] Hlt Hno Hnet.
  destruct (fetch_loop_walk net product_id gran end_time Hnet
              (end_time - start_time) ltac:(lia) start_time 0%nat []
              eq_refl H0 Hlt Hno) as (ws & Hw & Hrun).
  exists ws. split; [exact Hw |].
  intros i w Hi Hnd.
  destruct (nth_error_split ws i w Hi) as [Hsplit Hlen].
  unfold fetch_candles. rewrite Hrun. cbn [fst snd app].
  exists (blocks net product_id gran 0 (firstn i ws)),
    (notice product_id w (answer net product_id gran i w)),
    (blocks net product_id gran (S i) (skipn (S i) ws)).
  rewrite !blocks_gets.
  split; [| split; [reflexivity | split; [reflexivity |]]].
  - rewrite Hsplit at 1. rewrite blocks_app, Hlen. reflexivity.
  - rewrite Hsplit at 1. rewrite contributions_app, Hlen.
    cbn [contributions Nat.add].
    rewrite (no_data_contribution _ Hnd). reflexivity.
Qed.

(** C10. When start is not earlier than end, [fetch_candles] makes no
    request (nothing happens at all) and returns the empty list. *)
Theorem fetch_candles_empty_range (net : network) (product_id : string)
  (start_time end_time : Datetime.datetime) (gran : Z) :
  end_time <= start_time ->
  fetch_candles net product_id start_time end_time gran = ([], Returned []).
Proof.
  intros H. unfold fetch_candles. rewrite fetch_loop_eq.
  replace (start_time <? end_time) with false; [reflexivity |].
  symmetry. apply Z.ltb_ge. exact H.
Qed.

(** The analysis window, from its end to its start. *)
Lemma fetch_candles_empty_range_witness :
  START_TIME <= END_TIME
  /\ fetch_candles sample_net "BTC-USD" END_TIME START_TIME GRANULARITY
     = ([], Returned []).
Proof.
  assert (H : START_TIME <= END_TIME) by (vm_compute; discriminate).
  split; [exact H |].
  apply (fetch_candles_empty_range sample_net "BTC-USD" END_TIME START_TIME
           GRANULARITY H).
Defined.

(** ** isoformat is one-to-one *)

Lemma length_append (s t : string) :
  String.length (s ++ t)%string = (String.length s + String.length t)%nat.
Proof. induction s as [| c s IH]; cbn; [reflexivity | rewrite IH; reflexivity]. Qed.

Lemma append_inj (s1 : string) :
  forall s2 t1 t2,
    String.length s1 = String.length s2 ->
    (s1 ++ t1)%string = (s2 ++ t2)%string -> s1 = s2 /\ t1 = t2.
Proof.
  induction s1 as [| c s1 IH]; intros [| c2 s2] t1 t2 Hl H; cbn in *;
    try discriminate; [auto |].
  injection H as -> H. injection Hl as Hl.
  destruct (IH _ _ _ Hl H) as [-> ->]. auto.
Qed.

Lemma length_zpad (k : nat) : forall n, String.length (zpad k n) = k.
Proof.
  induction k as [| k IH]; intros n; cbn [zpad]; [reflexivity |].
  rewrite length_append, IH. cbn. lia.
Qed.

Lemma digit_inj (n m : Z) : digit n = digit m -> n mod 10 = m mod 10.
Proof.
  unfold digit. intros H.
  pose proof (Z.mod_pos_bound n 10 ltac:(lia)) as Hn.
  pose proof (Z.mod_pos_bound m 10 ltac:(lia)) as Hm.
  apply (f_equal nat_of_ascii) in H.
  rewrite !nat_ascii_embedding in H by lia. lia.
Qed.

Lemma zpad_inj (k : nat) :
  forall n m,
    zpad k n = zpad k m -> n mod 10 ^ Z.of_nat k = m mod 10 ^ Z.of_nat k.
Proof.
  induction k as [| k IH]; intros n m H.
  - cbn. rewrite !Z.mod_1_r. reflexivity.
  - cbn [zpad] in H.
    apply append_inj in H; [| rewrite !length_zpad; reflexivity].
    destruct H as [H1 H2]. injection H2 as Hd.
    apply digit_inj in Hd. apply IH in H1.
    rewrite Nat2Z.inj_succ, Z.pow_succ_r by lia.
    rewrite !Z.rem_mul_r by lia. lia.
Qed.

Lemma append_cancel_l (sep s t : string) :
  (sep ++ s)%string = (sep ++ t)%string -> s = t.
Proof. intros H. apply append_inj in H; [apply H | reflexivity]. Qed.

(** A field of [k] digits at the head of a text. *)
Lemma zpad_field_inj (k : nat) (n m : Z) (s t : string) :
  (zpad k n ++ s)%string = (zpad k m ++ t)%string ->
  zpad k n = zpad k m /\ s = t.
Proof.
  intros H. apply append_inj in H; [exact H |].
  rewrite !length_zpad. reflexivity.
Qed.

(** The year of the era and the day of that year, from the day of the
    era. *)
Lemma year_of_era_bounds (doe : Z) :
  0 <= doe < 146097 ->
  let yoe := (doe - doe / 1460 + doe / 36524 - doe / 146096) / 365 in
  let doy := doe - (365 * yoe + yoe / 4 - yoe / 100) in
  0 <= yoe <= 399 /\ 0 <= doy <= 365.
Proof. intros H. cbv zeta. Z.div_mod_to_equations. lia. Qed.

(** The month (counted from March) and the day of the month, from the day of
    the year. *)
Lemma month_of_year_bounds (doy : Z) :
  0 <= doy <= 365 ->
  let mp := (5 * doy + 2) / 153 in
  0 <= mp <= 11 /\ 1 <= doy - (153 * mp + 2) / 5 + 1 <= 31
  /\ (306 <= doy -> 10 <= mp).
Proof.
  intros H. cbv zeta. set (mp := (5 * doy + 2) / 153).
  assert (Hdef : 153 * mp <= 5 * doy + 2 < 153 * mp + 153)
    by (subst mp; Z.div_mod_to_equations; lia).
  clearbody mp.
  assert (Hc : mp = 0 \/ mp = 1 \/ mp = 2 \/ mp = 3 \/ mp = 4 \/ mp = 5
               \/ mp = 6 \/ mp = 7 \/ mp = 8 \/ mp = 9 \/ mp = 10 \/ mp = 11)
    by lia.
  repeat (destruct Hc as [-> | Hc]); try subst mp;
    (Z.div_mod_to_equations; lia).
Qed.

(** In the first era, the date says which day it is. *)
Lemma civil_first_era (doe : Z) :
  0 <= doe < 146097 ->
  let '(y, m, d) := civil (doe - 306) in
  let y' := y - (if m <=? 2 then 1 else 0) in
  0 <= y' <= 399 /\ 1 <= m <= 12 /\ 1 <= d <= 31
  /\ era_day y' m d = doe
  /\ (306 <= doe -> 1 <= y).
Proof.
  intros H. unfold civil.
  replace (doe - 306 + 306) with doe by lia.
  rewrite (Z.div_small doe 146097), (Z.mod_small doe 146097) by lia. cbv zeta.
  pose proof (year_of_era_bounds doe H) as Hy. cbv zeta in Hy.
  set (yoe := (doe - doe / 1460 + doe / 36524 - doe / 146096) / 365) in *.
  destruct Hy as [Hyoe Hdoy].
  pose proof (month_of_year_bounds _ Hdoy) as Hm. cbv zeta in Hm.
  set (doy := doe - (365 * yoe + yoe / 4 - yoe / 100)) in *.
  set (mp := (5 * doy + 2) / 153) in *.
  destruct Hm as (Hmp & Hday & Hlate).
  set (day := doy - (153 * mp + 2) / 5 + 1) in *.
  assert (Hdoe : doe = 365 * yoe + yoe / 4 - yoe / 100 + doy)
    by (subst doy; lia).
  assert (Hdd : doy = (153 * mp + 2) / 5 + day - 1) by (subst day; lia).
  clearbody day mp doy yoe.
  unfold era_day.
  destruct (mp <? 10) eqn:E10.
  - apply Z.ltb_lt in E10.
    replace (mp + 3 <=? 2) with false by (symmetry; apply Z.leb_gt; lia).
    replace (mp + 3 >? 2) with true by (symmetry; apply Z.gtb_lt; lia).
    replace (mp + 3 - 3) with mp by lia.
    replace (yoe + 0 * 400 + 0 - 0) with yoe by lia.
    repeat split; try lia.
    intros Hlate'. destruct (Z.eq_dec yoe 0) as [-> | Hne]; [| lia].
    change (0 / 4) with 0 in Hdoe. change (0 / 100) with 0 in Hdoe. lia.
  - apply Z.ltb_ge in E10.
    replace (mp - 9 <=? 2) with true by (symmetry; apply Z.leb_le; lia).
    replace (mp - 9 >? 2) with false
      by (symmetry; apply not_true_is_false; rewrite Z.gtb_lt; lia).
    replace (mp - 9 + 9) with mp by lia.
    replace (yoe + 0 * 400 + 1 - 1) with yoe by lia.
    repeat split; lia.
Qed.

Lemma civil_era_shift (d k : Z) :
  civil (d + 146097 * k)
  = let '(y, m, dd) := civil d in (y + 400 * k, m, dd).
Proof.
  unfold civil.
  replace (d + 146097 * k + 306) with (d + 306 + k * 146097) by lia.
  rewrite Z.div_add, Z.mod_add by lia.
  cbv zeta.
  set (doe := (d + 306) mod 146097).
  set (yoe := (doe - doe / 1460 + doe / 36524 - doe / 146096) / 365).
  set (doy := doe - (365 * yoe + yoe / 4 - yoe / 100)).
  set (mp := (5 * doy + 2) / 153).
  set (month := if mp <? 10 then mp + 3 else mp - 9).
  clearbody month mp doy yoe doe. f_equal. f_equal. ring.
Qed.

(** The date of a day says which day it is. *)
Lemma days_of_civil_civil (d : Z) :
  -306 <= d ->
  let '(y, m, dd) := civil d in
  days_of_civil y m dd = d
  /\ 1 <= m <= 12 /\ 1 <= dd <= 31
  /\ (0 <= d -> 1 <= y <= 1 + 400 * ((d + 306) / 146097) + 399).
Proof.
  intros Hd.
  set (era := (d + 306) / 146097). set (doe := (d + 306) mod 146097).
  assert (Hdoe : 0 <= doe < 146097) by (apply Z.mod_pos_bound; lia).
  assert (Hera : 0 <= era) by (apply Z.div_pos; lia).
  assert (Ed : d = doe - 306 + 146097 * era).
  { pose proof (Z.div_mod (d + 306) 146097 ltac:(lia)). subst era doe. lia. }
  pose proof (civil_first_era doe Hdoe) as Hc.
  pose proof (civil_era_shift (doe - 306) era) as Hs.
  rewrite <- Ed in Hs. rewrite Hs. clear Hs.
  destruct (civil (doe - 306)) as [[y m] dd].
  cbv zeta in Hc. destruct Hc as (Hy' & Hm & Hdd & Hera_day & Hfirst).
  unfold days_of_civil. cbv zeta.
  set (c := if m <=? 2 then 1 else 0) in *.
  assert (Hcb : 0 <= c <= 1) by (subst c; destruct (m <=? 2); lia).
  clearbody c.
  replace (y + 400 * era - c) with (y - c + era * 400) by lia.
  rewrite Z.div_add, Z.mod_add by lia.
  rewrite (Z.mod_small (y - c)), (Z.div_small (y - c)) by lia.
  fold era. clearbody era doe.
  split; [lia |]. split; [lia |]. split; [lia |].
  intros Hd0. split; [| lia].
  destruct (Z_lt_dec doe 306) as [Hlt | Hge].
  - assert (1 <= era) by lia. lia.
  - specialize (Hfirst ltac:(lia)). lia.
Qed.

Lemma civil_inj (a b : Z) : -306 <= a -> -306 <= b -> civil a = civil b -> a = b.
Proof.
  intros Ha Hb H.
  pose proof (days_of_civil_civil a Ha) as Pa.
  pose proof (days_of_civil_civil b Hb) as Pb.
  rewrite H in Pa. destruct (civil b) as [[y m] d].
  destruct Pa as [<- _]. destruct Pb as [<- _]. reflexivity.
Qed.

(** Two datetimes with the same ISO text are the same datetime. *)
Lemma isoformat_inj (a b : datetime) :
  valid a -> valid b -> isoformat a = isoformat b -> a = b.
Proof.
  unfold valid, MAX, isoformat.
  change US_PER_DAY with 86400000000. change US_PER_SECOND with 1000000.
  intros Ha Hb H.
  assert (Hda : 0 <= a / 86400000000 < 3652059)
    by (split; [apply Z.div_pos | apply Z.div_lt_upper_bound]; lia).
  assert (Hdb : 0 <= b / 86400000000 < 3652059)
    by (split; [apply Z.div_pos | apply Z.div_lt_upper_bound]; lia).
  pose proof (days_of_civil_civil (a / 86400000000) ltac:(lia)) as Pa.
  pose proof (days_of_civil_civil (b / 86400000000) ltac:(lia)) as Pb.
  assert (Hea : (a / 86400000000 + 306) / 146097 <= 24)
    by (apply Z.lt_succ_r, Z.div_lt_upper_bound; lia).
  assert (Heb : (b / 86400000000 + 306) / 146097 <= 24)
    by (apply Z.lt_succ_r, Z.div_lt_upper_bound; lia).
  destruct (civil (a / 86400000000)) as [[y1 m1] d1].
  destruct (civil (b / 86400000000)) as [[y2 m2] d2].
  destruct Pa as (Ia & Hm1 & Hd1 & Hy1). destruct Pb as (Ib & Hm2 & Hd2 & Hy2).
  specialize (Hy1 ltac:(lia)). specialize (Hy2 ltac:(lia)).
  cbv zeta in H.
  set (ta := a mod 86400000000) in *. set (tb := b mod 86400000000) in *.
  assert (Hta : 0 <= ta < 86400000000) by (apply Z.mod_pos_bound; lia).
  assert (Htb : 0 <= tb < 86400000000) by (apply Z.mod_pos_bound; lia).
  apply zpad_field_inj in H as [Hy H]. apply append_cancel_l in H.
  apply zpad_field_inj in H as [Hm H]. apply append_cancel_l in H.
  apply zpad_field_inj in H as [Hd H]. apply append_cancel_l in H.
  apply zpad_field_inj in H as [Hh H]. apply append_cancel_l in H.
  apply zpad_field_inj in H as [Hmi H]. apply append_cancel_l in H.
  apply zpad_field_inj in H as [Hs H].
  apply zpad_inj in Hy, Hm, Hd, Hh, Hmi, Hs.
  change (10 ^ Z.of_nat 4) with 10000 in Hy.
  change (10 ^ Z.of_nat 2) with 100 in Hm, Hd, Hh, Hmi, Hs.
  assert (Hus : ta mod 1000000 = tb mod 1000000).
  { pose proof (Z.mod_pos_bound ta 1000000 ltac:(lia)).
    pose proof (Z.mod_pos_bound tb 1000000 ltac:(lia)).
    destruct (ta mod 1000000 =? 0) eqn:E1, (tb mod 1000000 =? 0) eqn:E2;
      try discriminate.
    - apply Z.eqb_eq in E1, E2. congruence.
    - apply append_cancel_l in H. apply zpad_inj in H.
      change (10 ^ Z.of_nat 6) with 1000000 in H.
      rewrite (Z.mod_small (ta mod 1000000)),
        (Z.mod_small (tb mod 1000000)) in H by lia.
      exact H. }
  clear H.
  assert (Ey : y1 = y2).
  { assert (1 <= y1 <= 10000 /\ 1 <= y2 <= 10000) as [B1 B2] by lia.
    clear - Hy B1 B2. Z.div_mod_to_equations. lia. }
  assert (Em : m1 = m2) by (clear - Hm Hm1 Hm2; Z.div_mod_to_equations; lia).
  assert (Ed : d1 = d2) by (clear - Hd Hd1 Hd2; Z.div_mod_to_equations; lia).
  assert (Eday : a / 86400000000 = b / 86400000000) by congruence.
  assert (Et : ta = tb).
  { clear - Hh Hmi Hs Hus Hta Htb. Z.div_mod_to_equations. lia. }
  pose proof (Z.div_mod a 86400000000 ltac:(lia)).
  pose proof (Z.div_mod b 86400000000 ltac:(lia)).
  fold ta in H. fold tb in H0. lia.
Qed.

(** ** The size of the windows *)

Lemma window_end_returned (s e ce : datetime) :
  s < e -> window_end s e = Returned ce ->
  s < ce /\ ce <= e /\ ce - s <= delta /\ s + delta <= MAX.
Proof.
  intros Hlt. unfold window_end, Datetime.add, bind_outcome.
  assert (0 < delta) by reflexivity.
  destruct ((0 <=? s + delta) && (s + delta <=? MAX)) eqn:Hr; [| discriminate].
  apply andb_true_iff in Hr as [_ Hr]. apply Z.leb_le in Hr.
  intros H'. injection H' as <-.
  destruct (s + delta >? e) eqn:Hc; lia.
Qed.

Lemma request_window_events (net : network) (n : nat) (product_id : string)
  (gran : Z) (s ce : datetime) (all_candles : list candle) :
  exists rest,
    fst (request_window net n product_id gran s ce all_candles)
    = request_of product_id gran (s, ce) :: rest
    /\ forall url p, ~ In (Get url p) rest.
Proof.
  unfold request_window, request_of. cbn [fst snd].
  destruct (net n _ _) as [resp | x].
  - destruct (status_code resp =? 200).
    + destruct (json resp) as [[| c data] | x]; cbn [fst];
        eexists; (split; [reflexivity |]);
        intros url p Hin; cbn in Hin;
        repeat (destruct Hin as [Hin | Hin]; try discriminate); auto.
    + eexists. split; [reflexivity |].
      intros url p [Hin | []]. discriminate.
  - exists []. split; [reflexivity | intros url p []].
Qed.

(** Whatever the network does, a GET of the loop is the GET of a window that
    lies between the loop's start and the end, and spans at most 300
    minutes. *)
Lemma fetch_loop_requests (net : network) (product_id : string) (gran : Z)
  (e : datetime) (k : nat) :
  forall s n all_candles,
    e - s <= Z.of_nat k ->
    forall url p,
      In (Get url p) (fst (fetch_loop net product_id gran e s n all_candles)) ->
      exists w,
        Get url p = request_of product_id gran w
        /\ s <= fst w /\ fst w < snd w /\ snd w <= e
        /\ snd w - fst w <= delta.
Proof.
  induction k as [| k IH]; intros s n acc Hk url p Hin;
    rewrite fetch_loop_eq in Hin.
  - replace (s <? e) with false in Hin by (symmetry; apply Z.ltb_ge; lia).
    destruct Hin.
  - destruct (s <? e) eqn:Hlt; [| destruct Hin].
    apply Z.ltb_lt in Hlt.
    destruct (window_end s e) as [ce | x] eqn:Hw; [| destruct Hin].
    destruct (window_end_returned s e ce Hlt Hw) as (H1 & H2 & H3 & _).
    destruct (request_window_events net n product_id gran s ce acc)
      as (rest & Hev & Hrest).
    assert (Hhead : forall evs,
               evs = request_of product_id gran (s, ce) :: rest ->
               In (Get url p) evs ->
               exists w,
                 Get url p = request_of product_id gran w
                 /\ s <= fst w /\ fst w < snd w /\ snd w <= e
                 /\ snd w - fst w <= delta).
    { intros evs -> [Hg | Hg].
      - exists (s, ce). cbn [fst snd]. repeat split; auto; lia.
      - destruct (Hrest _ _ Hg). }
    destruct (request_window net n product_id gran s ce acc)
      as [evs [acc' | x]]; cbn [fst] in Hev.
    + unfold after in Hin. cbn [fst] in Hin.
      rewrite !in_app_iff in Hin. destruct Hin as [[Hin | Hin] | Hin].
      * apply (Hhead evs Hev Hin).
      * destruct Hin as [Hin | []]. discriminate.
      * destruct (IH ce (S n) acc' ltac:(lia) url p Hin)
          as (w & Ew & B1 & B2 & B3 & B4).
        exists w. repeat split; auto; lia.
    + cbn [fst] in Hin. apply (Hhead evs Hev Hin).
Qed.

(** C4 (amended). Whatever granularity is passed, every window that
    [fetch_candles] requests spans at most 300 minutes: the size of the
    window does not depend on the granularity. So a window spans at most
    granularity x 300 seconds whenever the granularity is at least 60. *)
Theorem fetch_candles_window_size (net : network) (product_id : string)
  (start_time end_time : datetime) (gran : Z) :
  valid start_time -> valid end_time ->
  windows_within net product_id start_time end_time gran (minutes 300)
  /\ (60 <= gran ->
      windows_within net product_id start_time end_time gran
        (gran * 300 * US_PER_SECOND)).
Proof.
  intros Hs He.
  assert (H : windows_within net product_id start_time end_time gran
                (minutes 300)).
  { intros a b Ha Hb Hin. unfold fetch_candles in Hin.
    destruct (fetch_loop_requests net product_id gran end_time
                (Z.to_nat (end_time - start_time)) start_time 0%nat []
                ltac:(lia) _ _ Hin) as (w & Ew & B1 & B2 & B3 & B4).
    assert (Ea : isoformat a = isoformat (fst w))
      by exact (f_equal (fun ev => match ev with
                                   | Get _ q => start q
                                   | _ => EmptyString
                                   end) Ew).
    assert (Eb : isoformat b = isoformat (snd w))
      by exact (f_equal (fun ev => match ev with
                                   | Get _ q => end_ q
                                   | _ => EmptyString
                                   end) Ew).
    unfold valid in *.
    apply isoformat_inj in Ea; [| assumption | unfold valid; lia].
    apply isoformat_inj in Eb; [| assumption | unfold valid; lia].
    subst a b. change (minutes 300) with delta. lia. }
  split; [exact H |].
  intros Hg a b Ha Hb Hin. specialize (H a b Ha Hb Hin).
  unfold minutes, US_PER_SECOND in *. lia.
Qed.

(** The analysis window, at the granularity of the pipeline. *)
Lemma fetch_candles_window_size_witness :
  valid START_TIME
  /\ valid END_TIME
  /\ windows_within sample_net "BTC-USD" START_TIME END_TIME GRANULARITY
       (minutes 300)
  /\ (60 <= GRANULARITY ->
      windows_within sample_net "BTC-USD" START_TIME END_TIME GRANULARITY
        (GRANULARITY * 300 * US_PER_SECOND)).
Proof.
  assert (Hs : valid START_TIME) by (vm_compute; split; discriminate).
  assert (He : valid END_TIME) by (vm_compute; split; discriminate).
  split; [exact Hs |]. split; [exact He |].
  apply (fetch_candles_window_size sample_net "BTC-USD" START_TIME END_TIME
           GRANULARITY Hs He).
Defined.

(** Against C4 as it was stated: at granularity 30 the first window of the
    analysis window spans 300 minutes, more than 30 x 300 seconds. *)
Lemma fetch_candles_window_exceeds_limit :
  valid START_TIME
  /\ valid END_TIME
  /\ ~ windows_within sample_net "BTC-USD" START_TIME END_TIME 30
         (30 * 300 * US_PER_SECOND).
Proof.
  split; [vm_compute; split; discriminate |].
  split; [vm_compute; split; discriminate |].
  intros H.
  specialize (H START_TIME (START_TIME + minutes 300)).
  assert (Hspan : 0 < START_TIME + minutes 300 - START_TIME
                  <= 30 * 300 * US_PER_SECOND).
  { apply H.
    - vm_compute. split; discriminate.
    - vm_compute. split; discriminate.
    - vm_compute. left. reflexivity. }
  vm_compute in Hspan. destruct Hspan as [_ Hspan]. apply Hspan. reflexivity.
Qed.

(** ** The hourly aggregation *)

Lemma group_eqb_eq (g h : group) : group_eqb g h = true <-> g = h.
Proof.
  destruct g as [p [a |]], h as [q [b |]]; unfold group_eqb; cbn [fst snd];
    rewrite andb_true_iff, ?String.eqb_eq; split;
    try (intros [-> ->]; reflexivity);
    try (intros [-> H]; (discriminate || reflexivity));
    try (intros H; injection H; auto);
    try discriminate.
Qed.

Lemma group_eqb_refl (g : group) : group_eqb g g = true.
Proof. apply group_eqb_eq. reflexivity. Qed.

Lemma group_eqb_neq (g h : group) : group_eqb g h = false <-> g <> h.
Proof.
  split.
  - intros H E. apply group_eqb_eq in E. congruence.
  - intros H. destruct (group_eqb g h) eqn:E; [| reflexivity].
    apply group_eqb_eq in E. contradiction.
Qed.



Lemma feed_keys (g : group) (r : row) (gs : list (group * aggregate)) :
  map fst (feed g r gs)
  = map fst gs ++ (if existsb (group_eqb g) (map fst gs) then [] else [g]).
Proof.
  induction gs as [| [h a] gs IH]; [reflexivity |].
  cbn [feed map fst existsb].
  destruct (group_eqb g h); cbn [map fst orb app].
  - rewrite app_nil_r. reflexivity.
  - rewrite IH. reflexivity.
Qed.

Lemma feed_in (g : group) (r : row) (gs : list (group * aggregate)) :
  NoDup (map fst gs) ->
  forall h a,
    In (h, a) (feed g r gs) ->
    (h <> g /\ In (h, a) gs)
    \/ (h = g
        /\ exists a0,
             a = step a0 r
             /\ (In (g, a0) gs \/ (a0 = no_rows /\ ~ In g (map fst gs)))).
Proof.
  induction gs as [| [h0 a0] gs IH]; intros Hnd h a Hin.
  - destruct Hin as [Hin | []]. injection Hin as <- <-.
    right. split; [reflexivity |]. exists no_rows. auto.
  - cbn [feed] in Hin. inversion Hnd as [| ? ? Hnotin Hnd']; subst.
    destruct (group_eqb g h0) eqn:E.
    + apply group_eqb_eq in E. subst h0.
      destruct Hin as [Hin | Hin].
      * injection Hin as <- <-. right. split; [reflexivity |].
        exists a0. split; [reflexivity |]. left. left. reflexivity.
      * left. split; [| right; exact Hin].
        intros ->. apply Hnotin. apply (in_map fst) in Hin. exact Hin.
    + apply group_eqb_neq in E.
      destruct Hin as [Hin | Hin].
      * injection Hin as <- <-. left. split; [congruence | left; reflexivity].
      * destruct (IH Hnd' h a Hin) as [[Hne Hold] | [-> (a1 & Ea & Hc)]].
        -- left. split; [exact Hne | right; exact Hold].
        -- right. split; [reflexivity |]. exists a1. split; [exact Ea |].
           destruct Hc as [Hc | [-> Hc]]; [left; right; exact Hc |].
           right. split; [reflexivity |].
           cbn [map fst]. intros [Heq | Hc']; [congruence | contradiction].
Qed.

Lemma group_by_snoc (strftime_hour : string -> option string) (t : table)
  (r : row) :
  group_by strftime_hour (t ++ [r])
  = feed (group_of strftime_hour r) r (group_by strftime_hour t).
Proof. unfold group_by. rewrite fold_left_app. reflexivity. Qed.

Lemma members_snoc (strftime_hour : string -> option string) (g : group)
  (t : table) (r : row) :
  members strftime_hour g (t ++ [r])
  = members strftime_hour g t
    ++ (if group_eqb (group_of strftime_hour r) g then [r] else []).
Proof. unfold members. rewrite filter_app. reflexivity. Qed.

(** The groups that GROUP BY makes: one for each (product_id, hour_bucket)
    that a row has, with the aggregate of the rows of the group, taken in
    the order of the table. *)
Lemma group_by_spec (strftime_hour : string -> option string) (t : table) :
  NoDup (map fst (group_by strftime_hour t))
  /\ (forall g,
        In g (map fst (group_by strftime_hour t))
        <-> exists r, In r t /\ group_of strftime_hour r = g)
  /\ (forall g a,
        In (g, a) (group_by strftime_hour t) ->
        a = fold_left step (members strftime_hour g t) no_rows).
Proof.
  induction t as [| r t IH] using rev_ind.
  - cbn. split; [constructor |]. split.
    + intros g. split; [intros [] | intros (r & [] & _)].
    + intros g a [].
  - destruct IH as (Hnd & Hkeys & Hagg).
    rewrite group_by_snoc. set (g := group_of strftime_hour r).
    set (gs := group_by strftime_hour t) in *.
    assert (Hex : existsb (group_eqb g) (map fst gs) = true
                  <-> In g (map fst gs)).
    { rewrite existsb_exists. split.
      - intros (h & Hh & E). apply group_eqb_eq in E. subst h. exact Hh.
      - intros Hg. exists g. split; [exact Hg | apply group_eqb_refl]. }
    split; [| split].
    + rewrite feed_keys. destruct (existsb (group_eqb g) (map fst gs)) eqn:E.
      * rewrite app_nil_r. exact Hnd.
      * apply NoDup_app; [exact Hnd | repeat constructor; auto |].
        intros h Hh [<- | []]. apply Hex in Hh. congruence.
    + intros h. rewrite feed_keys, in_app_iff, Hkeys. split.
      * intros [(r' & Hr' & E) | Hh].
        -- exists r'. split; [apply in_or_app; left; exact Hr' | exact E].
        -- destruct (existsb (group_eqb g) (map fst gs)); [destruct Hh |].
           destruct Hh as [<- | []].
           exists r. split; [apply in_or_app; right; left |]; reflexivity.
      * intros (r' & Hr' & E). apply in_app_or in Hr'.
        destruct Hr' as [Hr' | [<- | []]]; [left; eauto |].
        fold g in E. subst h.
        destruct (existsb (group_eqb g) (map fst gs)) eqn:Eg.
        -- left. apply Hkeys, Hex. reflexivity.
        -- right. left. reflexivity.
    + intros h a Hin. rewrite members_snoc. fold g.
      destruct (feed_in g r gs Hnd h a Hin)
        as [[Hne Hold] | [-> (a0 & -> & Hc)]].
      * replace (group_eqb g h) with false
          by (symmetry; apply group_eqb_neq; congruence).
        rewrite app_nil_r. apply Hagg, Hold.
      * rewrite group_eqb_refl, fold_left_app. cbn [fold_left]. f_equal.
        destruct Hc as [Hc | [-> Hc]]; [apply Hagg, Hc |].
        replace (members strftime_hour g t) with (@nil row); [reflexivity |].
        symmetry. unfold members.
        destruct (filter _ t) as [| r' l] eqn:Ef; [reflexivity |].
        assert (Hr' : In r' (filter
                               (fun r0 => group_eqb (group_of strftime_hour r0) g)
                               t))
          by (rewrite Ef; left; reflexivity).
        apply filter_In in Hr'. destruct Hr' as [Hr' E].
        apply group_eqb_eq in E. exfalso. apply Hc, Hkeys. eauto.
Qed.

Lemma bucket_leb_total (a b : option string) :
  bucket_leb a b = false -> bucket_leb b a = true.
Proof.
  destruct a as [x |], b as [y |]; cbn; try reflexivity; try discriminate.
  intros H. destruct (String.leb_total x y) as [H' | H']; congruence.
Qed.

Lemma insert_by_bucket_perm {A : Type} (x : group * A) (l : list (group * A)) :
  Permutation (x :: l) (insert_by_bucket x l).
Proof.
  induction l as [| y l IH]; cbn [insert_by_bucket]; [reflexivity |].
  destruct (bucket_leb (snd (fst x)) (snd (fst y))); [reflexivity |].
  rewrite perm_swap. apply perm_skip, IH.
Qed.

Lemma order_by_bucket_perm {A : Type} (l : list (group * A)) :
  Permutation l (order_by_bucket l).
Proof.
  induction l as [| x l IH]; [reflexivity |].
  cbn [order_by_bucket fold_right].
  rewrite <- insert_by_bucket_perm. apply perm_skip, IH.
Qed.

Lemma insert_by_group_perm {A : Type} (x : group * A) (l : list (group * A)) :
  Permutation (x :: l) (insert_by_group x l).
Proof.
  induction l as [| y l IH]; cbn [insert_by_group]; [reflexivity |].
  destruct (group_leb (fst x) (fst y)); [reflexivity |].
  rewrite perm_swap. apply perm_skip, IH.
Qed.

Lemma sort_by_group_perm {A : Type} (l : list (group * A)) :
  Permutation l (sort_by_group l).
Proof.
  induction l as [| x l IH]; [reflexivity |].
  cbn [sort_by_group fold_right].
  rewrite <- insert_by_group_perm. apply perm_skip, IH.
Qed.

(** The rows of the query are the groups, each once. *)
Lemma query_order_perm {A : Type} (l : list (group * A)) :
  Permutation l (order_by_bucket (sort_by_group l)).
Proof.
  rewrite <- order_by_bucket_perm. apply sort_by_group_perm.
Qed.

Lemma insert_by_bucket_sorted {A : Type} (x : group * A)
  (l : list (group * A)) :
  Sorted by_bucket l -> Sorted by_bucket (insert_by_bucket x l).
Proof.
  induction l as [| y l IH]; intros Hs; cbn [insert_by_bucket].
  - repeat constructor.
  - destruct (bucket_leb (snd (fst x)) (snd (fst y))) eqn:E.
    + constructor; [exact Hs | constructor; exact E].
    + inversion Hs as [| ? ? Hl Hhd]; subst.
      constructor; [apply IH, Hl |].
      apply bucket_leb_total in E.
      destruct l as [| z l]; cbn [insert_by_bucket].
      * constructor. exact E.
      * destruct (bucket_leb (snd (fst x)) (snd (fst z)));
          constructor; [exact E |].
        inversion Hhd; assumption.
Qed.

Lemma order_by_bucket_sorted {A : Type} (l : list (group * A)) :
  Sorted by_bucket (order_by_bucket l).
Proof.
  induction l as [| x l IH]; [constructor |].
  cbn [order_by_bucket fold_right]. apply insert_by_bucket_sorted, IH.
Qed.




(** ** Runs *)

Example isoformat_start_time : isoformat START_TIME = "2025-11-17T00:00:00".
Proof. vm_compute. reflexivity. Qed.

Example isoformat_end_time : isoformat END_TIME = "2025-11-24T23:59:59".
Proof. vm_compute. reflexivity. Qed.

Example isoformat_max : isoformat MAX = "9999-12-31T23:59:59.999999".
Proof. vm_compute. reflexivity. Qed.

Example fromtimestamp_half_second :
  bind_outcome (fromtimestamp_utc (PyFloat (3 # 2)))
    (fun t => Returned (isoformat_utc t))
  = Returned "1970-01-01T00:00:01.500000+00:00".
Proof. vm_compute. reflexivity. Qed.

(** Four hundred minutes from [START_TIME]: a window of 300 minutes, then
    one of 100 minutes, whose request fails. *)
Example fetch_candles_two_windows :
  fetch_candles sample_net "BTC-USD" START_TIME (START_TIME + minutes 400)
    GRANULARITY
  = ([Get "https://api.exchange.coinbase.com/products/BTC-USD/candles"
        (mk_params "2025-11-17T00:00:00" "2025-11-17T05:00:00" 60);
      Printed (Fetched 1 "BTC-USD" START_TIME (START_TIME + minutes 300));
      Sleep (1 # 2);
      Get "https://api.exchange.coinbase.com/products/BTC-USD/candles"
        (mk_params "2025-11-17T05:00:00" "2025-11-17T06:40:00" 60);
      Printed (FailedToFetch 404);
      Sleep (1 # 2)],
     Returned [sample_candle 1763337600]).
Proof. vm_compute. reflexivity. Qed.

(** The whole analysis window takes 39 requests. *)
Example fetch_candles_analysis_window :
  List.length (gets (fst (fetch_candles sample_net "BTC-USD" START_TIME
                            END_TIME GRANULARITY)))
  = 39%nat.
Proof. vm_compute. reflexivity. Qed.

(** A stored candle again, a candle that cannot be bound and a new one: the
    report counts two, one row is added. *)
Example store_data_reports_two :
  stdout (store_data sample_conn "BTC-USD"
            [sample_candle 0; broken_candle 60; sample_candle 120])
  = [DatabaseError InterfaceError; Stored 2 "BTC-USD"]
  /\ rows_added sample_conn
       (store_data sample_conn "BTC-USD"
          [sample_candle 0; broken_candle 60; sample_candle 120])
     = 1%nat.
Proof. vm_compute. split; reflexivity. Qed.

(** A candle that is too short ends the call with an [IndexError]: the row
    stored before it is in the open transaction and not committed, the
    candle after it is not looked at. *)
Example store_data_short_candle :
  let c := store_data sample_conn "BTC-USD"
             [sample_candle 120; [PyInt 5]; sample_candle 180] in
  ret c = Raised IndexError
  /\ rows (session (conn_after c)) = 2%nat
  /\ rows (committed (conn_after c)) = 1%nat
  /\ stdout c = [].
Proof. vm_compute. repeat split; reflexivity. Qed.

(** Without a table every INSERT fails and is passed over. *)
Example store_data_without_table :
  store_data (mk_connection None None) "BTC-USD"
    [sample_candle 0; sample_candle 60]
  = mk_call (mk_connection None None)
      [DatabaseError OperationalError; DatabaseError OperationalError;
       Stored 0 "BTC-USD"]
      (Returned tt).
Proof. vm_compute. reflexivity. Qed.

(** Hourly rows: BTC-USD has three candles with prices in the first hour
    (two closes of 95050 and one NULL) and one in the second; ETH-USD has
    one candle. *)
Example fetch_aggregated_data_sample :
  fetch_aggregated_data sample_strftime_hour (fun b => b)
    (session hourly_conn)
  = Returned
      [mk_summary "BTC-USD" (Some "1970-01-01 00:00:00")
         (Some (Binary64.Finite (95050 # 1)))
         (Some (Binary64.Finite (6 # 1)));
       mk_summary "ETH-USD" (Some "1970-01-01 00:00:00")
         (Some (Binary64.Finite (95050 # 1)))
         (Some (Binary64.Finite (5 # 2)));
       mk_summary "BTC-USD" (Some "1970-01-01 01:00:00")
         (Some (Binary64.Finite (95050 # 1)))
         (Some (Binary64.Finite (5 # 2)))].
Proof. vm_compute. reflexivity. Qed.

Example fetch_aggregated_data_without_table :
  fetch_aggregated_data sample_strftime_hour (fun b => b) None
  = Raised PandasDatabaseError.
Proof. reflexivity. Qed.

Example fetch_aggregated_data_rounds :
  fetch_aggregated_data sample_strftime_hour (fun b => b)
    (Some rounding_table)
  = Returned
      [mk_summary "A" (Some "1970-01-01 00:00:00")
         (Some (Binary64.Finite (5404319552844595 # 18014398509481984)))
         (Some (Binary64.Finite (1 # 1)));
       mk_summary "B" (Some "1970-01-01 00:00:00")
         (Some (Binary64.Finite (7205759403792795 # 36028797018963968)))
         (Some (Binary64.Finite (10000000000000000 # 1)))]
  /\ fetch_aggregated_data sample_strftime_hour (fun b => b)
       (Some (rev rounding_table))
     = Returned
         [mk_summary "A" (Some "1970-01-01 00:00:00")
            (Some (Binary64.Finite (5404319552844595 # 18014398509481984)))
            (Some (Binary64.Finite (1 # 1)));
          mk_summary "B" (Some "1970-01-01 00:00:00")
            (Some (Binary64.Finite (7205759403792793 # 36028797018963968)))
            (Some (Binary64.Finite (10000000000000002 # 1)))].
Proof. vm_compute. split; reflexivity. Qed.

(** Two closes of 1e308 have the mean infinity. *)
Example fetch_aggregated_data_overflows :
  fetch_aggregated_data sample_strftime_hour (fun b => b)
    (Some [mk_row "1970-01-01T00:00:00+00:00" "B" Null Null Null
             (Real (inject_Z (100000000000000001097906362944045541740492309677311846336810682903157585404911491537163328978494688899061249669721172515611590283743140088328307009198146046031271664502933027185697489699588559043338384466165001178426897626212945177628091195786707458122783970171784415105291802893207873272974885715430223118336))) Null;
           mk_row "1970-01-01T00:01:00+00:00" "B" Null Null Null
             (Real (inject_Z (100000000000000001097906362944045541740492309677311846336810682903157585404911491537163328978494688899061249669721172515611590283743140088328307009198146046031271664502933027185697489699588559043338384466165001178426897626212945177628091195786707458122783970171784415105291802893207873272974885715430223118336))) Null])
  = Returned
      [mk_summary "B" (Some "1970-01-01 00:00:00")
         (Some (Binary64.Infinite false)) None].
Proof. vm_compute. reflexivity. Qed.

(** * More properties of the code *)

(** ** store_data and init_db *)

(** The rows that the loop adds are rows of the product, filed under the keys
    of candles of the list whose INSERT executes. *)
Lemma store_loop_added (candles : list candle) :
  forall t product_id count,
  exists added,
    db_after (store_loop (Some t) product_id candles count) = Some (t ++ added)
    /\ forall r,
         In r added ->
         product_id = Sqlite.product_id r
         /\ exists c,
              In c candles /\ executes product_id c = true
              /\ key_of product_id c = Some (key r).
Proof.
  induction candles as [| c rest IH]; intros t0 pid n.
  - exists []. rewrite app_nil_r. split; [reflexivity | intros r []].
  - cbn [store_loop].
    destruct (read_candle c) as [[ts [[[[l h] o] cl] v]] | e] eqn:Hread.
    2:{ exists []. rewrite app_nil_r. split; [reflexivity | intros r []]. }
    cbn [execute_insert].
    destruct (bind_row ts pid l h o cl v) as [r | ex] eqn:Hb;
      cbn [bind_outcome].
    + destruct (IH (insert_or_ignore t0 r) pid (S n)) as (added & E & Hn).
      assert (Hrest : forall r', In r' added ->
                pid = Sqlite.product_id r'
                /\ exists c', In c' (c :: rest) /\ executes pid c' = true
                              /\ key_of pid c' = Some (key r')).
      { intros r' Hr'. destruct (Hn r' Hr') as (Hp & c' & Hc' & Hex & Hk).
        split; [exact Hp |]. exists c'. split; [right; exact Hc' | auto]. }
      destruct (insert_or_ignore_cases t0 r) as [[Hin Er] | [Hnin Er]];
        rewrite Er in *.
      * exists added. split; [exact E | exact Hrest].
      * exists (r :: added). rewrite <- app_assoc in E. split; [exact E |].
        intros r' [<- | Hr']; [| apply Hrest, Hr'].
        pose proof (bind_row_key _ _ _ _ _ _ _ _ Hb) as Hkey.
        split; [injection Hkey; auto |].
        exists c. split; [left; reflexivity |]. split.
        -- unfold executes. rewrite Hread, Hb. reflexivity.
        -- unfold key_of. rewrite Hread, Hkey. reflexivity.
    + assert (Hskip : forall s : stored,
                (exists added,
                   db_after s = Some (t0 ++ added)
                   /\ forall r, In r added ->
                        pid = Sqlite.product_id r
                        /\ exists c', In c' rest /\ executes pid c' = true
                                      /\ key_of pid c' = Some (key r)) ->
                exists added,
                  db_after s = Some (t0 ++ added)
                  /\ forall r, In r added ->
                       pid = Sqlite.product_id r
                       /\ exists c', In c' (c :: rest)
                                     /\ executes pid c' = true
                                     /\ key_of pid c' = Some (key r)).
      { intros s (added & E & Hn). exists added. split; [exact E |].
        intros r' Hr'. destruct (Hn r' Hr') as (Hp & c' & Hc' & Hex & Hk).
        split; [exact Hp |]. exists c'. split; [right; exact Hc' | auto]. }
      destruct ex;
        try (exists []; rewrite app_nil_r; split; [reflexivity | intros r []]).
      cbn [say db_after]. apply Hskip, IH.
Qed.

(** X1. A call that returns has stored every candle whose INSERT executed:
    the key of such a candle is in the table, which is committed. *)
Theorem store_data_stores_every_executed (conn : connection)
  (product_id : string) (candles : list candle) (t : table) (c : candle)
  (k : string * string) :
  session conn = Some t ->
  ret (store_data conn product_id candles) = Returned tt ->
  In c candles ->
  executes product_id c = true ->
  key_of product_id c = Some k ->
  exists t',
    session (conn_after (store_data conn product_id candles)) = Some t'
    /\ committed (conn_after (store_data conn product_id candles)) = Some t'
    /\ In k (map key t').
Proof.
  intros Ht Hret Hin Hex Hk.
  pose proof (store_data_commits conn product_id candles Hret) as Hc.
  apply store_data_returns in Hret. destruct Hret as (n & Hn).
  rewrite Hc, store_data_session, Ht in *.
  destruct (store_loop_grows candles t product_id 0) as (added & E & _).
  exists (t ++ added). split; [exact E |]. split; [exact E |].
  apply (store_loop_stores candles t product_id 0 n _ Hn E c k Hin Hex Hk).
Qed.

Lemma store_data_stores_every_executed_witness :
  session sample_conn = Some sample_table
  /\ ret (store_data sample_conn "BTC-USD" [sample_candle 60; broken_candle 120])
     = Returned tt
  /\ In (sample_candle 60) [sample_candle 60; broken_candle 120]
  /\ executes "BTC-USD" (sample_candle 60) = true
  /\ key_of "BTC-USD" (sample_candle 60)
     = Some ("1970-01-01T00:01:00+00:00", "BTC-USD")
  /\ exists t',
       session (conn_after (store_data sample_conn "BTC-USD"
                              [sample_candle 60; broken_candle 120]))
       = Some t'
       /\ committed (conn_after (store_data sample_conn "BTC-USD"
                                   [sample_candle 60; broken_candle 120]))
          = Some t'
       /\ In ("1970-01-01T00:01:00+00:00", "BTC-USD") (map key t').
Proof.
  assert (Hs : session sample_conn = Some sample_table) by reflexivity.
  assert (Hr : ret (store_data sample_conn "BTC-USD"
                      [sample_candle 60; broken_candle 120])
               = Returned tt) by reflexivity.
  assert (Hin : In (sample_candle 60) [sample_candle 60; broken_candle 120])
    by (left; reflexivity).
  assert (He : executes "BTC-USD" (sample_candle 60) = true) by reflexivity.
  assert (Hk : key_of "BTC-USD" (sample_candle 60)
               = Some ("1970-01-01T00:01:00+00:00", "BTC-USD"))
    by (vm_compute; reflexivity).
  repeat (split; [assumption |]).
  apply (store_data_stores_every_executed sample_conn "BTC-USD"
           [sample_candle 60; broken_candle 120] sample_table
           (sample_candle 60) _ Hs Hr Hin He Hk).
Defined.

(** X2. Insert, then look up: the row bound from a candle is in the table
    after a call that returns, when the key of the candle was not stored and
    no earlier candle of the list has it. *)
Theorem store_data_round_trip (conn : connection) (product_id : string)
  (pre post : list candle) (c : candle) (t : table) (ts : string)
  (l h o cl v : pyval) (r : row) :
  session conn = Some t ->
  ret (store_data conn product_id (pre ++ c :: post)) = Returned tt ->
  read_candle c = Returned (ts, (l, h, o, cl, v)) ->
  bind_row ts product_id l h o cl v = Returned r ->
  ~ In (ts, product_id) (map key t) ->
  (forall c', In c' pre -> key_of product_id c' <> Some (ts, product_id)) ->
  exists t',
    session (conn_after (store_data conn product_id (pre ++ c :: post)))
    = Some t'
    /\ committed (conn_after (store_data conn product_id (pre ++ c :: post)))
       = Some t'
    /\ In r t'.
Proof.
  intros Ht Hret Hread Hb Hfresh Hpre.
  pose proof (store_data_commits conn product_id _ Hret) as Hc.
  apply store_data_returns in Hret. destruct Hret as (n & Hn).
  rewrite Hc, store_data_session, Ht in *. clear Hc.
  rewrite store_loop_app in Hn |- *.
  destruct (store_loop_added pre t product_id 0) as (a1 & E1 & Hfrom).
  destruct (result (store_loop (Some t) product_id pre 0)) as [k1 | e1] eqn:R1.
  2:{ rewrite R1 in Hn. discriminate. }
  cbv zeta in *. rewrite E1 in *. cbn [db_after result] in *.
  cbn [store_loop] in *. rewrite Hread in *. cbn [execute_insert] in *.
  rewrite Hb in *. cbn [bind_outcome] in *.
  assert (Hnew : ~ In (key r) (map key (t ++ a1))).
  { rewrite (bind_row_key _ _ _ _ _ _ _ _ Hb), map_app, in_app_iff.
    intros [Hin | Hin]; [contradiction |].
    apply in_map_iff in Hin. destruct Hin as (r' & Hk & Hr').
    destruct (Hfrom r' Hr') as (_ & c' & Hc' & _ & Hk').
    apply (Hpre c' Hc'). rewrite Hk', Hk. reflexivity. }
  rewrite (insert_or_ignore_absent _ _ Hnew) in *.
  destruct (store_loop_grows post ((t ++ a1) ++ [r]) product_id (S k1))
    as (a2 & E2 & _).
  exists (((t ++ a1) ++ [r]) ++ a2). split; [exact E2 |]. split; [exact E2 |].
  rewrite !in_app_iff. left. right. left. reflexivity.
Qed.

Lemma store_data_round_trip_witness :
  session sample_conn = Some sample_table
  /\ ret (store_data sample_conn "BTC-USD"
            ([sample_candle 0] ++ sample_candle 60 :: [broken_candle 120]))
     = Returned tt
  /\ read_candle (sample_candle 60)
     = Returned ("1970-01-01T00:01:00+00:00",
                 (PyFloat (95000 # 1), PyFloat (95100 # 1),
                  PyFloat (95010 # 1), PyFloat (95050 # 1), PyFloat (5 # 2)))
  /\ bind_row "1970-01-01T00:01:00+00:00" "BTC-USD" (PyFloat (95000 # 1))
       (PyFloat (95100 # 1)) (PyFloat (95010 # 1)) (PyFloat (95050 # 1))
       (PyFloat (5 # 2))
     = Returned
         (mk_row "1970-01-01T00:01:00+00:00" "BTC-USD" (Real (95000 # 1))
            (Real (95100 # 1)) (Real (95010 # 1)) (Real (95050 # 1))
            (Real (5 # 2)))
  /\ ~ In ("1970-01-01T00:01:00+00:00", "BTC-USD") (map key sample_table)
  /\ (forall c', In c' [sample_candle 0] ->
        key_of "BTC-USD" c' <> Some ("1970-01-01T00:01:00+00:00", "BTC-USD"))
  /\ exists t',
       session (conn_after
                  (store_data sample_conn "BTC-USD"
                     ([sample_candle 0]
                      ++ sample_candle 60 :: [broken_candle 120])))
       = Some t'
       /\ committed (conn_after
                       (store_data sample_conn "BTC-USD"
                          ([sample_candle 0]
                           ++ sample_candle 60 :: [broken_candle 120])))
          = Some t'
       /\ In (mk_row "1970-01-01T00:01:00+00:00" "BTC-USD" (Real (95000 # 1))
                (Real (95100 # 1)) (Real (95010 # 1)) (Real (95050 # 1))
                (Real (5 # 2)))
             t'.
Proof.
  assert (Hs : session sample_conn = Some sample_table) by reflexivity.
  assert (Hr : ret (store_data sample_conn "BTC-USD"
                      ([sample_candle 0]
                       ++ sample_candle 60 :: [broken_candle 120]))
               = Returned tt) by reflexivity.
  assert (Hc : read_candle (sample_candle 60)
               = Returned ("1970-01-01T00:01:00+00:00",
                           (PyFloat (95000 # 1), PyFloat (95100 # 1),
                            PyFloat (95010 # 1), PyFloat (95050 # 1),
                            PyFloat (5 # 2))))
    by (vm_compute; reflexivity).
  assert (Hb : bind_row "1970-01-01T00:01:00+00:00" "BTC-USD"
                 (PyFloat (95000 # 1)) (PyFloat (95100 # 1))
                 (PyFloat (95010 # 1)) (PyFloat (95050 # 1)) (PyFloat (5 # 2))
               = Returned
                   (mk_row "1970-01-01T00:01:00+00:00" "BTC-USD"
                      (Real (95000 # 1)) (Real (95100 # 1)) (Real (95010 # 1))
                      (Real (95050 # 1)) (Real (5 # 2))))
    by reflexivity.
  assert (Hn : ~ In ("1970-01-01T00:01:00+00:00", "BTC-USD")
                   (map key sample_table)).
  { vm_compute. intros [H | []]. discriminate H. }
  assert (Hp : forall c', In c' [sample_candle 0] ->
                 key_of "BTC-USD" c'
                 <> Some ("1970-01-01T00:01:00+00:00", "BTC-USD")).
  { intros c' [<- | []]. vm_compute. discriminate. }
  repeat (split; [assumption |]).
  apply (store_data_round_trip sample_conn "BTC-USD" [sample_candle 0]
           [broken_candle 120] (sample_candle 60) sample_table _ _ _ _ _ _ _
           Hs Hr Hc Hb Hn Hp).
Defined.

Lemma store_loop_result_iff (product_id : string) (candles : list candle) :
  forall t count,
    (exists k, result (store_loop (Some t) product_id candles count) = Returned k)
    <-> forallb (handled product_id) candles = true.
Proof.
  induction candles as [| c rest IH]; intros t n.
  - cbn. split; [reflexivity | eauto].
  - cbn [store_loop forallb]. unfold handled at 1, failure.
    destruct (read_candle c) as [[ts [[[[l h] o] cl] v]] | e].
    2:{ cbn. split; [intros (k & Hk); discriminate | discriminate]. }
    cbn [execute_insert].
    destruct (bind_row ts product_id l h o cl v) as [r | ex];
      cbn [bind_outcome andb].
    + apply IH.
    + destruct ex; cbn [result say andb];
        try (split; [intros (k & Hk); discriminate | discriminate]).
      apply IH.
Qed.

(** What binding a value gives, by what the value is. *)
Lemma bind_outcomes (v : pyval) :
  match bind v with
  | Returned _ => beyond_64_bits v = false /\ unsupported v = false
  | Raised OverflowError => beyond_64_bits v = true
  | Raised (SqliteError _) => beyond_64_bits v = false /\ unsupported v = true
  | Raised _ => False
  end.
Proof.
  destruct v as [| z | q |]; cbn [bind beyond_64_bits unsupported]; auto.
  destruct ((INT64_MIN <=? z) && (z <=? INT64_MAX)); cbn; auto.
Qed.

(** Binding the five values raises an exception that is not caught exactly
    when the first value that sqlite3 refuses is an int beyond 64 bits. *)
Lemma bind_row_overflows (ts product_id : string) (l h o cl v : pyval) :
  match bind_row ts product_id l h o cl v with
  | Returned _ | Raised (SqliteError _) => overflows [l; h; o; cl; v] = false
  | Raised _ => overflows [l; h; o; cl; v] = true
  end.
Proof.
  unfold bind_row, bind_outcome. cbn [overflows].
  pose proof (bind_outcomes l) as Hl. pose proof (bind_outcomes h) as Hh.
  pose proof (bind_outcomes o) as Ho. pose proof (bind_outcomes cl) as Hcl.
  pose proof (bind_outcomes v) as Hv.
  destruct (bind l) as [? | []]; try contradiction;
    [destruct Hl as [-> ->] | rewrite Hl; reflexivity
     | destruct Hl as [-> ->]; reflexivity].
  destruct (bind h) as [? | []]; try contradiction;
    [destruct Hh as [-> ->] | rewrite Hh; reflexivity
     | destruct Hh as [-> ->]; reflexivity].
  destruct (bind o) as [? | []]; try contradiction;
    [destruct Ho as [-> ->] | rewrite Ho; reflexivity
     | destruct Ho as [-> ->]; reflexivity].
  destruct (bind cl) as [? | []]; try contradiction;
    [destruct Hcl as [-> ->] | rewrite Hcl; reflexivity
     | destruct Hcl as [-> ->]; reflexivity].
  destruct (bind v) as [? | []]; try contradiction;
    [destruct Hv as [-> ->] | rewrite Hv; reflexivity
     | destruct Hv as [-> ->]; reflexivity].
  reflexivity.
Qed.

(** The loop gets past a candle exactly when the candle can be taken. *)
Lemma handled_taken (product_id : string) (c : candle) :
  handled product_id c = taken c.
Proof.
  unfold handled, failure, read_candle, taken, timely.
  destruct c as [| time vs]; [reflexivity |].
  cbn [subscript nth_error bind_outcome].
  destruct vs as [| l [| h [| o [| cl [| v rest]]]]];
    try (destruct (fromtimestamp_utc time); reflexivity).
  destruct (fromtimestamp_utc time) as [d | e]; [| reflexivity].
  cbn [subscript nth_error bind_outcome List.length Nat.leb firstn andb].
  pose proof (bind_row_overflows (isoformat_utc d) product_id l h o cl v) as H.
  destruct (bind_row (isoformat_utc d) product_id l h o cl v) as [r | []];
    rewrite H; reflexivity.
Qed.

Lemma forallb_handled_taken (product_id : string) (candles : list candle) :
  forallb (handled product_id) candles = forallb taken candles.
Proof.
  induction candles as [| c rest IH]; [reflexivity |].
  cbn [forallb]. rewrite handled_taken, IH. reflexivity.
Qed.

(** X3. On a table that exists, [store_data] returns exactly when it can
    take every candle: each has six fields at least and a time that is a
    number within the years 1 to 9999, and in none does an int beyond 64
    bits come before every value that sqlite3 cannot bind. An
    [sqlite3.Error] of an INSERT never ends the call: a value of a type that
    sqlite3 cannot bind makes the INSERT fail before sqlite3 looks at the
    values after it. (The fields are [None], numbers, and objects that
    sqlite3 cannot bind.) *)
Theorem store_data_returns_iff (conn : connection) (product_id : string)
  (candles : list candle) (t : table) :
  session conn = Some t ->
  (ret (store_data conn product_id candles) = Returned tt
   <-> forallb taken candles = true).
Proof.
  intros Ht. rewrite <- (forallb_handled_taken product_id).
  rewrite <- (store_loop_result_iff product_id candles t 0).
  unfold store_data. rewrite Ht.
  destruct (result (store_loop (Some t) product_id candles 0)) as [k | e];
    cbn [ret]; split; eauto; try discriminate.
  intros (k & Hk). discriminate.
Qed.

(** A candle whose low is a list and whose high is an int beyond 64 bits is
    taken: the call returns. *)
Lemma store_data_returns_iff_witness :
  session sample_conn = Some sample_table
  /\ forallb taken [sample_candle 60; refused_candle 120] = true
  /\ (ret (store_data sample_conn "BTC-USD"
             [sample_candle 60; refused_candle 120])
      = Returned tt
      <-> forallb taken [sample_candle 60; refused_candle 120] = true).
Proof.
  assert (Hs : session sample_conn = Some sample_table) by reflexivity.
  assert (Ht : forallb taken [sample_candle 60; refused_candle 120] = true)
    by reflexivity.
  repeat (split; [assumption |]).
  apply (store_data_returns_iff sample_conn "BTC-USD"
           [sample_candle 60; refused_candle 120] sample_table Hs).
Defined.

(** The first candle at which the loop stops ends the call with its
    exception. *)
Lemma store_data_ends_at_failure (conn : connection) (product_id : string)
  (pre post : list candle) (c : candle) (t : table) (e : exn) :
  session conn = Some t ->
  forallb (handled product_id) pre = true ->
  failure product_id c = Some e ->
  let call := store_data conn product_id (pre ++ c :: post) in
  ret call = Raised e
  /\ committed (conn_after call) = committed conn
  /\ session (conn_after call)
     = session (conn_after (store_data conn product_id pre))
  /\ exists n, stdout (store_data conn product_id pre)
               = stdout call ++ [Stored n product_id].
Proof.
  intros Ht Hpre Hfail. cbv zeta.
  apply (store_loop_result_iff product_id pre t 0) in Hpre.
  destruct Hpre as (k & Hk).
  destruct (store_loop_grows pre t product_id 0) as (a1 & E1 & _).
  unfold store_data. rewrite Ht, store_loop_app, Hk. cbv zeta.
  rewrite E1. cbn [store_loop].
  unfold failure in Hfail.
  destruct (read_candle c) as [[ts [[[[l h] o] cl] v]] | e'].
  - cbn [execute_insert].
    destruct (bind_row ts product_id l h o cl v) as [r | ex];
      [discriminate |].
    cbn [bind_outcome].
    destruct ex; try discriminate; injection Hfail as <-;
      cbn [result db_after printed conn_after ret stdout session committed];
      rewrite app_nil_r; repeat split; eauto.
  - injection Hfail as <-.
    cbn [result db_after printed conn_after ret stdout session committed].
    rewrite app_nil_r. repeat split; eauto.
Qed.

(** X4. The first candle that [store_data] cannot take (it has fewer than
    six fields, or its time is no number within the years 1 to 9999, or the
    first of its values that sqlite3 refuses is an int beyond 64 bits) ends
    the call with an exception: nothing is committed, the rows of the
    candles before it stay in the open transaction, no report is printed,
    and the candles after it play no part. *)
Theorem store_data_aborts (conn : connection) (product_id : string)
  (pre post : list candle) (c : candle) (t : table) :
  session conn = Some t ->
  forallb taken pre = true ->
  taken c = false ->
  let call := store_data conn product_id (pre ++ c :: post) in
  (exists e, ret call = Raised e)
  /\ committed (conn_after call) = committed conn
  /\ session (conn_after call)
     = session (conn_after (store_data conn product_id pre))
  /\ exists n, stdout (store_data conn product_id pre)
               = stdout call ++ [Stored n product_id].
Proof.
  intros Ht Hpre Hc.
  rewrite <- (forallb_handled_taken product_id) in Hpre.
  rewrite <- (handled_taken product_id) in Hc. unfold handled in Hc.
  destruct (failure product_id c) as [e |] eqn:Hfail; [| discriminate].
  destruct (store_data_ends_at_failure conn product_id pre post c t e Ht Hpre
              Hfail) as (H1 & H2 & H3 & H4).
  cbv zeta. eauto.
Qed.

(** After a good candle, one whose low is an int beyond 64 bits. *)
Lemma store_data_aborts_witness :
  session sample_conn = Some sample_table
  /\ forallb taken [sample_candle 60] = true
  /\ taken (overflowing_candle 120) = false
  /\ (exists e,
        ret (store_data sample_conn "BTC-USD"
               ([sample_candle 60]
                ++ overflowing_candle 120 :: [sample_candle 180]))
        = Raised e)
  /\ committed
       (conn_after
          (store_data sample_conn "BTC-USD"
             ([sample_candle 60]
              ++ overflowing_candle 120 :: [sample_candle 180])))
     = committed sample_conn
  /\ session
       (conn_after
          (store_data sample_conn "BTC-USD"
             ([sample_candle 60]
              ++ overflowing_candle 120 :: [sample_candle 180])))
     = session (conn_after (store_data sample_conn "BTC-USD"
                              [sample_candle 60]))
  /\ exists n,
       stdout (store_data sample_conn "BTC-USD" [sample_candle 60])
       = stdout (store_data sample_conn "BTC-USD"
                   ([sample_candle 60]
                    ++ overflowing_candle 120 :: [sample_candle 180]))
         ++ [Stored n "BTC-USD"].
Proof.
  assert (Hs : session sample_conn = Some sample_table) by reflexivity.
  assert (Hp : forallb taken [sample_candle 60] = true) by reflexivity.
  assert (Hf : taken (overflowing_candle 120) = false) by reflexivity.
  repeat (split; [assumption |]).
  apply (store_data_aborts sample_conn "BTC-USD" [sample_candle 60]
           [sample_candle 180] (overflowing_candle 120) sample_table Hs Hp
           Hf).
Defined.

Lemma short_candle_unreadable (c : candle) :
  (List.length c < 6)%nat -> readable c = false.
Proof.
  intros Hlen. unfold readable, read_candle, subscript.
  destruct c as [| v0 [| v1 [| v2 [| v3 [| v4 [| v5 rest]]]]]];
    cbn [List.length] in Hlen; try lia; cbn [nth_error bind_outcome];
    try reflexivity;
    destruct (fromtimestamp_utc v0); reflexivity.
Qed.

Lemma store_loop_unreadable (product_id : string) (candles : list candle)
  (c : candle) :
  In c candles -> readable c = false ->
  forall db count,
  exists e, result (store_loop db product_id candles count) = Raised e.
Proof.
  induction candles as [| c0 rest IH]; intros Hin Hc db n; [destruct Hin |].
  cbn [store_loop].
  destruct (read_candle c0) as [[ts [[[[l h] o] cl] v]] | e] eqn:Hread.
  - assert (Hrest : In c rest).
    { destruct Hin as [<- | Hin]; [| exact Hin].
      unfold readable in Hc. rewrite Hread in Hc. discriminate. }
    destruct (execute_insert db ts product_id l h o cl v) as [db' | []];
      cbn [result say]; eauto.
  - cbn. eauto.
Qed.

(** X5. A candle with fewer than six fields anywhere in the list makes the
    call raise, whatever the connection: the call does not return and
    prints no report. *)
Theorem store_data_short_candle_raises (conn : connection)
  (product_id : string) (candles : list candle) (c : candle) :
  In c candles ->
  (List.length c < 6)%nat ->
  exists e,
    ret (store_data conn product_id candles) = Raised e
    /\ reported (store_data conn product_id candles) = None.
Proof.
  intros Hin Hlen.
  destruct (store_loop_unreadable product_id candles c Hin
              (short_candle_unreadable c Hlen) (session conn) 0) as (e & He).
  exists e. unfold reported, store_data. rewrite He. cbn. auto.
Qed.

Lemma store_data_short_candle_raises_witness :
  In [PyInt 5] [sample_candle 120; [PyInt 5]]
  /\ (List.length [PyInt 5] < 6)%nat
  /\ exists e,
       ret (store_data sample_conn "BTC-USD" [sample_candle 120; [PyInt 5]])
       = Raised e
       /\ reported (store_data sample_conn "BTC-USD"
                      [sample_candle 120; [PyInt 5]])
          = None.
Proof.
  assert (Hin : In [PyInt 5] [sample_candle 120; [PyInt 5]])
    by (right; left; reflexivity).
  assert (Hl : (List.length [PyInt 5] < 6)%nat) by (cbn; lia).
  repeat (split; [assumption |]).
  apply (store_data_short_candle_raises sample_conn "BTC-USD"
           [sample_candle 120; [PyInt 5]] [PyInt 5] Hin Hl).
Defined.

Lemma store_loop_no_table (product_id : string) (candles : list candle) :
  forall count,
    forallb readable candles = true ->
    result (store_loop None product_id candles count) = Returned count
    /\ List.length (printed (store_loop None product_id candles count))
       = List.length candles
    /\ Forall (eq (DatabaseError OperationalError))
         (printed (store_loop None product_id candles count)).
Proof.
  induction candles as [| c rest IH]; intros n Hall.
  - cbn. auto.
  - cbn [forallb] in Hall. apply andb_true_iff in Hall as [Hc Hrest].
    cbn [store_loop]. unfold readable in Hc.
    destruct (read_candle c) as [[ts [[[[l h] o] cl] v]] | e];
      [| discriminate].
    cbn [execute_insert say result printed List.length].
    destruct (IH n Hrest) as (H1 & H2 & H3).
    split; [exact H1 |]. split; [rewrite H2; reflexivity |].
    constructor; [reflexivity | exact H3].
Qed.

(** X6. When the connection has no candles table, every INSERT fails with an
    [sqlite3.Error] that is caught: a call whose candles can all be read
    returns all the same, prints one database error for each candle and
    reports 0 rows; no table comes into being. *)
Theorem store_data_without_candles_table (conn : connection)
  (product_id : string) (candles : list candle) :
  session conn = None ->
  forallb readable candles = true ->
  let call := store_data conn product_id candles in
  ret call = Returned tt
  /\ reported call = Some 0%nat
  /\ session (conn_after call) = None
  /\ stdout call
     = repeat (DatabaseError OperationalError) (List.length candles)
       ++ [Stored 0 product_id].
Proof.
  intros Hs Hall. cbv zeta.
  destruct (store_loop_no_table product_id candles 0 Hall) as (H1 & H2 & H3).
  pose proof (store_loop_none candles product_id 0) as Hnone.
  unfold reported, store_data. rewrite Hs, H1.
  cbn [ret stdout conn_after session]. rewrite last_last.
  repeat split; auto.
  f_equal. rewrite <- H2.
  apply Forall_eq_repeat. exact H3.
Qed.

Lemma store_data_without_candles_table_witness :
  session (mk_connection None None) = None
  /\ forallb readable [sample_candle 0; sample_candle 60] = true
  /\ ret (store_data (mk_connection None None) "BTC-USD"
            [sample_candle 0; sample_candle 60])
     = Returned tt
  /\ reported (store_data (mk_connection None None) "BTC-USD"
                 [sample_candle 0; sample_candle 60])
     = Some 0%nat
  /\ session (conn_after (store_data (mk_connection None None) "BTC-USD"
                            [sample_candle 0; sample_candle 60]))
     = None
  /\ stdout (store_data (mk_connection None None) "BTC-USD"
               [sample_candle 0; sample_candle 60])
     = repeat (DatabaseError OperationalError)
         (List.length [sample_candle 0; sample_candle 60])
       ++ [Stored 0 "BTC-USD"].
Proof.
  assert (Hs : session (mk_connection None None) = None) by reflexivity.
  assert (Hr : forallb readable [sample_candle 0; sample_candle 60] = true)
    by reflexivity.
  repeat (split; [assumption |]).
  apply (store_data_without_candles_table (mk_connection None None) "BTC-USD"
           [sample_candle 0; sample_candle 60] Hs Hr).
Defined.

Lemma store_loop_from_count (candles : list candle) :
  forall db product_id count,
    store_loop db product_id candles count
    = mk_stored (db_after (store_loop db product_id candles 0))
        (printed (store_loop db product_id candles 0))
        (match result (store_loop db product_id candles 0) with
         | Returned k => Returned (count + k)%nat
         | Raised e => Raised e
         end).
Proof.
  induction candles as [| c rest IH]; intros db pid n.
  - cbn. rewrite Nat.add_0_r. reflexivity.
  - cbn [store_loop].
    destruct (read_candle c) as [[ts [[[[l h] o] cl] v]] | e]; [| reflexivity].
    destruct (execute_insert db ts pid l h o cl v) as [db' | []];
      try reflexivity.
    + rewrite (IH db' pid (S n)), (IH db' pid 1%nat).
      cbn [db_after printed result].
      destruct (result (store_loop db' pid rest 0)); [| reflexivity].
      do 2 f_equal. lia.
    + rewrite (IH db pid n). cbn [say db_after printed result]. reflexivity.
Qed.

(** X7. Two calls in a row do what one call on the two lists joined does,
    when the first returns: the connection sees the same table, the second
    call ends as the joint call does, the counts add up; and when the joint
    call returns, the committed tables are the same too. *)
Theorem store_data_app (conn : connection) (product_id : string)
  (a b : list candle) :
  ret (store_data conn product_id a) = Returned tt ->
  let first := store_data conn product_id a in
  let second := store_data (conn_after first) product_id b in
  let joint := store_data conn product_id (a ++ b) in
  session (conn_after second) = session (conn_after joint)
  /\ ret second = ret joint
  /\ (ret joint = Returned tt -> conn_after second = conn_after joint)
  /\ (forall n1 n2,
        reported first = Some n1 -> reported second = Some n2 ->
        reported joint = Some (n1 + n2)%nat).
Proof.
  intros Hret. cbv zeta.
  apply store_data_returns in Hret. destruct Hret as (k & Hk).
  unfold reported, store_data. rewrite store_loop_app, Hk. cbv zeta.
  cbn [conn_after session committed ret stdout].
  set (s1 := store_loop (session conn) product_id a 0) in *.
  rewrite (store_loop_from_count b (db_after s1) product_id k).
  set (s2 := store_loop (db_after s1) product_id b 0).
  cbn [result db_after printed].
  destruct (result s2) as [k2 | e2];
    cbn [conn_after session committed ret stdout]; rewrite ?last_last;
    repeat split; auto; try discriminate.
  intros n1 n2 H1 H2. injection H1 as <-. injection H2 as <-. reflexivity.
Qed.

Lemma store_data_app_witness :
  ret (store_data sample_conn "BTC-USD" [sample_candle 60]) = Returned tt
  /\ session
       (conn_after
          (store_data
             (conn_after (store_data sample_conn "BTC-USD" [sample_candle 60]))
             "BTC-USD" [sample_candle 60; sample_candle 120]))
     = session
         (conn_after
            (store_data sample_conn "BTC-USD"
               ([sample_candle 60] ++ [sample_candle 60; sample_candle 120])))
  /\ ret (store_data
            (conn_after (store_data sample_conn "BTC-USD" [sample_candle 60]))
            "BTC-USD" [sample_candle 60; sample_candle 120])
     = ret (store_data sample_conn "BTC-USD"
              ([sample_candle 60] ++ [sample_candle 60; sample_candle 120]))
  /\ (ret (store_data sample_conn "BTC-USD"
             ([sample_candle 60] ++ [sample_candle 60; sample_candle 120]))
      = Returned tt ->
      conn_after
        (store_data
           (conn_after (store_data sample_conn "BTC-USD" [sample_candle 60]))
           "BTC-USD" [sample_candle 60; sample_candle 120])
      = conn_after
          (store_data sample_conn "BTC-USD"
             ([sample_candle 60] ++ [sample_candle 60; sample_candle 120])))
  /\ (forall n1 n2,
        reported (store_data sample_conn "BTC-USD" [sample_candle 60])
        = Some n1 ->
        reported
          (store_data
             (conn_after (store_data sample_conn "BTC-USD" [sample_candle 60]))
             "BTC-USD" [sample_candle 60; sample_candle 120])
        = Some n2 ->
        reported
          (store_data sample_conn "BTC-USD"
             ([sample_candle 60] ++ [sample_candle 60; sample_candle 120]))
        = Some (n1 + n2)%nat).
Proof.
  assert (Hr : ret (store_data sample_conn "BTC-USD" [sample_candle 60])
               = Returned tt) by reflexivity.
  split; [exact Hr |].
  apply (store_data_app sample_conn "BTC-USD" [sample_candle 60]
           [sample_candle 60; sample_candle 120] Hr).
Defined.

(** X8. [store_data] touches the rows of its product only: the rows it adds
    are rows of the product it was called for, and the rows of any other
    product are after the call what they were before. *)
Theorem store_data_only_its_product (conn : connection) (product_id : string)
  (candles : list candle) (t : table) :
  session conn = Some t ->
  exists added,
    session (conn_after (store_data conn product_id candles))
    = Some (t ++ added)
    /\ (forall r, In r added -> Sqlite.product_id r = product_id)
    /\ forall other,
         other <> product_id ->
         filter (fun r => String.eqb (Sqlite.product_id r) other) (t ++ added)
         = filter (fun r => String.eqb (Sqlite.product_id r) other) t.
Proof.
  intros Ht. rewrite store_data_session, Ht.
  destruct (store_loop_added candles t product_id 0) as (added & E & Hfrom).
  exists added. split; [exact E |].
  assert (Hp : forall r, In r added -> Sqlite.product_id r = product_id).
  { intros r Hr. destruct (Hfrom r Hr) as [Hp _]. auto. }
  split; [exact Hp |].
  intros other Hne. rewrite filter_app.
  replace (filter _ added) with (@nil row); [apply app_nil_r |].
  symmetry. clear E Hfrom.
  induction added as [| r added IH]; [reflexivity |].
  cbn [filter]. rewrite (Hp r (or_introl eq_refl)).
  replace (String.eqb product_id other) with false
    by (symmetry; apply String.eqb_neq; congruence).
  apply IH. intros r' Hr'. apply Hp. right. exact Hr'.
Qed.

Lemma store_data_only_its_product_witness :
  session sample_conn = Some sample_table
  /\ exists added,
       session (conn_after (store_data sample_conn "ETH-USD"
                              [sample_candle 0; sample_candle 60]))
       = Some (sample_table ++ added)
       /\ (forall r, In r added -> Sqlite.product_id r = "ETH-USD")
       /\ forall other,
            other <> "ETH-USD" ->
            filter (fun r => String.eqb (Sqlite.product_id r) other)
              (sample_table ++ added)
            = filter (fun r => String.eqb (Sqlite.product_id r) other)
                sample_table.
Proof.
  assert (Hs : session sample_conn = Some sample_table) by reflexivity.
  split; [exact Hs |].
  apply (store_data_only_its_product sample_conn "ETH-USD"
           [sample_candle 0; sample_candle 60] sample_table Hs).
Defined.

Lemma append_cancel_r (s1 s2 t : string) :
  (s1 ++ t)%string = (s2 ++ t)%string -> s1 = s2.
Proof.
  intros H. apply append_inj in H; [apply H |].
  apply (f_equal String.length) in H. rewrite !length_append in H. lia.
Qed.

Lemma fromtimestamp_utc_valid (v : pyval) (d : datetime) :
  fromtimestamp_utc v = Returned d -> valid d.
Proof.
  unfold fromtimestamp_utc.
  destruct (unix_micros v) as [us | e]; [| discriminate].
  destruct ((0 <=? us + EPOCH_SECONDS * US_PER_SECOND)
            && (us + EPOCH_SECONDS * US_PER_SECOND <=? MAX)) eqn:Hr;
    [| discriminate].
  intros H. injection H as <-. apply andb_true_iff in Hr as [H0 H1].
  apply Z.leb_le in H0, H1. split; assumption.
Qed.

Lemma read_candle_time (c : candle) (ts : string)
  (vals : pyval * pyval * pyval * pyval * pyval) :
  read_candle c = Returned (ts, vals) ->
  exists v rest d,
    c = v :: rest /\ fromtimestamp_utc v = Returned d
    /\ valid d /\ ts = isoformat_utc d.
Proof.
  unfold read_candle, subscript.
  destruct c as [| v rest]; cbn [nth_error bind_outcome]; [discriminate |].
  destruct (fromtimestamp_utc v) as [d | e] eqn:Hd; cbn [bind_outcome];
    [| discriminate].
  intros H. exists v, rest, d. split; [reflexivity |]. split; [exact Hd |].
  split; [apply (fromtimestamp_utc_valid v d Hd) |].
  destruct rest as [| a1 [| a2 [| a3 [| a4 [| a5 rest]]]]];
    cbn [bind_outcome] in H; try discriminate.
  injection H as <- _. reflexivity.
Qed.

(** X9. The key tells the instant: two candles that [store_data] files under
    the same key have times that are the same instant to the microsecond;
    two candles whose times are different integers never share a key. *)
Theorem same_key_same_instant (product_id : string) (v1 v2 : pyval)
  (rest1 rest2 : list pyval) (k : string * string) :
  key_of product_id (v1 :: rest1) = Some k ->
  key_of product_id (v2 :: rest2) = Some k ->
  fromtimestamp_utc v1 = fromtimestamp_utc v2
  /\ forall t1 t2, v1 = PyInt t1 -> v2 = PyInt t2 -> t1 = t2.
Proof.
  unfold key_of. intros H1 H2.
  destruct (read_candle (v1 :: rest1)) as [[ts1 vals1] | e1] eqn:R1;
    [| discriminate].
  destruct (read_candle (v2 :: rest2)) as [[ts2 vals2] | e2] eqn:R2;
    [| discriminate].
  destruct (read_candle_time _ _ _ R1) as (w1 & r1 & d1 & E1 & F1 & V1 & T1).
  destruct (read_candle_time _ _ _ R2) as (w2 & r2 & d2 & E2 & F2 & V2 & T2).
  injection E1 as <- <-. injection E2 as <- <-.
  assert (Hts : ts1 = ts2) by congruence.
  subst ts1 ts2. unfold isoformat_utc in Hts.
  apply append_cancel_r in Hts. apply (isoformat_inj d1 d2 V1 V2) in Hts.
  subst d2. split; [congruence |].
  intros t1 t2 -> ->. unfold fromtimestamp_utc, unix_micros in F1, F2.
  destruct ((0 <=? t1 * US_PER_SECOND + EPOCH_SECONDS * US_PER_SECOND)
            && (t1 * US_PER_SECOND + EPOCH_SECONDS * US_PER_SECOND <=? MAX));
    [| discriminate].
  destruct ((0 <=? t2 * US_PER_SECOND + EPOCH_SECONDS * US_PER_SECOND)
            && (t2 * US_PER_SECOND + EPOCH_SECONDS * US_PER_SECOND <=? MAX));
    [| discriminate].
  injection F1 as F1. injection F2 as F2.
  unfold US_PER_SECOND in *. lia.
Qed.

Lemma same_key_same_instant_witness :
  key_of "BTC-USD" (sample_candle 60)
  = Some ("1970-01-01T00:01:00+00:00", "BTC-USD")
  /\ key_of "BTC-USD" (PyFloat (60 # 1) :: [PyNone; PyNone; PyNone; PyNone; PyNone])
     = Some ("1970-01-01T00:01:00+00:00", "BTC-USD")
  /\ fromtimestamp_utc (PyInt 60) = fromtimestamp_utc (PyFloat (60 # 1))
  /\ forall t1 t2, PyInt 60 = PyInt t1 -> PyFloat (60 # 1) = PyInt t2 -> t1 = t2.
Proof.
  assert (H1 : key_of "BTC-USD" (sample_candle 60)
               = Some ("1970-01-01T00:01:00+00:00", "BTC-USD"))
    by (vm_compute; reflexivity).
  assert (H2 : key_of "BTC-USD"
                 (PyFloat (60 # 1) :: [PyNone; PyNone; PyNone; PyNone; PyNone])
               = Some ("1970-01-01T00:01:00+00:00", "BTC-USD"))
    by (vm_compute; reflexivity).
  repeat (split; [assumption |]).
  apply (same_key_same_instant "BTC-USD" (PyInt 60) (PyFloat (60 # 1)) _ _ _
           H1 H2).
Defined.

Lemma executed_keys_cons (product_id : string) (c : candle)
  (rest : list candle) :
  executed_keys product_id (c :: rest)
  = (if executes product_id c
     then match key_of product_id c with
          | Some k => [k]
          | None => []
          end
     else [])
    ++ executed_keys product_id rest.
Proof. reflexivity. Qed.

Lemma store_loop_count_exact (candles : list candle) :
  forall t product_id count k t',
    result (store_loop (Some t) product_id candles count) = Returned k ->
    db_after (store_loop (Some t) product_id candles count) = Some t' ->
    NoDup (executed_keys product_id candles) ->
    (forall x, In x (executed_keys product_id candles) ->
               ~ In x (map key t)) ->
    (List.length t' + count = List.length t + k)%nat.
Proof.
  induction candles as [| c rest IH]; intros t0 pid n k t' Hres Hdb Hnd Hfresh.
  - cbn in *. injection Hres as <-. injection Hdb as <-. reflexivity.
  - rewrite executed_keys_cons in Hnd, Hfresh.
    cbn [store_loop] in *.
    destruct (read_candle c) as [[ts [[[[l h] o] cl] v]] | e] eqn:Hread;
      [| discriminate].
    assert (Hkc : key_of pid c = Some (ts, pid))
      by (unfold key_of; rewrite Hread; reflexivity).
    cbn [execute_insert] in *.
    destruct (bind_row ts pid l h o cl v) as [r | ex] eqn:Hb;
      cbn [bind_outcome] in *.
    + assert (Hexc : executes pid c = true)
        by (unfold executes; rewrite Hread, Hb; reflexivity).
      rewrite Hexc, Hkc in Hnd, Hfresh. cbn [app] in Hnd, Hfresh.
      pose proof (bind_row_key _ _ _ _ _ _ _ _ Hb) as Hkey.
      inversion Hnd as [| ? ? Hnotin Hnd']; subst.
      rewrite insert_or_ignore_absent in Hres, Hdb
        by (rewrite Hkey; apply Hfresh; left; reflexivity).
      assert (Hlen := IH (t0 ++ [r]) pid (S n) k t' Hres Hdb Hnd').
      rewrite length_app in Hlen. cbn [List.length] in Hlen.
      enough (List.length t' + S n = List.length t0 + 1 + k)%nat by lia.
      apply Hlen. intros x Hx. rewrite map_app, in_app_iff.
      intros [Hin | [Hin | []]].
      * apply (Hfresh x); [right; exact Hx | exact Hin].
      * rewrite Hkey in Hin. subst x. contradiction.
    + assert (Hexc : executes pid c = false)
        by (unfold executes; rewrite Hread, Hb; reflexivity).
      rewrite Hexc in Hnd, Hfresh. cbn [app] in Hnd, Hfresh.
      destruct ex; try discriminate. cbn [say result db_after] in *.
      apply (IH t0 pid n k t' Hres Hdb Hnd Hfresh).
Qed.

(** X10. The report is exact when nothing is a duplicate: if the candles
    whose INSERT executes have keys that differ from one another and from
    the keys stored, the count reported is the number of rows added. *)
Theorem store_data_count_exact (conn : connection) (product_id : string)
  (candles : list candle) (t : table) (n : nat) :
  session conn = Some t ->
  NoDup (executed_keys product_id candles) ->
  (forall k, In k (executed_keys product_id candles) -> ~ In k (map key t)) ->
  reported (store_data conn product_id candles) = Some n ->
  rows_added conn (store_data conn product_id candles) = n.
Proof.
  intros Ht Hnd Hfresh Hrep. apply reported_count in Hrep.
  unfold rows_added. rewrite store_data_session, Ht in *.
  destruct (store_loop_grows candles t product_id 0) as (added & E & _).
  pose proof (store_loop_count_exact candles t product_id 0 n _ Hrep E Hnd
                Hfresh) as Hlen.
  rewrite E. cbn [rows]. lia.
Qed.

Lemma store_data_count_exact_witness :
  session sample_conn = Some sample_table
  /\ NoDup (executed_keys "BTC-USD"
              [sample_candle 60; broken_candle 0; sample_candle 120])
  /\ (forall k,
        In k (executed_keys "BTC-USD"
                [sample_candle 60; broken_candle 0; sample_candle 120]) ->
        ~ In k (map key sample_table))
  /\ reported (store_data sample_conn "BTC-USD"
                 [sample_candle 60; broken_candle 0; sample_candle 120])
     = Some 2%nat
  /\ rows_added sample_conn
       (store_data sample_conn "BTC-USD"
          [sample_candle 60; broken_candle 0; sample_candle 120])
     = 2%nat.
Proof.
  assert (Hs : session sample_conn = Some sample_table) by reflexivity.
  assert (Hk : executed_keys "BTC-USD"
                 [sample_candle 60; broken_candle 0; sample_candle 120]
               = [("1970-01-01T00:01:00+00:00", "BTC-USD");
                  ("1970-01-01T00:02:00+00:00", "BTC-USD")])
    by (vm_compute; reflexivity).
  assert (Hnd : NoDup (executed_keys "BTC-USD"
                         [sample_candle 60; broken_candle 0; sample_candle 120])).
  { rewrite Hk. constructor.
    - intros [H | []]. discriminate H.
    - constructor; [intros [] | constructor]. }
  assert (Hfresh : forall k,
             In k (executed_keys "BTC-USD"
                     [sample_candle 60; broken_candle 0; sample_candle 120]) ->
             ~ In k (map key sample_table)).
  { rewrite Hk. intros k [<- | [<- | []]]; vm_compute;
      (intros [H | []]; discriminate H). }
  assert (Hrep : reported (store_data sample_conn "BTC-USD"
                             [sample_candle 60; broken_candle 0;
                              sample_candle 120])
                 = Some 2%nat) by reflexivity.
  repeat (split; [assumption |]).
  apply (store_data_count_exact sample_conn "BTC-USD"
           [sample_candle 60; broken_candle 0; sample_candle 120] sample_table
           2%nat Hs Hnd Hfresh Hrep).
Defined.

(** X11. A call that returns commits the whole open transaction: the rows
    that the connection held uncommitted (left by an earlier call that
    raised) are committed with the new ones. *)
Theorem store_data_commits_open_transaction (conn : connection)
  (product_id : string) (candles : list candle) (t : table) :
  session conn = Some t ->
  ret (store_data conn product_id candles) = Returned tt ->
  exists added,
    committed (conn_after (store_data conn product_id candles))
    = Some (t ++ added).
Proof.
  intros Ht Hret.
  rewrite (store_data_commits conn product_id candles Hret).
  rewrite store_data_session, Ht.
  destruct (store_loop_grows candles t product_id 0) as (added & E & _).
  eauto.
Qed.

Lemma store_data_commits_open_transaction_witness :
  session open_conn
  = Some (sample_table
          ++ [mk_row "1970-01-01T00:02:00+00:00" "BTC-USD" (Real (95000 # 1))
                (Real (95100 # 1)) (Real (95010 # 1)) (Real (95050 # 1))
                (Real (5 # 2))])
  /\ committed open_conn = Some sample_table
  /\ ret (store_data open_conn "BTC-USD" [sample_candle 180]) = Returned tt
  /\ exists added,
       committed (conn_after (store_data open_conn "BTC-USD"
                                [sample_candle 180]))
       = Some ((sample_table
                ++ [mk_row "1970-01-01T00:02:00+00:00" "BTC-USD"
                      (Real (95000 # 1)) (Real (95100 # 1)) (Real (95010 # 1))
                      (Real (95050 # 1)) (Real (5 # 2))])
               ++ added).
Proof.
  assert (Hs : session open_conn
               = Some (sample_table
                       ++ [mk_row "1970-01-01T00:02:00+00:00" "BTC-USD"
                             (Real (95000 # 1)) (Real (95100 # 1))
                             (Real (95010 # 1)) (Real (95050 # 1))
                             (Real (5 # 2))]))
    by (vm_compute; reflexivity).
  assert (Hc : committed open_conn = Some sample_table)
    by (vm_compute; reflexivity).
  assert (Hr : ret (store_data open_conn "BTC-USD" [sample_candle 180])
               = Returned tt) by reflexivity.
  repeat (split; [assumption |]).
  apply (store_data_commits_open_transaction open_conn "BTC-USD"
           [sample_candle 180] _ Hs Hr).
Defined.

(** ** fetch_candles *)

Lemma walk_starts_before_end (s e : datetime) (ws : list window) :
  walk s e ws -> s < e.
Proof.
  induction 1 as [s e Hlt Hle | s e ws Hw IH]; [exact Hlt |].
  assert (0 < delta) by reflexivity. lia.
Qed.

Lemma walk_length (s e : datetime) (ws : list window) :
  walk s e ws ->
  Z.of_nat (List.length ws) = (e - s + minutes 300 - 1) / minutes 300.
Proof.
  change (minutes 300) with delta.
  assert (Hd : 0 < delta) by reflexivity.
  induction 1 as [s e Hlt Hle | s e ws Hw IH].
  - cbn [List.length]. symmetry.
    replace (e - s + delta - 1) with (e - s - 1 + 1 * delta) by lia.
    rewrite Z.div_add, Z.div_small by lia. reflexivity.
  - apply walk_starts_before_end in Hw as Hlt.
    cbn [List.length]. rewrite Nat2Z.inj_succ, IH.
    replace (e - s + delta - 1)
      with (e - (s + delta) + delta - 1 + 1 * delta) by lia.
    rewrite Z.div_add by lia. lia.
Qed.

(** X12. The number of requests: when no addition overflows and every
    request is answered, [fetch_candles] makes as many GETs as it takes
    windows of 300 minutes to reach from start to end, the last one cut
    short: the length of the range over 300 minutes, rounded up. *)
Theorem fetch_candles_request_count (net : network) (product_id : string)
  (start_time end_time : datetime) (gran : Z) :
  valid start_time ->
  start_time < end_time ->
  no_overflow start_time end_time ->
  (forall i p, answered (net i (product_url product_id) p)) ->
  Z.of_nat (List.length
              (gets (fst (fetch_candles net product_id start_time end_time
                            gran))))
  = (end_time - start_time + minutes 300 - 1) / minutes 300.
Proof.
  intros [H0 _] Hlt Hno Hnet.
  destruct (fetch_loop_walk net product_id gran end_time Hnet
              (end_time - start_time) ltac:(lia) start_time 0%nat []
              eq_refl H0 Hlt Hno) as (ws & Hw & Hrun).
  unfold fetch_candles. rewrite Hrun. cbn [fst].
  rewrite blocks_gets, length_map. apply walk_length, Hw.
Qed.

Lemma fetch_candles_request_count_witness :
  valid START_TIME
  /\ START_TIME < END_TIME
  /\ no_overflow START_TIME END_TIME
  /\ (forall i p, answered (sample_net i (product_url "BTC-USD") p))
  /\ Z.of_nat (List.length
                 (gets (fst (fetch_candles sample_net "BTC-USD" START_TIME
                               END_TIME GRANULARITY))))
     = (END_TIME - START_TIME + minutes 300 - 1) / minutes 300.
Proof.
  assert (Hv : valid START_TIME) by (vm_compute; split; discriminate).
  assert (Hlt : START_TIME < END_TIME) by reflexivity.
  assert (Hno : no_overflow START_TIME END_TIME).
  { unfold no_overflow, START_TIME, END_TIME, MAX, delta, minutes, US_PER_DAY,
      US_PER_SECOND. lia. }
  assert (Hnet : forall i p, answered (sample_net i (product_url "BTC-USD") p))
    by apply sample_net_answered.
  repeat (split; [assumption |]).
  apply (fetch_candles_request_count sample_net "BTC-USD" START_TIME END_TIME
           GRANULARITY Hv Hlt Hno Hnet).
Defined.

Lemma request_window_prints (net : network) (n : nat) (product_id : string)
  (gran : Z) (s ce : datetime) (all_candles : list candle) :
  exists rest,
    fst (request_window net n product_id gran s ce all_candles)
    = request_of product_id gran (s, ce) :: rest
    /\ gets rest = [] /\ sleeps rest = [].
Proof.
  unfold request_window, request_of. cbn [fst snd].
  destruct (net n _ _) as [resp | x].
  - destruct (status_code resp =? 200).
    + destruct (json resp) as [[| c data] | x]; cbn [fst];
        eexists; (split; [reflexivity |]); split; reflexivity.
    + eexists. split; [reflexivity |]. split; reflexivity.
  - exists []. split; [reflexivity |]. split; reflexivity.
Qed.

Lemma gets_app (a b : trace) : gets (a ++ b) = gets a ++ gets b.
Proof. apply filter_app. Qed.

Lemma sleeps_app (a b : trace) : sleeps (a ++ b) = sleeps a ++ sleeps b.
Proof. apply flat_map_app. Qed.

Lemma fetch_loop_sleeps (net : network) (product_id : string) (gran : Z)
  (e : datetime) (k : nat) :
  forall s n all_candles,
    e - s <= Z.of_nat k ->
    let run := fetch_loop net product_id gran e s n all_candles in
    Forall (fun q => q = 1 # 2) (sleeps (fst run))
    /\ match snd run with
       | Returned _ =>
           List.length (sleeps (fst run)) = List.length (gets (fst run))
       | Raised _ =>
           (List.length (sleeps (fst run)) <= List.length (gets (fst run))
            <= List.length (sleeps (fst run)) + 1)%nat
       end.
Proof.
  induction k as [| k IH]; intros s n acc Hk; cbv zeta;
    rewrite fetch_loop_eq.
  - replace (s <? e) with false by (symmetry; apply Z.ltb_ge; lia).
    cbn. split; [constructor | reflexivity].
  - destruct (s <? e) eqn:Hlt; [| cbn; split; [constructor | reflexivity]].
    apply Z.ltb_lt in Hlt.
    destruct (window_end s e) as [ce | x] eqn:Hw;
      [| cbn; split; [constructor | lia]].
    destruct (window_end_returned s e ce Hlt Hw) as (H1 & H2 & H3 & _).
    destruct (request_window_prints net n product_id gran s ce acc)
      as (rest & Hev & Hg & Hs).
    destruct (request_window net n product_id gran s ce acc)
      as [evs [acc' | x]]; cbn [fst] in Hev; subst evs.
    + specialize (IH ce (S n) acc' ltac:(lia)). cbv zeta in IH.
      destruct IH as [IHq IHc].
      unfold after. cbn [fst snd].
      rewrite !sleeps_app, !gets_app.
      change (sleeps (request_of product_id gran (s, ce) :: rest))
        with (sleeps rest).
      change (gets (request_of product_id gran (s, ce) :: rest))
        with (request_of product_id gran (s, ce) :: gets rest).
      rewrite Hg, Hs. cbn [app sleeps gets flat_map filter List.length].
      split; [constructor; [reflexivity | exact IHq] |].
      destruct (snd (fetch_loop net product_id gran e ce (S n) acc'));
        cbn [List.length]; lia.
    + cbn [fst snd].
      change (sleeps (request_of product_id gran (s, ce) :: rest))
        with (sleeps rest).
      change (gets (request_of product_id gran (s, ce) :: rest))
        with (request_of product_id gran (s, ce) :: gets rest).
      rewrite Hg, Hs. cbn. split; [constructor | lia].
Qed.

(** X13. Pauses go with requests, whatever the network does: every pause is
    of half a second; a run that returns has paused once after each of its
    GETs, the last one too; a run that raises has paused after each GET but
    possibly the last. *)
Theorem fetch_candles_pauses (net : network) (product_id : string)
  (start_time end_time : datetime) (gran : Z) :
  let run := fetch_candles net product_id start_time end_time gran in
  Forall (fun q => q = 1 # 2) (sleeps (fst run))
  /\ match snd run with
     | Returned _ =>
         List.length (sleeps (fst run)) = List.length (gets (fst run))
     | Raised _ =>
         (List.length (sleeps (fst run)) <= List.length (gets (fst run))
          <= List.length (sleeps (fst run)) + 1)%nat
     end.
Proof.
  apply (fetch_loop_sleeps net product_id gran end_time
           (Z.to_nat (end_time - start_time)) start_time 0%nat []).
  lia.
Qed.

(** X14. Whatever the network does, every GET goes to the URL of the
    product, with the granularity passed, for a window that lies between
    start and end. *)
Theorem fetch_candles_requests_stay_in_range (net : network)
  (product_id : string) (start_time end_time : datetime) (gran : Z)
  (url : string) (p : params) :
  In (Get url p) (fst (fetch_candles net product_id start_time end_time gran)) ->
  url = product_url product_id
  /\ granularity p = gran
  /\ exists a b,
       start_time <= a /\ a < b /\ b <= end_time
       /\ start p = isoformat a /\ end_ p = isoformat b.
Proof.
  intros Hin. unfold fetch_candles in Hin.
  destruct (fetch_loop_requests net product_id gran end_time
              (Z.to_nat (end_time - start_time)) start_time 0%nat []
              ltac:(lia) _ _ Hin) as ([a b] & Ew & B1 & B2 & B3 & B4).
  cbn [fst snd] in *. unfold request_of in Ew. cbn [fst snd] in Ew.
  assert (Eu : url = product_url product_id)
    by exact (f_equal (fun ev => match ev with
                                 | Get u _ => u
                                 | _ => EmptyString
                                 end) Ew).
  assert (Ep : p = mk_params (isoformat a) (isoformat b) gran)
    by exact (f_equal (fun ev => match ev with
                                 | Get _ q => q
                                 | _ => p
                                 end) Ew).
  subst p. cbn [granularity start end_].
  split; [exact Eu |]. split; [reflexivity |].
  exists a, b. repeat split; auto.
Qed.

Lemma fetch_candles_requests_stay_in_range_witness :
  In (Get (product_url "BTC-USD")
        (mk_params "2025-11-17T05:00:00" "2025-11-17T06:40:00" 60))
     (fst (fetch_candles sample_net "BTC-USD" START_TIME
             (START_TIME + minutes 400) GRANULARITY))
  /\ product_url "BTC-USD" = product_url "BTC-USD"
  /\ granularity (mk_params "2025-11-17T05:00:00" "2025-11-17T06:40:00" 60)
     = GRANULARITY
  /\ exists a b,
       START_TIME <= a /\ a < b /\ b <= START_TIME + minutes 400
       /\ start (mk_params "2025-11-17T05:00:00" "2025-11-17T06:40:00" 60)
          = isoformat a
       /\ end_ (mk_params "2025-11-17T05:00:00" "2025-11-17T06:40:00" 60)
          = isoformat b.
Proof.
  assert (Hin : In (Get (product_url "BTC-USD")
                      (mk_params "2025-11-17T05:00:00" "2025-11-17T06:40:00"
                         60))
                   (fst (fetch_candles sample_net "BTC-USD" START_TIME
                           (START_TIME + minutes 400) GRANULARITY))).
  { vm_compute. right. right. right. left. reflexivity. }
  split; [exact Hin |].
  apply (fetch_candles_requests_stay_in_range sample_net "BTC-USD" START_TIME
           (START_TIME + minutes 400) GRANULARITY _ _ Hin).
Defined.

Lemma walk_bounds (s e : datetime) (ws : list window) :
  walk s e ws ->
  forall w, In w ws -> s <= fst w /\ fst w < snd w /\ snd w <= e.
Proof.
  assert (Hd : 0 < delta) by reflexivity.
  induction 1 as [s e Hlt Hle | s e ws Hw IH]; intros w Hin.
  - destruct Hin as [<- | []]. cbn [fst snd]. lia.
  - apply walk_starts_before_end in Hw as Hlt.
    destruct Hin as [<- | Hin]; [cbn [fst snd]; lia |].
    destruct (IH w Hin) as (B1 & B2 & B3). lia.
Qed.

Lemma walk_covers (s e : datetime) (ws : list window) :
  walk s e ws ->
  forall t, s <= t < e -> exists w, In w ws /\ fst w <= t < snd w.
Proof.
  induction 1 as [s e Hlt Hle | s e ws Hw IH]; intros t Ht.
  - exists (s, e). split; [left; reflexivity | exact Ht].
  - destruct (Z_lt_dec t (s + delta)) as [Hin | Hout].
    + exists (s, s + delta). split; [left; reflexivity | cbn [fst snd]; lia].
    + destruct (IH t ltac:(lia)) as (w & Hw' & Hb).
      exists w. split; [right; exact Hw' | exact Hb].
Qed.

Lemma walk_disjoint (s e : datetime) (ws : list window) :
  walk s e ws ->
  forall t w w',
    In w ws -> In w' ws ->
    fst w <= t < snd w -> fst w' <= t < snd w' -> w = w'.
Proof.
  induction 1 as [s e Hlt Hle | s e ws Hw IH]; intros t w w' Hin Hin' Ht Ht'.
  - destruct Hin as [<- | []]. destruct Hin' as [<- | []]. reflexivity.
  - pose proof (walk_bounds _ _ _ Hw) as Hb.
    destruct Hin as [<- | Hin], Hin' as [<- | Hin']; cbn [fst snd] in *.
    + reflexivity.
    + destruct (Hb w' Hin') as (B1 & _). lia.
    + destruct (Hb w Hin) as (B1 & _). lia.
    + apply (IH t w w' Hin Hin' Ht Ht').
Qed.

(** X15. No gap and no overlap: when no addition overflows and every request
    is answered, every instant from start (included) to end (excluded) lies
    in the window of exactly one GET, a window being read from its start
    (included) to its end (excluded). *)
Theorem fetch_candles_covers_the_range (net : network) (product_id : string)
  (start_time end_time : datetime) (gran : Z) (t : datetime) :
  valid start_time -> valid end_time ->
  no_overflow start_time end_time ->
  (forall i p, answered (net i (product_url product_id) p)) ->
  start_time <= t < end_time ->
  exists a b,
    In (request_of product_id gran (a, b))
       (fst (fetch_candles net product_id start_time end_time gran))
    /\ a <= t < b
    /\ forall a' b',
         valid a' -> valid b' ->
         In (request_of product_id gran (a', b'))
            (fst (fetch_candles net product_id start_time end_time gran)) ->
         a' <= t < b' ->
         a' = a /\ b' = b.
Proof.
  intros Hs He Hno Hnet Ht.
  destruct (fetch_loop_walk net product_id gran end_time Hnet
              (end_time - start_time) ltac:(lia) start_time 0%nat []
              eq_refl (proj1 Hs) ltac:(lia) Hno) as (ws & Hw & Hrun).
  assert (Hreq : forall w,
             In (request_of product_id gran w)
                (fst (fetch_candles net product_id start_time end_time gran))
             <-> In (request_of product_id gran w)
                    (map (request_of product_id gran) ws)).
  { intros w. unfold fetch_candles. rewrite Hrun. cbn [fst].
    rewrite <- blocks_gets with (net := net) (n := 0%nat).
    unfold gets. rewrite filter_In. unfold request_of. tauto. }
  destruct (walk_covers _ _ _ Hw t Ht) as ([a b] & Hin & Hab).
  cbn [fst snd] in Hab.
  exists a, b. split; [apply Hreq, in_map, Hin |]. split; [exact Hab |].
  intros a' b' Va Vb Hin' Hab'.
  apply Hreq in Hin'. apply in_map_iff in Hin'.
  destruct Hin' as ([a2 b2] & Ew & Hin2).
  destruct (walk_bounds _ _ _ Hw _ Hin2) as (B1 & B2 & B3).
  cbn [fst snd] in *.
  assert (Ea : isoformat a2 = isoformat a')
    by exact (f_equal (fun ev => match ev with
                                 | Get _ q => start q
                                 | _ => EmptyString
                                 end) Ew).
  assert (Eb : isoformat b2 = isoformat b')
    by exact (f_equal (fun ev => match ev with
                                 | Get _ q => end_ q
                                 | _ => EmptyString
                                 end) Ew).
  unfold valid in *.
  apply isoformat_inj in Ea; [| unfold valid; lia | assumption].
  apply isoformat_inj in Eb; [| unfold valid; lia | assumption].
  subst a2 b2.
  assert (E : (a', b') = (a, b))
    by (apply (walk_disjoint _ _ _ Hw t); cbn [fst snd]; auto).
  injection E as -> ->. auto.
Qed.

Lemma fetch_candles_covers_the_range_witness :
  valid START_TIME
  /\ valid END_TIME
  /\ no_overflow START_TIME END_TIME
  /\ (forall i p, answered (sample_net i (product_url "BTC-USD") p))
  /\ START_TIME <= START_TIME + minutes 310 < END_TIME
  /\ exists a b,
       In (request_of "BTC-USD" GRANULARITY (a, b))
          (fst (fetch_candles sample_net "BTC-USD" START_TIME END_TIME
                  GRANULARITY))
       /\ a <= START_TIME + minutes 310 < b
       /\ forall a' b',
            valid a' -> valid b' ->
            In (request_of "BTC-USD" GRANULARITY (a', b'))
               (fst (fetch_candles sample_net "BTC-USD" START_TIME END_TIME
                       GRANULARITY)) ->
            a' <= START_TIME + minutes 310 < b' ->
            a' = a /\ b' = b.
Proof.
  assert (Hs : valid START_TIME) by (vm_compute; split; discriminate).
  assert (He : valid END_TIME) by (vm_compute; split; discriminate).
  assert (Hno : no_overflow START_TIME END_TIME).
  { unfold no_overflow, START_TIME, END_TIME, MAX, delta, minutes, US_PER_DAY,
      US_PER_SECOND. lia. }
  assert (Hnet : forall i p, answered (sample_net i (product_url "BTC-USD") p))
    by apply sample_net_answered.
  assert (Ht : START_TIME <= START_TIME + minutes 310 < END_TIME)
    by (vm_compute; split; [discriminate | reflexivity]).
  repeat (split; [assumption |]).
  apply (fetch_candles_covers_the_range sample_net "BTC-USD" START_TIME
           END_TIME GRANULARITY (START_TIME + minutes 310) Hs He Hno Hnet Ht).
Defined.

Lemma request_window_raises (net : network) (n : nat) (product_id : string)
  (gran : Z) (s ce : datetime) (all_candles : list candle) (evs : trace)
  (e : exn) :
  request_window net n product_id gran s ce all_candles = (evs, Raised e) ->
  exists url p,
    evs = [Get url p]
    /\ (net n url p = Raised e
        \/ exists resp,
             net n url p = Returned resp
             /\ status_code resp = 200 /\ json resp = Raised e).
Proof.
  unfold request_window. cbv zeta. intros Hr.
  match type of Hr with
  | context [net n ?u ?q] =>
      exists u, q; destruct (net n u q) as [resp | x] eqn:Hn
  end.
  - destruct (status_code resp =? 200) eqn:Hs; [| discriminate].
    apply Z.eqb_eq in Hs.
    destruct (json resp) as [[| c data] | x] eqn:Hj; try discriminate.
    injection Hr as <- <-. split; [reflexivity |]. right. exists resp. auto.
  - injection Hr as <- <-. split; [reflexivity |]. left. reflexivity.
Qed.

(** Where the loop raises: at the addition, before any request of the
    window, or at the request that it has just made, the [n + i]-th when
    [i] requests were made before it in this loop. *)
Lemma fetch_loop_exception (net : network) (product_id : string) (gran : Z)
  (e : datetime) (k : nat) :
  forall s n all_candles x,
    e - s <= Z.of_nat k ->
    snd (fetch_loop net product_id gran e s n all_candles) = Raised x ->
    (x = OverflowError
     /\ (exists cs, s <= cs /\ cs < e /\ ~ valid (cs + delta))
     /\ (fst (fetch_loop net product_id gran e s n all_candles) = []
         \/ exists pre,
              fst (fetch_loop net product_id gran e s n all_candles)
              = pre ++ [Sleep (1 # 2)]))
    \/ exists pre url p,
         fst (fetch_loop net product_id gran e s n all_candles)
         = pre ++ [Get url p]
         /\ (net (n + List.length (gets pre))%nat url p = Raised x
             \/ exists resp,
                  net (n + List.length (gets pre))%nat url p = Returned resp
                  /\ status_code resp = 200 /\ json resp = Raised x).
Proof.
  induction k as [| k IH]; intros s n acc x Hk;
    rewrite fetch_loop_eq.
  - replace (s <? e) with false by (symmetry; apply Z.ltb_ge; lia).
    discriminate.
  - destruct (s <? e) eqn:Hlt; [| discriminate].
    apply Z.ltb_lt in Hlt.
    destruct (window_end s e) as [ce | x'] eqn:Hw.
    + destruct (window_end_returned s e ce Hlt Hw) as (H1 & H2 & H3 & _).
      destruct (request_window_prints net n product_id gran s ce acc)
        as (rest & Hev & Hg & _).
      destruct (request_window net n product_id gran s ce acc)
        as [evs [acc' | x']] eqn:Hrw; cbn [fst] in Hev.
      * unfold after. cbn [fst snd]. intros Hx.
        destruct (IH ce (S n) acc' x ltac:(lia) Hx)
          as [(-> & (cs & B1 & B2 & B3) & Htr) | (pre & url & p & Etr & Hnet)].
        -- left. split; [reflexivity |]. split.
           ++ exists cs. repeat split; [lia | exact B2 | exact B3].
           ++ right. destruct Htr as [-> | (pre & ->)].
              ** exists evs. rewrite app_nil_r. reflexivity.
              ** exists ((evs ++ [Sleep (1 # 2)]) ++ pre).
                 rewrite app_assoc. reflexivity.
        -- right. exists ((evs ++ [Sleep (1 # 2)]) ++ pre), url, p.
           rewrite Etr, app_assoc. split; [reflexivity |].
           replace (n + List.length (gets ((evs ++ [Sleep (1 # 2)]) ++ pre)))%nat
             with (S n + List.length (gets pre))%nat; [exact Hnet |].
           rewrite !gets_app, !length_app. subst evs.
           change (gets (request_of product_id gran (s, ce) :: rest))
             with (request_of product_id gran (s, ce) :: gets rest).
           rewrite Hg. cbn [List.length gets filter]. lia.
      * cbn [fst snd]. intros Hx. injection Hx as ->.
        destruct (request_window_raises _ _ _ _ _ _ _ _ _ Hrw)
          as (url & p & Eev & H).
        right. exists [], url, p. split; [exact Eev |].
        cbn [gets filter List.length]. rewrite Nat.add_0_r. exact H.
    + cbn [fst snd]. intros Hx. injection Hx as <-.
      unfold window_end, Datetime.add, bind_outcome in Hw.
      destruct ((0 <=? s + delta) && (s + delta <=? MAX)) eqn:Hr;
        [discriminate |].
      injection Hw as <-. left. split; [reflexivity |]. split; [| auto].
      exists s. repeat split; [lia | exact Hlt |].
      unfold valid. intros [V1 V2].
      apply andb_false_iff in Hr. destruct Hr as [Hr | Hr];
        [apply Z.leb_gt in Hr | apply Z.leb_gt in Hr]; lia.
Qed.

(** X16. Where an exception of [fetch_candles] comes from, the network
    answering a request with an exception or with a response whose body,
    when it is JSON, is an array of candles. Either the exception is the
    [OverflowError] of the addition [current_start + delta], for a window
    start within the range, and the call has made no request or has just
    slept; or it comes from the last thing the call did, a GET: it is the
    exception that this [requests.get] raised, or the one that
    [response.json()] raised on its response, of status 200. A response of
    another status never raises. *)
Theorem fetch_candles_exception_origin (net : network) (product_id : string)
  (start_time end_time : datetime) (gran : Z) (x : exn) :
  snd (fetch_candles net product_id start_time end_time gran) = Raised x ->
  (x = OverflowError
   /\ (exists current_start,
         start_time <= current_start /\ current_start < end_time
         /\ ~ valid (current_start + delta))
   /\ (fst (fetch_candles net product_id start_time end_time gran) = []
       \/ exists pre,
            fst (fetch_candles net product_id start_time end_time gran)
            = pre ++ [Sleep (1 # 2)]))
  \/ exists pre url p,
       fst (fetch_candles net product_id start_time end_time gran)
       = pre ++ [Get url p]
       /\ (net (List.length (gets pre)) url p = Raised x
           \/ exists resp,
                net (List.length (gets pre)) url p = Returned resp
                /\ status_code resp = 200 /\ json resp = Raised x).
Proof.
  apply (fetch_loop_exception net product_id gran end_time
           (Z.to_nat (end_time - start_time)) start_time 0%nat [] x).
  lia.
Qed.

(** The network breaks down at the second request. *)
Lemma fetch_candles_exception_origin_witness :
  snd (fetch_candles down_net "BTC-USD" START_TIME END_TIME GRANULARITY)
  = Raised RequestException
  /\ ((RequestException = OverflowError
       /\ (exists current_start,
             START_TIME <= current_start /\ current_start < END_TIME
             /\ ~ valid (current_start + delta))
       /\ (fst (fetch_candles down_net "BTC-USD" START_TIME END_TIME
                  GRANULARITY)
           = []
           \/ exists pre,
                fst (fetch_candles down_net "BTC-USD" START_TIME END_TIME
                       GRANULARITY)
                = pre ++ [Sleep (1 # 2)]))
      \/ exists pre url p,
           fst (fetch_candles down_net "BTC-USD" START_TIME END_TIME
                  GRANULARITY)
           = pre ++ [Get url p]
           /\ (down_net (List.length (gets pre)) url p
               = Raised RequestException
               \/ exists resp,
                    down_net (List.length (gets pre)) url p = Returned resp
                    /\ status_code resp = 200
                    /\ json resp = Raised RequestException)).
Proof.
  assert (Hr : snd (fetch_candles down_net "BTC-USD" START_TIME END_TIME
                      GRANULARITY)
               = Raised RequestException) by (vm_compute; reflexivity).
  split; [exact Hr |].
  apply (fetch_candles_exception_origin down_net "BTC-USD" START_TIME END_TIME
           GRANULARITY RequestException Hr).
Defined.

(** ** generate_plot *)

Lemma existsb_eqb_in (x : string) (l : list string) :
  existsb (String.eqb x) l = true <-> In x l.
Proof.
  rewrite existsb_exists. split.
  - intros (y & Hy & E). apply String.eqb_eq in E. subst y. exact Hy.
  - intros H. exists x. split; [exact H | apply String.eqb_refl].
Qed.

Lemma unique_from_in (l : list string) :
  forall seen x, In x (unique_from seen l) <-> In x l /\ ~ In x seen.
Proof.
  induction l as [| y l IH]; intros seen x; cbn [unique_from].
  - split; [intros [] | intros [[] _]].
  - destruct (existsb (String.eqb y) seen) eqn:E.
    + apply existsb_eqb_in in E. rewrite IH. split.
      * intros [H1 H2]. split; [right; exact H1 | exact H2].
      * intros [[<- | H1] H2]; [contradiction | split; assumption].
    + assert (Hy : ~ In y seen).
      { intros H. apply existsb_eqb_in in H. congruence. }
      cbn [In]. rewrite IH. cbn [In]. split.
      * intros [<- | [H1 H2]]; [split; [left; reflexivity | exact Hy] |].
        split; [right; exact H1 | intros H; apply H2; right; exact H].
      * intros [[<- | H1] H2]; [left; reflexivity |].
        destruct (string_dec y x) as [-> | Hne]; [left; reflexivity |].
        right. split; [exact H1 |]. intros [H | H]; [congruence | auto].
Qed.

Lemma unique_from_nodup (l : list string) :
  forall seen, NoDup (unique_from seen l).
Proof.
  induction l as [| y l IH]; intros seen; cbn [unique_from]; [constructor |].
  destruct (existsb (String.eqb y) seen); [apply IH |].
  constructor; [| apply IH].
  rewrite unique_from_in. intros [_ H]. apply H. left. reflexivity.
Qed.

Lemma unique_in (l : list string) (x : string) : In x (unique l) <-> In x l.
Proof.
  unfold unique. rewrite unique_from_in. split; [intros [H _]; exact H |].
  intros H. split; [exact H | intros []].
Qed.

Lemma unique_nodup (l : list string) : NoDup (unique l).
Proof. apply unique_from_nodup. Qed.

(** The products of the panels: the first two of the distinct ones. *)
Lemma generate_plot_products {T : Type} (df : list (summary T)) :
  map product (generate_plot df) = firstn 2 (unique (map s_product_id df)).
Proof.
  unfold generate_plot. rewrite map_map. cbn [product].
  destruct (unique (map s_product_id df)) as [| p [| q u]]; reflexivity.
Qed.

Lemma generate_plot_rows {T : Type} (df : list (summary T)) :
  map bars (generate_plot df)
  = map (fun p => map volume_point (of_product p df))
      (firstn 2 (unique (map s_product_id df)))
  /\ map line (generate_plot df)
     = map (fun p => map price_point (of_product p df))
         (firstn 2 (unique (map s_product_id df))).
Proof.
  unfold generate_plot. rewrite !map_map. cbn [bars line].
  destruct (unique (map s_product_id df)) as [| p [| q u]];
    split; reflexivity.
Qed.

Lemma NoDup_firstn {A : Type} (n : nat) (l : list A) :
  NoDup l -> NoDup (firstn n l).
Proof.
  revert n. induction l as [| x l IH]; intros [| n] H; cbn [firstn];
    try constructor.
  - inversion H as [| ? ? Hx Hl]; subst. intros Hin. apply Hx.
    rewrite <- (firstn_skipn n l). apply in_or_app. left. exact Hin.
  - inversion H; subst. apply IH. assumption.
Qed.

Lemma in_firstn {A : Type} (n : nat) (l : list A) (x : A) :
  In x (firstn n l) -> In x l.
Proof.
  intros H. rewrite <- (firstn_skipn n l). apply in_or_app. left. exact H.
Qed.

(** X17. The figure has at most two panels, on the axes 0 and 1 in this
    order, for different products; each panel is for a product of the data
    frame and shows the rows of that product and no other, every one of
    them, as bars and as points of the line, in the order of the data frame;
    no panel is empty, and a data frame that has a row gives a panel. *)
Theorem generate_plot_panels {T : Type} (df : list (summary T)) :
  (List.length (generate_plot df) <= 2)%nat
  /\ map axis (generate_plot df) = seq 0 (List.length (generate_plot df))
  /\ NoDup (map product (generate_plot df))
  /\ (df <> [] -> generate_plot df <> [])
  /\ forall pn,
       In pn (generate_plot df) ->
       bars pn = map volume_point (of_product (product pn) df)
       /\ line pn = map price_point (of_product (product pn) df)
       /\ exists s, In s df /\ s_product_id s = product pn.
Proof.
  split; [| split; [| split; [| split]]].
  - unfold generate_plot. rewrite length_map, length_combine. apply Nat.le_min_l.
  - unfold generate_plot. rewrite map_map, length_map. cbn [axis].
    destruct (unique (map s_product_id df)) as [| p [| q u]]; reflexivity.
  - rewrite generate_plot_products. apply NoDup_firstn, unique_nodup.
  - intros Hne Hnil. apply (f_equal (map product)) in Hnil.
    rewrite generate_plot_products in Hnil.
    destruct df as [| s df]; [congruence |].
    assert (Hin : In (s_product_id s) (unique (map s_product_id (s :: df))))
      by (apply unique_in; left; reflexivity).
    destruct (unique (map s_product_id (s :: df))) as [| p u];
      [destruct Hin | discriminate Hnil].
  - intros pn Hin.
    assert (Hp : In (product pn) (firstn 2 (unique (map s_product_id df)))).
    { rewrite <- generate_plot_products. apply in_map, Hin. }
    apply in_firstn, unique_in, in_map_iff in Hp.
    destruct Hp as (s & Es & Hs).
    unfold generate_plot in Hin. apply in_map_iff in Hin.
    destruct Hin as ([ax p] & <- & _). cbn [bars line product fst snd].
    cbn [product snd] in Es.
    split; [reflexivity |]. split; [reflexivity |]. eauto.
Qed.

Lemma filter_or_disjoint {A : Type} (f g : A -> bool) (l : list A) :
  (forall x, In x l -> f x = true -> g x = false) ->
  Permutation (filter f l ++ filter g l) (filter (fun x => f x || g x) l).
Proof.
  induction l as [| x l IH]; intros H; [reflexivity |].
  assert (IH' := IH (fun y Hy => H y (or_intror Hy))).
  cbn [filter]. destruct (f x) eqn:Ef; cbn [orb app].
  - rewrite (H x (or_introl eq_refl) Ef). apply perm_skip, IH'.
  - destruct (g x).
    + rewrite <- Permutation_middle. apply perm_skip, IH'.
    + exact IH'.
Qed.

(** The rows of the products [u], product by product, are the rows whose
    product is in [u]. *)
Lemma of_products {T : Type} (df : list (summary T)) (u : list string) :
  NoDup u ->
  Permutation (List.concat (map (fun p => of_product p df) u))
    (filter (fun s => existsb (String.eqb (s_product_id s)) u) df).
Proof.
  induction u as [| p u IH]; intros Hnd.
  - cbn [map List.concat existsb]. induction df; [reflexivity | assumption].
  - inversion Hnd as [| ? ? Hp Hu]; subst.
    cbn [map List.concat existsb]. rewrite (IH Hu). unfold of_product.
    apply filter_or_disjoint.
    intros s _ E. apply String.eqb_eq in E.
    destruct (existsb (String.eqb (s_product_id s)) u) eqn:Ex;
      [| reflexivity].
    apply existsb_eqb_in in Ex. congruence.
Qed.

Lemma filter_all {A : Type} (f : A -> bool) (l : list A) :
  (forall x, In x l -> f x = true) -> filter f l = l.
Proof.
  induction l as [| x l IH]; intros H; [reflexivity |].
  cbn [filter]. rewrite (H x (or_introl eq_refl)). f_equal.
  apply IH. intros y Hy. apply H. right. exact Hy.
Qed.

Lemma filter_shorter {A : Type} (f : A -> bool) (l : list A) (x : A) :
  In x l -> f x = false -> (List.length (filter f l) < List.length l)%nat.
Proof.
  induction l as [| y l IH]; [intros [] |].
  intros [<- | Hin] Hx; cbn [filter List.length].
  - rewrite Hx. pose proof (filter_length_le f l). lia.
  - specialize (IH Hin Hx). destruct (f y); cbn [List.length]; lia.
Qed.

Lemma concat_map_map {A B C : Type} (f : B -> C) (g : A -> list B)
  (l : list A) :
  List.concat (map (fun a => map f (g a)) l) = map f (List.concat (map g l)).
Proof.
  induction l as [| a l IH]; [reflexivity |].
  cbn [map List.concat]. rewrite map_app, IH. reflexivity.
Qed.

(** The rows that the figure shows, taken together. *)
Lemma generate_plot_shown {T : Type} (df : list (summary T)) :
  let shown_rows :=
    filter (fun s => existsb (String.eqb (s_product_id s))
                       (firstn 2 (unique (map s_product_id df)))) df in
  Permutation (List.concat (map bars (generate_plot df)))
    (map volume_point shown_rows)
  /\ Permutation (List.concat (map line (generate_plot df)))
       (map price_point shown_rows).
Proof.
  cbv zeta. destruct (generate_plot_rows df) as [-> ->].
  rewrite !concat_map_map.
  pose proof (of_products df (firstn 2 (unique (map s_product_id df)))
                (NoDup_firstn 2 _ (unique_nodup _))) as H.
  split; apply Permutation_map, H.
Qed.

(** With two products at most, the first two distinct products are all of
    them. *)
Lemma two_products_all {T : Type} (df : list (summary T)) (p q : string) :
  (forall s, In s df -> s_product_id s = p \/ s_product_id s = q) ->
  firstn 2 (unique (map s_product_id df)) = unique (map s_product_id df).
Proof.
  intros Hpq. apply firstn_all2.
  apply (NoDup_incl_length (l' := [p; q]) (unique_nodup _)).
  intros x Hx. apply unique_in, in_map_iff in Hx.
  destruct Hx as (s & <- & Hs).
  destruct (Hpq s Hs) as [-> | ->]; [left | right; left]; reflexivity.
Qed.

(** X18. When the data frame has rows of at most two products, every row is
    drawn, and drawn once: the bars of the panels together are the volume
    points of the rows, and the points of the lines are their price
    points. *)
Theorem generate_plot_draws_every_row {T : Type} (df : list (summary T))
  (p q : string) :
  (forall s, In s df -> s_product_id s = p \/ s_product_id s = q) ->
  Permutation (List.concat (map bars (generate_plot df)))
    (map volume_point df)
  /\ Permutation (List.concat (map line (generate_plot df)))
       (map price_point df).
Proof.
  intros Hpq.
  pose proof (generate_plot_shown df) as H. cbv zeta in H.
  rewrite (two_products_all df p q Hpq) in H.
  rewrite filter_all in H; [exact H |].
  intros s Hs. apply existsb_eqb_in, unique_in, in_map, Hs.
Qed.

Lemma generate_plot_draws_every_row_witness :
  (forall s, In s sample_df ->
     s_product_id s = "BTC-USD" \/ s_product_id s = "ETH-USD")
  /\ Permutation (List.concat (map bars (generate_plot sample_df)))
       (map volume_point sample_df)
  /\ Permutation (List.concat (map line (generate_plot sample_df)))
       (map price_point sample_df).
Proof.
  assert (Hpq : forall s, In s sample_df ->
                  s_product_id s = "BTC-USD" \/ s_product_id s = "ETH-USD").
  { intros s [<- | [<- | [<- | []]]]; [left | right | left]; reflexivity. }
  split; [exact Hpq |].
  apply (generate_plot_draws_every_row sample_df "BTC-USD" "ETH-USD" Hpq).
Defined.

(** X19. The figure has room for two products: when the data frame has rows
    of three different products, the rows of one of them are not drawn, so
    that the panels together show fewer bars than there are rows. *)
Theorem generate_plot_omits_a_product {T : Type} (df : list (summary T))
  (s1 s2 s3 : summary T) :
  In s1 df -> In s2 df -> In s3 df ->
  s_product_id s1 <> s_product_id s2 ->
  s_product_id s1 <> s_product_id s3 ->
  s_product_id s2 <> s_product_id s3 ->
  (List.length (List.concat (map bars (generate_plot df))) < List.length df)%nat
  /\ exists s,
       In s df
       /\ forall pn, In pn (generate_plot df) -> product pn <> s_product_id s.
Proof.
  intros H1 H2 H3 N12 N13 N23.
  set (u := firstn 2 (unique (map s_product_id df))).
  assert (Hlen : (List.length u <= 2)%nat) by apply firstn_le_length.
  assert (Hout : exists s, In s df /\ ~ In (s_product_id s) u).
  { destruct (in_dec string_dec (s_product_id s1) u) as [I1 |]; [| eauto].
    destruct (in_dec string_dec (s_product_id s2) u) as [I2 |]; [| eauto].
    destruct (in_dec string_dec (s_product_id s3) u) as [I3 |]; [| eauto].
    exfalso.
    assert (Hnd : NoDup [s_product_id s1; s_product_id s2; s_product_id s3]).
    { repeat constructor; cbn [In]; intuition congruence. }
    pose proof (NoDup_incl_length Hnd (l' := u)) as Hl.
    cbn [List.length] in Hl.
    assert ((3 <= List.length u)%nat); [| lia].
    apply Hl. intros x [<- | [<- | [<- | []]]]; assumption. }
  destruct Hout as (s & Hs & Hnot).
  split.
  - destruct (generate_plot_shown df) as [Hb _]. cbv zeta in Hb.
    rewrite (Permutation_length Hb), length_map. fold u.
    apply (filter_shorter _ df s Hs).
    destruct (existsb (String.eqb (s_product_id s)) u) eqn:E;
      [| reflexivity].
    apply existsb_eqb_in in E. contradiction.
  - exists s. split; [exact Hs |]. intros pn Hpn E. apply Hnot.
    unfold u. rewrite <- generate_plot_products, <- E.
    apply in_map, Hpn.
Qed.

Lemma generate_plot_omits_a_product_witness :
  In (mk_summary "BTC-USD" (Some "1970-01-01 00:00:00")
        (Some (Binary64.Finite (95050 # 1))) (Some (Binary64.Finite (6 # 1))))
     (sample_df ++ [sol_row])
  /\ In (mk_summary "ETH-USD" (Some "1970-01-01 00:00:00")
           (Some (Binary64.Finite (95050 # 1)))
           (Some (Binary64.Finite (5 # 2))))
        (sample_df ++ [sol_row])
  /\ In sol_row (sample_df ++ [sol_row])
  /\ "BTC-USD" <> "ETH-USD"
  /\ "BTC-USD" <> "SOL-USD"
  /\ "ETH-USD" <> "SOL-USD"
  /\ (List.length
        (List.concat (map bars (generate_plot (sample_df ++ [sol_row]))))
      < List.length (sample_df ++ [sol_row]))%nat
  /\ exists s,
       In s (sample_df ++ [sol_row])
       /\ forall pn,
            In pn (generate_plot (sample_df ++ [sol_row])) ->
            product pn <> s_product_id s.
Proof.
  assert (H1 : In (mk_summary "BTC-USD" (Some "1970-01-01 00:00:00")
                     (Some (Binary64.Finite (95050 # 1)))
                     (Some (Binary64.Finite (6 # 1))))
                  (sample_df ++ [sol_row])) by (left; reflexivity).
  assert (H2 : In (mk_summary "ETH-USD" (Some "1970-01-01 00:00:00")
                     (Some (Binary64.Finite (95050 # 1)))
                     (Some (Binary64.Finite (5 # 2))))
                  (sample_df ++ [sol_row])) by (right; left; reflexivity).
  assert (H3 : In sol_row (sample_df ++ [sol_row]))
    by (right; right; right; left; reflexivity).
  assert (N12 : "BTC-USD" <> "ETH-USD") by discriminate.
  assert (N13 : "BTC-USD" <> "SOL-USD") by discriminate.
  assert (N23 : "ETH-USD" <> "SOL-USD") by discriminate.
  repeat (split; [assumption |]).
  apply (generate_plot_omits_a_product (sample_df ++ [sol_row]) _ _ _
           H1 H2 H3 N12 N13 N23).
Defined.

(** ** fetch_aggregated_data and the script *)

Lemma feed_length (g : group) (r : row) (gs : list (group * aggregate)) :
  (List.length (feed g r gs) <= S (List.length gs))%nat.
Proof.
  induction gs as [| [h a] gs IH]; cbn [feed List.length]; [lia |].
  destruct (group_eqb g h); cbn [List.length]; lia.
Qed.

Lemma group_by_length (strftime_hour : string -> option string) (t : table) :
  (List.length (group_by strftime_hour t) <= List.length t)%nat.
Proof.
  induction t as [| r t IH] using rev_ind; [cbn; lia |].
  rewrite group_by_snoc, length_app. cbn [List.length].
  pose proof (feed_length (group_of strftime_hour r) r
                (group_by strftime_hour t)).
  lia.
Qed.

(** The data frame has as many rows as GROUP BY makes groups. *)
Lemma fetch_aggregated_data_length {T : Type}
  (strftime_hour : string -> option string) (to_datetime : option string -> T)
  (t : table) :
  exists df,
    fetch_aggregated_data strftime_hour to_datetime (Some t) = Returned df
    /\ List.length df = List.length (group_by strftime_hour t)
    /\ map s_product_id df
       = map fst (map fst (order_by_bucket
                             (sort_by_group (group_by strftime_hour t)))).
Proof.
  eexists. split; [reflexivity |]. unfold query. split.
  - rewrite !length_map.
    symmetry. apply Permutation_length, query_order_perm.
  - rewrite !map_map. apply map_ext. intros [g a]. reflexivity.
Qed.

(** X20. What the script does, by what the database file holds: without a
    candles table the query raises, and "No data found" is not printed; with
    an empty table the script says that no data was found and plots
    nothing; with a table that has rows it plots, the data frame having at
    least one row and at most as many as the table, and the figure at least
    one panel. *)
Theorem main_by_file {T : Type} (strftime_hour : string -> option string)
  (to_datetime : option string -> T) (file : database) :
  match file with
  | None => main strftime_hour to_datetime file = Raised PandasDatabaseError
  | Some [] => main strftime_hour to_datetime file = Returned NoDataFound
  | Some (r :: t) =>
      exists n figure,
        main strftime_hour to_datetime file = Returned (Plotted n figure)
        /\ (1 <= n <= List.length (r :: t))%nat
        /\ figure <> []
  end.
Proof.
  destruct file as [[| r t] |]; [reflexivity | | reflexivity].
  destruct (fetch_aggregated_data_length strftime_hour to_datetime (r :: t))
    as (df & E & Hlen & _).
  unfold main. rewrite E. cbn [bind_outcome].
  pose proof (group_by_length strftime_hour (r :: t)) as Hle.
  destruct (group_by_spec strftime_hour (r :: t)) as (_ & Hkeys & _).
  assert (Hin : In (group_of strftime_hour r)
                  (map fst (group_by strftime_hour (r :: t)))).
  { apply Hkeys. exists r. split; [left |]; reflexivity. }
  destruct df as [| s df].
  - exfalso. destruct (group_by strftime_hour (r :: t)); [destruct Hin |].
    discriminate Hlen.
  - exists (List.length (s :: df)), (generate_plot (s :: df)).
    split; [reflexivity |]. split.
    + rewrite Hlen. cbn [List.length] in *. lia.
    + destruct (generate_plot_panels (s :: df)) as (_ & _ & _ & Hne & _).
      apply Hne. discriminate.
Qed.

(** The order of the texts, byte by byte, is transitive. *)
Lemma string_leb_trans (a b c : string) :
  String.leb a b = true -> String.leb b c = true -> String.leb a c = true.
Proof.
  unfold String.leb. revert b c.
  induction a as [| x a IH]; intros [| y b] [| z c];
    cbn [String.compare]; try discriminate; try reflexivity.
  unfold Ascii.compare.
  destruct (N.compare_spec (N_of_ascii x) (N_of_ascii y)) as [E1 | L1 | G1];
    destruct (N.compare_spec (N_of_ascii y) (N_of_ascii z)) as [E2 | L2 | G2];
    destruct (N.compare_spec (N_of_ascii x) (N_of_ascii z)) as [E3 | L3 | G3];
    try discriminate; try reflexivity; try lia.
  apply IH.
Qed.

Lemma bucket_le_trans (a b c : option string) :
  bucket_le a b -> bucket_le b c -> bucket_le a c.
Proof.
  unfold bucket_le. destruct a as [x |], b as [y |], c as [z |];
    cbn [bucket_leb]; try discriminate; try reflexivity.
  apply string_leb_trans.
Qed.

Lemma StronglySorted_filter {A : Type} (R : A -> A -> Prop) (f : A -> bool)
  (l : list A) :
  StronglySorted R l -> StronglySorted R (filter f l).
Proof.
  induction 1 as [| x l Hs IH Hall]; cbn [filter]; [constructor |].
  destruct (f x); [| exact IH].
  constructor; [exact IH |].
  apply Forall_forall. intros y Hy. apply filter_In in Hy.
  rewrite Forall_forall in Hall. apply Hall, Hy.
Qed.

Lemma StronglySorted_map {A B : Type} (R : B -> B -> Prop) (f : A -> B)
  (l : list A) :
  StronglySorted (fun x y => R (f x) (f y)) l -> StronglySorted R (map f l).
Proof.
  induction 1 as [| x l Hs IH Hall]; cbn [map]; constructor; [exact IH |].
  apply Forall_map. exact Hall.
Qed.

Lemma NoDup_map_in {A B : Type} (f : A -> B) (l : list A) :
  (forall x y, In x l -> In y l -> f x = f y -> x = y) ->
  NoDup l -> NoDup (map f l).
Proof.
  intros Hinj Hnd. induction Hnd as [| x l Hx Hnd IH]; cbn [map];
    constructor.
  - rewrite in_map_iff. intros (y & E & Hy).
    apply Hinj in E; [| right; exact Hy | left; reflexivity].
    subst y. contradiction.
  - apply IH. intros y z Hy Hz. apply Hinj; right; assumption.
Qed.

(** X22. The figure of the data frame that the query returns: each panel has
    one bar, and one point of the line, for each hour in which the table has
    a candle of the product of the panel, and they come in ascending order
    of the hour. *)
Theorem generate_plot_panels_by_hour {T : Type}
  (strftime_hour : string -> option string) (to_datetime : option string -> T)
  (t : table) :
  exists df,
    fetch_aggregated_data strftime_hour to_datetime (Some t) = Returned df
    /\ forall pn,
         In pn (generate_plot df) ->
         exists hours : list (option string),
           map fst (bars pn) = map to_datetime hours
           /\ map fst (line pn) = map to_datetime hours
           /\ StronglySorted bucket_le hours
           /\ NoDup hours
           /\ forall h,
                In h hours
                <-> exists r,
                      In r t /\ Sqlite.product_id r = product pn
                      /\ strftime_hour (timestamp r) = h.
Proof.
  eexists. split; [reflexivity |]. intros pn Hpn.
  destruct (generate_plot_panels
              (map (fun s => mk_summary (s_product_id s)
                               (to_datetime (hour_bucket s))
                               (hourly_avg_price s) (hourly_total_volume s))
                 (query strftime_hour t)))
    as (_ & _ & _ & _ & Hpanel).
  destruct (Hpanel pn Hpn) as (-> & -> & _). clear Hpanel Hpn.
  set (p := product pn). clearbody p. clear pn.
  destruct (group_by_spec strftime_hour t) as (Hnd & Hkeys & _).
  set (sorted := order_by_bucket (sort_by_group (group_by strftime_hour t))).
  assert (Hperm : Permutation (group_by strftime_hour t) sorted)
    by apply query_order_perm.
  set (mine := filter (fun ga : group * aggregate =>
                         String.eqb (fst (fst ga)) p) sorted).
  exists (map (fun ga : group * aggregate => snd (fst ga)) mine).
  assert (Hrows : of_product p
                    (map (fun s => mk_summary (s_product_id s)
                                     (to_datetime (hour_bucket s))
                                     (hourly_avg_price s)
                                     (hourly_total_volume s))
                       (query strftime_hour t))
                  = map (fun ga : group * aggregate =>
                           mk_summary (fst (fst ga))
                             (to_datetime (snd (fst ga)))
                             (avg_final (close_sum (snd ga))
                                (close_count (snd ga)))
                             (sum_final (volume_sum (snd ga))
                                (volume_count (snd ga))))
                      mine).
  { unfold of_product, query. fold sorted. rewrite map_map.
    rewrite filter_map_swap. unfold mine.
    rewrite (filter_ext _ (fun ga : group * aggregate =>
                             String.eqb (fst (fst ga)) p)).
    - apply map_ext. intros [g a]. reflexivity.
    - intros [g a]. reflexivity. }
  rewrite Hrows, !map_map. cbn [volume_point price_point fst hour_bucket].
  split; [reflexivity |]. split; [reflexivity |].
  split; [| split].
  - apply StronglySorted_map. apply StronglySorted_filter.
    apply Sorted_StronglySorted; [| apply order_by_bucket_sorted].
    intros x y z. apply bucket_le_trans.
  - replace (map (fun ga : group * aggregate => snd (fst ga)) mine)
      with (map (@snd string (option string)) (map fst mine))
      by apply map_map.
    apply NoDup_map_in.
    + intros g h Hg Hh E.
      apply in_map_iff in Hg, Hh.
      destruct Hg as (ga & <- & Hga), Hh as (ha & <- & Hha).
      apply filter_In in Hga, Hha.
      destruct Hga as [_ Eg], Hha as [_ Eh].
      apply String.eqb_eq in Eg, Eh.
      destruct ga as [[g1 g2] a1], ha as [[h1 h2] a2]. cbn [fst snd] in *.
      congruence.
    + unfold mine.
      rewrite <- (filter_map_swap (fun g : group => String.eqb (fst g) p) fst).
      apply NoDup_filter.
      apply (Permutation_NoDup (Permutation_map fst Hperm) Hnd).
  - intros h. rewrite in_map_iff. split.
    + intros ([g a] & <- & Hin). apply filter_In in Hin.
      destruct Hin as [Hin E]. cbn [fst snd] in *. apply String.eqb_eq in E.
      apply (Permutation_in _ (Permutation_sym Hperm)) in Hin.
      apply (in_map fst) in Hin. apply Hkeys in Hin.
      destruct Hin as (r & Hr & Eg). exists r. split; [exact Hr |].
      cbn [fst] in Eg. subst g. cbn [group_of fst snd] in *. auto.
    + intros (r & Hr & Ep & Eh).
      assert (Hg : In (group_of strftime_hour r)
                     (map fst (group_by strftime_hour t)))
        by (apply Hkeys; eauto).
      apply in_map_iff in Hg. destruct Hg as ([g a] & Eg & Hin).
      cbn [fst] in Eg. subst g.
      exists (group_of strftime_hour r, a). split; [exact Eh |].
      apply filter_In. split; [apply (Permutation_in _ Hperm), Hin |].
      cbn [fst group_of]. apply String.eqb_eq, Ep.
Qed.

(** ** run_pipeline *)

Lemma store_data_raised (conn : connection) (product_id : string)
  (candles : list candle) (e : exn) :
  ret (store_data conn product_id candles) = Raised e ->
  committed (conn_after (store_data conn product_id candles))
  = committed conn.
Proof.
  unfold store_data.
  destruct (result (store_loop (session conn) product_id candles 0));
    cbn [ret conn_after committed]; [discriminate | reflexivity].
Qed.

(** The loop over the products, on a connection that has nothing
    uncommitted: what is committed in the end is what was there and rows of
    the products of the list. *)
Lemma pipeline_loop_committed (ids : list string) :
  forall net n conn t,
    committed conn = Some t -> session conn = Some t ->
    exists added,
      committed (conn_at_end (pipeline_loop net n conn ids))
      = Some (t ++ added)
      /\ forall r, In r added -> In (Sqlite.product_id r) ids.
Proof.
  induction ids as [| id ids IH]; intros net n conn t Hc Hs.
  - exists []. rewrite app_nil_r. split; [exact Hc | intros r []].
  - cbn [pipeline_loop].
    destruct (fetch_candles (fun n0 => net (n + n0)%nat) id START_TIME
                END_TIME GRANULARITY) as [tr [candles | e]];
      cbn [fst snd].
    2:{ exists []. rewrite app_nil_r. split; [exact Hc | intros r []]. }
    destruct (ret (store_data conn id candles)) as [[] | e] eqn:Hret;
      cbn [conn_at_end].
    + pose proof (store_data_commits conn id candles Hret) as Hcom.
      pose proof (store_data_session conn id candles) as Hses.
      rewrite Hs in Hses.
      destruct (store_loop_added candles t id 0) as (added & E & Hfrom).
      rewrite E in Hses. rewrite Hses in Hcom.
      destruct (IH net (n + requests_made tr)%nat
                  (conn_after (store_data conn id candles)) (t ++ added)
                  Hcom Hses) as (more & Em & Hmore).
      exists (added ++ more). rewrite app_assoc. split; [exact Em |].
      intros r Hr. apply in_app_or in Hr. destruct Hr as [Hr | Hr].
      * left. apply (Hfrom r Hr).
      * right. apply Hmore, Hr.
    + pose proof (store_data_raised conn id candles e Hret) as Hcom.
      exists []. rewrite app_nil_r, Hcom. split; [exact Hc | intros r []].
Qed.

Lemma pipeline_loop_unique (ids : list string) :
  forall net n conn,
    db_unique (session conn) -> db_unique (committed conn) ->
    db_unique (committed (conn_at_end (pipeline_loop net n conn ids))).
Proof.
  induction ids as [| id ids IH]; intros net n conn Hs Hc; [exact Hc |].
  cbn [pipeline_loop].
  destruct (fetch_candles (fun n0 => net (n + n0)%nat) id START_TIME
              END_TIME GRANULARITY) as [tr [candles | e]];
    cbn [fst snd]; [| exact Hc].
  destruct (store_data_unique conn id candles Hs Hc) as [Hs' Hc'].
  destruct (ret (store_data conn id candles)) as [[] | e];
    cbn [conn_at_end]; [apply IH; assumption | exact Hc'].
Qed.

(** X23. Whatever the network answers and however the run ends, the database
    file holds a candles table afterwards, with at most one row for each
    (timestamp, product_id) and with rows of the products of [PRODUCT_IDS]
    only; and what the file held before the run plays no part. *)
Theorem run_pipeline_table (net : network) (file : database) :
  (exists t,
     file_after (run_pipeline net file) = Some t
     /\ unique_keys t
     /\ forall r, In r t -> In (Sqlite.product_id r) PRODUCT_IDS)
  /\ run_pipeline net file = run_pipeline net None.
Proof.
  split; [| reflexivity].
  assert (Hfile : file_after (run_pipeline net file)
                  = committed (conn_at_end
                                 (pipeline_loop net 0 (init_db true file)
                                    PRODUCT_IDS))).
  { unfold run_pipeline.
    destruct (ended (pipeline_loop net 0 (init_db true file) PRODUCT_IDS));
      reflexivity. }
  destruct (pipeline_loop_committed PRODUCT_IDS net 0%nat (init_db true file)
              [] eq_refl eq_refl) as (added & E & Hp).
  pose proof (pipeline_loop_unique PRODUCT_IDS net 0%nat (init_db true file))
    as Hu.
  rewrite E in Hu. rewrite Hfile, E. cbn [app] in *.
  exists added. split; [reflexivity |]. split; [| exact Hp].
  apply Hu; cbn; constructor.
Qed.

(** A loop that returns has requested every window, whatever the network
    answered. *)
Lemma fetch_loop_returned_gets (net : network) (product_id : string)
  (gran : Z) (e : datetime) (k : nat) :
  forall s n all_candles,
    e - s <= Z.of_nat k ->
    (exists c,
       snd (fetch_loop net product_id gran e s n all_candles) = Returned c) ->
    Z.of_nat (List.length
                (gets (fst (fetch_loop net product_id gran e s n
                              all_candles))))
    = Z.max 0 ((e - s + delta - 1) / delta).
Proof.
  assert (Hd : delta = 18000000000) by reflexivity.
  induction k as [| k IH]; intros s n acc Hk; rewrite fetch_loop_eq.
  - replace (s <? e) with false by (symmetry; apply Z.ltb_ge; lia).
    intros _. cbn [fst gets filter List.length]. rewrite Hd.
    Z.div_mod_to_equations. lia.
  - destruct (s <? e) eqn:Hlt.
    2:{ apply Z.ltb_ge in Hlt. intros _. cbn [fst gets filter List.length].
        rewrite Hd. Z.div_mod_to_equations. lia. }
    apply Z.ltb_lt in Hlt.
    destruct (window_end s e) as [ce | x] eqn:Hw;
      [| intros (c & Hc); discriminate Hc].
    assert (Hce : ce = if s + delta >? e then e else s + delta).
    { unfold window_end, Datetime.add, bind_outcome in Hw.
      destruct ((0 <=? s + delta) && (s + delta <=? MAX));
        [| discriminate Hw].
      injection Hw as <-. reflexivity. }
    destruct (request_window_prints net n product_id gran s ce acc)
      as (rest & Hev & Hg & _).
    destruct (request_window net n product_id gran s ce acc)
      as [evs [acc' | x]]; cbn [fst] in Hev; subst evs;
      [| intros (c & Hc); discriminate Hc].
    unfold after. cbn [fst snd]. intros Hret.
    rewrite !gets_app.
    change (gets (request_of product_id gran (s, ce) :: rest))
      with (request_of product_id gran (s, ce) :: gets rest).
    rewrite Hg. cbn [app gets filter List.length].
    fold (gets (fst (fetch_loop net product_id gran e ce (S n) acc'))).
    rewrite Nat2Z.inj_succ.
    destruct (s + delta >? e) eqn:Hc.
    + subst ce. rewrite (IH e (S n) acc' ltac:(lia) Hret). rewrite Hd in *.
      Z.div_mod_to_equations. lia.
    + subst ce. rewrite (IH (s + delta) (S n) acc' ltac:(lia) Hret).
      rewrite Hd in *. Z.div_mod_to_equations. lia.
Qed.

Lemma fetch_events_app (a b : list action) :
  fetch_events (a ++ b) = fetch_events a ++ fetch_events b.
Proof. apply flat_map_app. Qed.

Lemma fetch_events_fetching (tr : trace) :
  fetch_events (map Fetching tr) = tr.
Proof.
  induction tr as [| ev tr IH]; [reflexivity |].
  cbn [map fetch_events flat_map app]. fold (fetch_events (map Fetching tr)).
  rewrite IH. reflexivity.
Qed.

Lemma fetch_events_storing (out : list message) :
  fetch_events (map Storing out) = [].
Proof. induction out as [| m out IH]; [reflexivity | exact IH]. Qed.

(** A loop over the products that comes to its end has made 39 requests for
    each product, with a pause after each. *)
Lemma pipeline_loop_ended (ids : list string) :
  forall net n conn,
    ended (pipeline_loop net n conn ids) = Returned tt ->
    List.length (gets (fetch_events (steps (pipeline_loop net n conn ids))))
    = (39 * List.length ids)%nat
    /\ List.length (sleeps (fetch_events
                              (steps (pipeline_loop net n conn ids))))
       = (39 * List.length ids)%nat
    /\ ~ In PipelineFinished (steps (pipeline_loop net n conn ids)).
Proof.
  induction ids as [| id ids IH]; intros net n conn.
  - intros _. cbn. repeat split; try reflexivity. intros [].
  - cbn [pipeline_loop].
    pose proof (fetch_loop_returned_gets (fun n0 => net (n + n0)%nat) id
                  GRANULARITY END_TIME (Z.to_nat (END_TIME - START_TIME))
                  START_TIME 0%nat [] ltac:(lia)) as Hgets.
    pose proof (fetch_loop_sleeps (fun n0 => net (n + n0)%nat) id
                  GRANULARITY END_TIME (Z.to_nat (END_TIME - START_TIME))
                  START_TIME 0%nat [] ltac:(lia)) as Hsleeps.
    cbv zeta in Hsleeps. destruct Hsleeps as [_ Hsleeps].
    fold (fetch_candles (fun n0 => net (n + n0)%nat) id START_TIME END_TIME
            GRANULARITY) in Hgets, Hsleeps.
    destruct (fetch_candles (fun n0 => net (n + n0)%nat) id START_TIME
                END_TIME GRANULARITY) as [tr [candles | e]];
      cbn [fst snd ended] in *; [| discriminate].
    specialize (Hgets (ex_intro _ candles eq_refl)).
    change (Z.max 0 ((END_TIME - START_TIME + delta - 1) / delta))
      with 39 in Hgets.
    destruct (ret (store_data conn id candles)) as [[] | e];
      cbn [ended steps]; [| discriminate].
    intros Hend.
    destruct (IH net (n + requests_made tr)%nat
                (conn_after (store_data conn id candles)) Hend)
      as (IHg & IHs & IHf).
    rewrite !fetch_events_app, fetch_events_fetching, fetch_events_storing.
    cbn [app]. rewrite gets_app, sleeps_app, !length_app, IHg, IHs.
    cbn [List.length]. split; [lia |]. split; [lia |].
    intros Hin. apply in_app_or in Hin. destruct Hin as [Hin | Hin].
    + apply in_map_iff in Hin. destruct Hin as (ev & Hev & _).
      discriminate Hev.
    + apply in_app_or in Hin. destruct Hin as [Hin | Hin]; [| auto].
      apply in_map_iff in Hin. destruct Hin as (m & Hm & _).
      discriminate Hm.
Qed.

(** X24. A run that finishes has made 78 requests, 39 for each of the two
    products, and has paused for half a second after each of them; its last
    line, and no line before it, is "Pipeline finished.". *)
Theorem run_pipeline_finished (net : network) (file : database) :
  finished (run_pipeline net file) = Returned tt ->
  List.length (gets (fetch_events (output (run_pipeline net file)))) = 78%nat
  /\ sleeps (fetch_events (output (run_pipeline net file)))
     = repeat (1 # 2) 78
  /\ exists before,
       output (run_pipeline net file) = before ++ [PipelineFinished]
       /\ ~ In PipelineFinished before.
Proof.
  unfold run_pipeline.
  pose proof (pipeline_loop_ended PRODUCT_IDS net 0%nat (init_db true file))
    as H.
  destruct (ended (pipeline_loop net 0 (init_db true file) PRODUCT_IDS))
    as [[] | e] eqn:E; cbn [finished output]; [| discriminate].
  intros _. destruct (H eq_refl) as (Hg & Hs & Hf).
  rewrite fetch_events_app, gets_app, sleeps_app, !app_nil_r.
  split; [exact Hg |]. split; [| eauto].
  change 78%nat with (39 * List.length PRODUCT_IDS)%nat. rewrite <- Hs.
  apply Forall_eq_repeat.
  clear. generalize (init_db true file) as conn, 0%nat as n.
  induction PRODUCT_IDS as [| id ids IH]; intros conn n; [constructor |].
  cbn [pipeline_loop].
  pose proof (fetch_loop_sleeps (fun n0 => net (n + n0)%nat) id
                GRANULARITY END_TIME (Z.to_nat (END_TIME - START_TIME))
                START_TIME 0%nat [] ltac:(lia)) as Hsl.
  cbv zeta in Hsl. destruct Hsl as [Hsl _].
  fold (fetch_candles (fun n0 => net (n + n0)%nat) id START_TIME END_TIME
          GRANULARITY) in Hsl.
  assert (Hq : Forall (eq (1 # 2))
                 (sleeps (fst (fetch_candles (fun n0 => net (n + n0)%nat) id
                                 START_TIME END_TIME GRANULARITY)))).
  { eapply Forall_impl; [| exact Hsl]. intros q ->. reflexivity. }
  destruct (snd (fetch_candles (fun n0 => net (n + n0)%nat) id START_TIME
                   END_TIME GRANULARITY)) as [candles | e];
    cbn [steps]; [| rewrite fetch_events_fetching; exact Hq].
  destruct (ret (store_data conn id candles)) as [[] | e]; cbn [steps];
    rewrite !fetch_events_app, fetch_events_fetching, fetch_events_storing,
      ?sleeps_app; cbn [app]; [| rewrite app_nil_r; exact Hq].
  apply Forall_app. split; [exact Hq | apply IH].
Qed.

Lemma run_pipeline_finished_witness :
  finished (run_pipeline sample_net None) = Returned tt
  /\ List.length (gets (fetch_events (output (run_pipeline sample_net None))))
     = 78%nat
  /\ sleeps (fetch_events (output (run_pipeline sample_net None)))
     = repeat (1 # 2) 78
  /\ exists before,
       output (run_pipeline sample_net None) = before ++ [PipelineFinished]
       /\ ~ In PipelineFinished before.
Proof.
  assert (Hf : finished (run_pipeline sample_net None) = Returned tt)
    by (vm_compute; reflexivity).
  split; [exact Hf |].
  apply (run_pipeline_finished sample_net None Hf).
Defined.

(** X25. One candle that [store_data] cannot take costs the whole run: when
    the candles fetched for the first product hold one that has fewer than
    six fields, or whose time is no number within the years 1 to 9999, or
    whose first value that sqlite3 refuses is an int beyond 64 bits, the run
    ends with the exception before it commits anything, so that the file is
    left with an empty candles table, the rows stored before the faulty
    candle being lost; the second product is not fetched, and "Pipeline
    finished." is not printed. *)
Theorem run_pipeline_loses_unfinished_batch (net : network) (file : database)
  (candles : list candle) :
  snd (fetch_candles net "BTC-USD" START_TIME END_TIME GRANULARITY)
  = Returned candles ->
  forallb taken candles = false ->
  (exists e, finished (run_pipeline net file) = Raised e)
  /\ file_after (run_pipeline net file) = Some []
  /\ fetch_events (output (run_pipeline net file))
     = fst (fetch_candles net "BTC-USD" START_TIME END_TIME GRANULARITY)
  /\ ~ In PipelineFinished (output (run_pipeline net file)).
Proof.
  intros Hfetch Hbad.
  unfold run_pipeline, PRODUCT_IDS. cbn [pipeline_loop].
  change (fun n : nat => net (0 + n)%nat) with net. rewrite Hfetch.
  assert (Hret : exists e,
             ret (store_data (init_db true file) "BTC-USD" candles)
             = Raised e).
  { destruct (ret (store_data (init_db true file) "BTC-USD" candles))
      as [[] | e] eqn:Hr; [| eauto].
    apply store_data_returns in Hr.
    apply (store_loop_result_iff "BTC-USD" candles [] 0) in Hr.
    rewrite forallb_handled_taken in Hr. congruence. }
  destruct Hret as (e & Hret).
  pose proof (store_data_raised _ _ _ _ Hret) as Hcom.
  rewrite Hret. cbn [ended steps conn_at_end finished file_after output].
  split; [eauto |]. split; [exact Hcom |].
  split.
  - rewrite fetch_events_app, fetch_events_fetching, fetch_events_storing.
    apply app_nil_r.
  - intros Hin. apply in_app_or in Hin. destruct Hin as [Hin | Hin];
      apply in_map_iff in Hin; destruct Hin as (x & Hx & _); discriminate Hx.
Qed.

Lemma run_pipeline_loses_unfinished_batch_witness :
  snd (fetch_candles short_net "BTC-USD" START_TIME END_TIME GRANULARITY)
  = Returned [sample_candle 1763337600; [PyInt 1763337660]]
  /\ forallb taken [sample_candle 1763337600; [PyInt 1763337660]] = false
  /\ (exists e, finished (run_pipeline short_net None) = Raised e)
  /\ file_after (run_pipeline short_net None) = Some []
  /\ fetch_events (output (run_pipeline short_net None))
     = fst (fetch_candles short_net "BTC-USD" START_TIME END_TIME GRANULARITY)
  /\ ~ In PipelineFinished (output (run_pipeline short_net None)).
Proof.
  assert (Hfetch : snd (fetch_candles short_net "BTC-USD" START_TIME END_TIME
                          GRANULARITY)
                   = Returned [sample_candle 1763337600; [PyInt 1763337660]])
    by (vm_compute; reflexivity).
  assert (Hbad : forallb taken
                   [sample_candle 1763337600; [PyInt 1763337660]]
                 = false) by (vm_compute; reflexivity).
  repeat (split; [assumption |]).
  apply (run_pipeline_loses_unfinished_batch short_net None _ Hfetch Hbad).
Defined.

(** X26. The run and the script together: whatever the network answers and
    however the run ends, the script finds a candles table in the file that
    the run leaves and does not fail; it plots unless the table is empty,
    and its figure shows every row of the data frame, once: the two panels
    are enough for the products of [PRODUCT_IDS]. *)
Theorem run_pipeline_then_main {T : Type} (net : network) (file : database)
  (strftime_hour : string -> option string)
  (to_datetime : option string -> T) :
  exists t df,
    file_after (run_pipeline net file) = Some t
    /\ fetch_aggregated_data strftime_hour to_datetime (Some t) = Returned df
    /\ main strftime_hour to_datetime (file_after (run_pipeline net file))
       = Returned (match df with
                   | [] => NoDataFound
                   | _ :: _ => Plotted (List.length df) (generate_plot df)
                   end)
    /\ (df = [] <-> t = [])
    /\ Permutation (List.concat (map bars (generate_plot df)))
         (map volume_point df)
    /\ Permutation (List.concat (map line (generate_plot df)))
         (map price_point df).
Proof.
  assert (Hfile : file_after (run_pipeline net file)
                  = committed (conn_at_end
                                 (pipeline_loop net 0 (init_db true file)
                                    PRODUCT_IDS))).
  { unfold run_pipeline.
    destruct (ended (pipeline_loop net 0 (init_db true file) PRODUCT_IDS));
      reflexivity. }
  destruct (pipeline_loop_committed PRODUCT_IDS net 0%nat (init_db true file)
              [] eq_refl eq_refl) as (t & E & Hp).
  cbn [app] in E. rewrite Hfile, E.
  change (@Some (list row) t) with (@Some table t).
  destruct (fetch_aggregated_data_length strftime_hour to_datetime t)
    as (df & Edf & Hlen & Hprod).
  exists t, df. split; [reflexivity |]. split; [exact Edf |].
  split; [unfold main; rewrite Edf; reflexivity |].
  destruct (group_by_spec strftime_hour t) as (_ & Hkeys & _).
  split.
  - pose proof (group_by_length strftime_hour t) as Hle. split.
    + intros ->. cbn [List.length] in Hlen.
      destruct t as [| r t]; [reflexivity |]. exfalso.
      assert (Hin : In (group_of strftime_hour r)
                      (map fst (group_by strftime_hour (r :: t))))
        by (apply Hkeys; exists r; split; [left |]; reflexivity).
      destruct (group_by strftime_hour (r :: t)); [destruct Hin |].
      discriminate Hlen.
    + intros ->. destruct df; [reflexivity | discriminate Hlen].
  - assert (Hpq : forall s, In s df ->
                    s_product_id s = "BTC-USD" \/ s_product_id s = "ETH-USD").
    { intros s Hs. apply (in_map s_product_id) in Hs. rewrite Hprod in Hs.
      apply in_map_iff in Hs. destruct Hs as (g & <- & Hg).
      apply (Permutation_in _ (Permutation_map fst
               (Permutation_sym
                  (query_order_perm (group_by strftime_hour t)))))
        in Hg.
      apply Hkeys in Hg. destruct Hg as (r & Hr & <-).
      cbn [group_of fst].
      destruct (Hp r Hr) as [H | [H | []]]; auto. }
    pose proof (generate_plot_shown df) as H. cbv zeta in H.
    rewrite (two_products_all df _ _ Hpq) in H.
    rewrite filter_all in H; [exact H |].
    intros s Hs. apply existsb_eqb_in, unique_in, in_map, Hs.
Qed.

(** ** init_db and a later session *)

(** X27. A later session without reset: when [store_data] has returned on
    the connection of [init_db], opening the file again with [init_db()] and
    storing the same candles for the same product leaves the file as it
    was, and the call prints and returns as the first one did; opening it
    with [init_db(reset=True)] gives an empty table. *)
Theorem init_db_later_session (reset : bool) (file : database)
  (product_id : string) (candles : list candle) :
  ret (store_data (init_db reset file) product_id candles) = Returned tt ->
  exists t,
    committed (conn_after (store_data (init_db reset file) product_id
                             candles))
    = Some t
    /\ conn_after (store_data (init_db false (Some t)) product_id candles)
       = mk_connection (Some t) (Some t)
    /\ stdout (store_data (init_db false (Some t)) product_id candles)
       = stdout (store_data (init_db reset file) product_id candles)
    /\ ret (store_data (init_db false (Some t)) product_id candles)
       = Returned tt
    /\ init_db true (Some t) = mk_connection (Some []) (Some []).
Proof.
  assert (Hopen : exists t0, session (init_db reset file) = Some t0).
  { destruct reset, file as [t0 |]; cbn; eauto. }
  destruct Hopen as (t0 & Hopen).
  generalize dependent (init_db reset file). intros conn Hopen Hret.
  rewrite (store_data_commits _ _ _ Hret), store_data_session, Hopen.
  destruct (store_loop_added candles t0 product_id 0) as (added & E & _).
  exists (t0 ++ added). split; [exact E |].
  assert (Hagain : store_loop (@Some table (t0 ++ added)) product_id candles 0
                   = mk_stored (@Some table (t0 ++ added))
                       (printed (store_loop (Some t0) product_id candles 0))
                       (result (store_loop (Some t0) product_id candles 0))).
  { apply store_loop_again. rewrite E. apply covers_refl. }
  destruct (store_data_returns _ _ _ Hret) as (k & Hk). rewrite Hopen in Hk.
  unfold store_data. cbn [init_db session committed].
  rewrite Hopen, Hagain, Hk. cbn [result db_after printed conn_after stdout ret].
  repeat split; reflexivity.
Qed.

Lemma init_db_later_session_witness :
  ret (store_data (init_db false (Some sample_table)) "BTC-USD"
         [sample_candle 0; sample_candle 60])
  = Returned tt
  /\ exists t,
       committed (conn_after (store_data (init_db false (Some sample_table))
                                "BTC-USD" [sample_candle 0; sample_candle 60]))
       = Some t
       /\ conn_after (store_data (init_db false (Some t)) "BTC-USD"
                        [sample_candle 0; sample_candle 60])
          = mk_connection (Some t) (Some t)
       /\ stdout (store_data (init_db false (Some t)) "BTC-USD"
                    [sample_candle 0; sample_candle 60])
          = stdout (store_data (init_db false (Some sample_table)) "BTC-USD"
                      [sample_candle 0; sample_candle 60])
       /\ ret (store_data (init_db false (Some t)) "BTC-USD"
                 [sample_candle 0; sample_candle 60])
          = Returned tt
       /\ init_db true (Some t) = mk_connection (Some []) (Some []).
Proof.
  assert (Hret : ret (store_data (init_db false (Some sample_table)) "BTC-USD"
                        [sample_candle 0; sample_candle 60])
                 = Returned tt) by reflexivity.
  split; [exact Hret |].
  apply (init_db_later_session false (Some sample_table) "BTC-USD"
           [sample_candle 0; sample_candle 60] Hret).
Defined.
